(** * EasyBuild easyblock for MXNet: a Rocq model of [mxnet.py]

    The easyblock [EB_MXNet] is procedural glue: it rearranges the unpacked
    sources ([extract_step]), derives options for the make-based build
    ([configure_step]), installs the Python and R bindings
    ([extensions_step], [install_r_ext]), checks the result
    ([sanity_check_step]) and emits the module text ([make_module_extra]).

    Python strings are [string]; [None] is [option]; exceptions are the
    [Raised] outcome of a state-passing computation whose state survives
    the exception, as a mutated Python object does. *)

From Stdlib Require Import String Ascii List Bool Arith NArith Permutation.
Import ListNotations.
Local Open Scope list_scope.
Local Open Scope string_scope.

(* ================================================================== *)
(** ** Python strings *)
(* ================================================================== *)

Module PyStr.

(** The double-quote character, used by the option strings [VAR="value"]. *)
Definition dquote : string := String (ascii_of_nat 34) EmptyString.

(** [str.startswith]. *)
Definition startswith (s pre : string) : bool := String.prefix pre s.

(** [s[n:]]. *)
Fixpoint drop (n : nat) (s : string) : string :=
  match n, s with
  | O, _ => s
  | S n', String _ s' => drop n' s'
  | S _, EmptyString => EmptyString
  end.

(** [sub in s] for a non-empty [sub]. *)
Fixpoint contains (sub s : string) : bool :=
  String.prefix sub s ||
  match s with
  | EmptyString => false
  | String _ s' => contains sub s'
  end.

(** [str.endswith] for a single character. *)
Fixpoint ends_with_char (c : ascii) (s : string) : bool :=
  match s with
  | EmptyString => false
  | String a EmptyString => Ascii.eqb a c
  | String _ s' => ends_with_char c s'
  end.

(** The split of [s] around the LAST occurrence of [sep]: the text before
    it and the text after it, or [None] when [sep] does not occur. *)
Fixpoint rsplit_last (sep s : string) : option (string * string) :=
  match s with
  | EmptyString => None
  | String c s' =>
      match rsplit_last sep s' with
      | Some (h, t) => Some (String c h, t)
      | None =>
          if String.prefix sep s then Some (EmptyString, drop (String.length sep) s)
          else None
      end
  end.

(** [s.rpartition(sep)]: [(head, sep, tail)] around the last occurrence of
    [sep]; when [sep] does not occur, two empty strings and then [s]. *)
Definition rpartition (s sep : string) : string * string * string :=
  match rsplit_last sep s with
  | Some (h, t) => (h, sep, t)
  | None => (EmptyString, EmptyString, s)
  end.

(** [s.replace(old, new)] for a non-empty [old]: every occurrence, scanning
    from the left, occurrences not overlapping.  [skip] counts the characters
    of an occurrence already replaced that are still to be passed over. *)
Fixpoint replace_from (old new : string) (skip : nat) (s : string) : string :=
  match s with
  | EmptyString => EmptyString
  | String c s' =>
      match skip with
      | S k => replace_from old new k s'
      | O =>
          if String.prefix old s
          then new ++ replace_from old new (String.length old - 1) s'
          else String c (replace_from old new 0 s')
      end
  end.

Definition replace (s old new : string) : string := replace_from old new 0 s.

(** ['%s' % x] for a value that is a string or [None]. *)
Definition str_of (x : option string) : string :=
  match x with
  | Some s => s
  | None => "None"
  end.

(** Truth value of a string-or-[None]: [None] and the empty string are false. *)
Definition truthy (x : option string) : bool :=
  match x with
  | Some (String _ _) => true
  | _ => false
  end.

(** [str.lower] on ASCII letters. *)
Definition lower_char (c : ascii) : ascii :=
  let n := nat_of_ascii c in
  if ((65 <=? n) && (n <=? 90))%nat then ascii_of_nat (n + 32) else c.

Fixpoint lower (s : string) : string :=
  match s with
  | EmptyString => EmptyString
  | String c s' => String (lower_char c) (lower s')
  end.

(** [s.rstrip(c)] for one character [c]. *)
Fixpoint rstrip_char (c : ascii) (s : string) : string :=
  match s with
  | EmptyString => EmptyString
  | String a s' =>
      match rstrip_char c s' with
      | EmptyString => if Ascii.eqb a c then EmptyString else String a EmptyString
      | r => String a r
      end
  end.

(** Whether every character of [s] is [c]. *)
Fixpoint all_char (c : ascii) (s : string) : bool :=
  match s with
  | EmptyString => true
  | String a s' => Ascii.eqb a c && all_char c s'
  end.

End PyStr.

(* ================================================================== *)
(** ** [os.path] on path strings *)
(* ================================================================== *)

Module OsPath.

Definition sep : string := "/".

(** [os.path.join(a, b)] (posixpath): an absolute [b] replaces [a];
    otherwise [b] is appended, after a slash unless [a] is empty or already
    ends with one. *)
Definition join (a b : string) : string :=
  if PyStr.startswith b sep then b
  else if (a =? EmptyString) || PyStr.ends_with_char "/" a then a ++ b
  else a ++ sep ++ b.

(** [os.path.basename(p)]: what follows the last slash. *)
Definition basename (p : string) : string :=
  match PyStr.rsplit_last sep p with
  | Some (_, t) => t
  | None => p
  end.

(** [os.path.split(p)]: the text up to the last slash, without its trailing
    slashes unless it consists of slashes only, and the text after it. *)
Definition split (p : string) : string * string :=
  match PyStr.rsplit_last sep p with
  | Some (h, t) =>
      let head := h ++ sep in
      (if PyStr.all_char "/" head then head else PyStr.rstrip_char "/" head, t)
  | None => (EmptyString, p)
  end.

End OsPath.

(* ================================================================== *)
(** ** Exceptions and the computation monad *)
(* ================================================================== *)

(** Error conditions of the operating system ([OSError]; in Python 3
    [IOError] is the same class, and [shutil.Error] is a subclass).
    [FileNotFound msg] is the [FileNotFoundError] that [shutil.copyfile]
    raises with a message and no error number. *)
Inductive oserror : Type :=
| ENOENT | ENOTDIR | EEXIST | ENOTEMPTY | EISDIR | EINVAL | EBUSY
| ShutilError (msg : string)
| FileNotFound (msg : string).

(** Exceptions.  [EasyBuildError(fmt, *args)] keeps its format string and
    its arguments apart, as the [raise] sites write them. *)
Inductive exn : Type :=
| EasyBuildError (fmt : string) (args : list fmt_arg)
| OSError (e : oserror)
| TypeError (msg : string)
| IndexError (msg : string)
| AttributeError (msg : string)
| UnboundLocalError (var : string)
with fmt_arg : Type :=
| FStr (s : string)
| FStrList (l : list string)
| FNat (n : nat)
| FExn (e : exn)
| FExnList (l : list exn).

Inductive result (A : Type) : Type :=
| Returned (a : A)
| Raised (e : exn).
Arguments Returned {A} a.
Arguments Raised {A} e.

(** A computation over a mutable state [S]: the state is returned on both
    outcomes, an exception does not undo the mutations made before it. *)
Definition M (S A : Type) : Type := S -> result A * S.

Definition ret {S A} (a : A) : M S A := fun s => (Returned a, s).

Definition bind {S A B} (m : M S A) (k : A -> M S B) : M S B :=
  fun s =>
    match m s with
    | (Returned a, s') => k a s'
    | (Raised e, s') => (Raised e, s')
    end.

Definition raise {S A} (e : exn) : M S A := fun s => (Raised e, s).

Definition gets {S A} (f : S -> A) : M S A := fun s => (Returned (f s), s).

Definition modify {S} (f : S -> S) : M S unit := fun s => (Returned tt, f s).

(** [try: m except <handled> as err: h err]: [handler e] is [Some h] for the
    exceptions the clause catches. *)
Definition try_except {S A} (m : M S A) (handler : exn -> option (M S A)) : M S A :=
  fun s =>
    match m s with
    | (Returned a, s') => (Returned a, s')
    | (Raised e, s') =>
        match handler e with
        | Some h => h s'
        | None => (Raised e, s')
        end
    end.

Declare Scope py_scope.
Delimit Scope py_scope with py.
Notation "x <- m ;; k" := (bind m (fun x => k))
  (at level 100, m at next level, right associativity) : py_scope.
Notation "m ;; k" := (bind m (fun _ => k))
  (at level 100, right associativity) : py_scope.
Local Open Scope py_scope.

(** [for x in l: body x]; an exception in the body leaves the loop. *)
Fixpoint for_each {S A} (l : list A) (body : A -> M S unit) : M S unit :=
  match l with
  | [] => ret tt
  | x :: l' => body x ;; for_each l' body
  end.

(** [if c: m] with no [else]. *)
Definition when {S} (c : bool) (m : M S unit) : M S unit :=
  if c then m else ret tt.

(* ================================================================== *)
(** ** [distutils.version.LooseVersion] *)
(* ================================================================== *)

Module LooseVersion.

(** A component of a parsed version: a number or a piece of text. *)
Inductive component : Type :=
| CInt (n : N)
| CStr (s : string).

Inductive cclass : Type := KDigit | KLower | KDot | KOther.

Definition cclass_eqb (a b : cclass) : bool :=
  match a, b with
  | KDigit, KDigit | KLower, KLower | KDot, KDot | KOther, KOther => true
  | _, _ => false
  end.

(** The classes of [component_re = (\d+ | [a-z]+ | \.)], on ASCII text. *)
Definition classify (c : ascii) : cclass :=
  let n := nat_of_ascii c in
  if ((48 <=? n) && (n <=? 57))%nat then KDigit
  else if ((97 <=? n) && (n <=? 122))%nat then KLower
  else if (n =? 46)%nat then KDot
  else KOther.

(** [int(x)] on a run of digits, [acc] the value read so far. *)
Fixpoint int_of_digits (acc : N) (s : string) : N :=
  match s with
  | EmptyString => acc
  | String c s' => int_of_digits (acc * 10 + N.of_nat (nat_of_ascii c - 48))%N s'
  end.

Definition component_of (k : cclass) (run : string) : component :=
  match k with
  | KDigit => CInt (int_of_digits 0 run)
  | _ => CStr run
  end.

Definition flush (cur : option (cclass * string)) : list component :=
  match cur with
  | Some (k, run) => [component_of k run]
  | None => []
  end.

(** [component_re.split(vstring)] without the empty pieces and the dots:
    the maximal runs of digits, of lower-case letters and of other
    characters, in order.  [cur] is the run being read. *)
Fixpoint runs (cur : option (cclass * string)) (s : string) : list component :=
  match s with
  | EmptyString => flush cur
  | String c s' =>
      let k := classify c in
      match k, cur with
      | KDot, _ => (flush cur ++ runs None s')%list
      | _, Some (k', run) =>
          if cclass_eqb k k' then runs (Some (k, run ++ String c EmptyString)) s'
          else (flush cur ++ runs (Some (k, String c EmptyString)) s')%list
      | _, None => runs (Some (k, String c EmptyString)) s'
      end
  end.

(** [LooseVersion(vstring).version]; the attribute is not set when
    [vstring] is [None] or empty. *)
Definition parse (vstring : option string) : option (list component) :=
  match vstring with
  | Some (String c s) => Some (runs None (String c s))
  | _ => None
  end.

Definition component_eqb (a b : component) : bool :=
  match a, b with
  | CInt x, CInt y => N.eqb x y
  | CStr x, CStr y => String.eqb x y
  | _, _ => false
  end.

(** Order of two lists of components, as Python orders lists: the first
    pair of unequal components decides, and a number against a text there
    is a [TypeError]. *)
Fixpoint cmp (a b : list component) : result comparison :=
  match a, b with
  | [], [] => Returned Eq
  | [], _ :: _ => Returned Lt
  | _ :: _, [] => Returned Gt
  | x :: a', y :: b' =>
      if component_eqb x y then cmp a' b'
      else
        match x, y with
        | CInt m, CInt n => Returned (N.compare m n)
        | CStr s, CStr t => Returned (String.compare s t)
        | CInt _, CStr _ =>
            Raised (TypeError "'<' not supported between instances of 'int' and 'str'")
        | CStr _, CInt _ =>
            Raised (TypeError "'<' not supported between instances of 'str' and 'int'")
        end
  end.

(** [LooseVersion(a) >= LooseVersion(b)]. *)
Definition ge (a b : option string) : result bool :=
  match parse a, parse b with
  | Some va, Some vb =>
      match cmp va vb with
      | Returned Lt => Returned false
      | Returned _ => Returned true
      | Raised e => Raised e
      end
  | _, _ => Raised (AttributeError "'LooseVersion' object has no attribute 'version'")
  end.

End LooseVersion.

(* ================================================================== *)
(** ** The file system as the easyblock sees it *)
(* ================================================================== *)

(** The operations [mxnet.py] asks of the file system, over a state [W].
    [fs_remove_dir] is what one attempt of [remove_dir] of
    [easybuild.tools.filetools] does to the file system (nothing when the
    path does not exist, else [shutil.rmtree]); [fs_move] is [shutil.move];
    both hand back the state they leave behind when they fail. *)
Class FileSystem (W : Type) : Type := {
  fs_exists : string -> W -> bool;
  fs_listdir : string -> W -> oserror + list string;
  fs_rename : string -> string -> W -> oserror + W;
  fs_remove_dir : string -> W -> option oserror * W;
  fs_move : string -> string -> W -> option oserror * W
}.

Module Glob.

(** [glob.has_magic]. *)
Fixpoint has_magic (s : string) : bool :=
  match s with
  | EmptyString => false
  | String c s' =>
      Ascii.eqb c "*" || Ascii.eqb c "?" || Ascii.eqb c "[" || has_magic s'
  end.

(** [glob._ishidden]. *)
Definition ishidden (name : string) : bool := PyStr.startswith name ".".

(** [fnmatch.fnmatchcase(name, pat)] for patterns made of [*], [?] and
    literal characters: [*] stands for any text, [?] for one character. *)
Fixpoint fnmatch (pat name : string) : bool :=
  match pat with
  | EmptyString =>
      match name with EmptyString => true | _ => false end
  | String p pat' =>
      if Ascii.eqb p "*" then
        (fix from (n : string) : bool :=
           fnmatch pat' n ||
           match n with
           | EmptyString => false
           | String _ n' => from n'
           end) name
      else
        match name with
        | EmptyString => false
        | String c name' => (Ascii.eqb p "?" || Ascii.eqb p c) && fnmatch pat' name'
        end
  end.

(** The names [glob] keeps in one directory ([glob._glob1]): a pattern that
    does not itself start with a dot never matches a hidden name. *)
Definition glob1 (names : list string) (pattern : string) : list string :=
  filter (fun x => (ishidden pattern || negb (ishidden x)) && fnmatch pattern x) names.

(** [glob.glob(pathname)] for a [pathname] whose directory part holds no
    pattern character and whose last part does: the matching entries of the
    directory, each joined to the directory part.  A directory that cannot be
    listed gives the empty list; an empty directory part lists [.]. *)
Definition glob {W} `{FileSystem W} (pathname : string) (w : W) : list string :=
  let '(dirname, pattern) := OsPath.split pathname in
  let names :=
    match fs_listdir (if dirname =? EmptyString then "." else dirname) w with
    | inr l => l
    | inl _ => []
    end in
  map (OsPath.join dirname) (glob1 names pattern).

End Glob.

(* ================================================================== *)
(** ** The easyblock object and its collaborators *)
(* ================================================================== *)

(** The value of an entry of [toolchain.definition()]: [None] or a list of
    module names. *)
Inductive tcval : Type :=
| TcNone
| TcList (l : list (option string)).

(** [self.cfg]: the options this easyblock reads or updates. *)
Record EasyConfig : Type := {
  buildopts : list string;
  install_r_ext : bool;
  files_to_copy : list string
}.

(** [extra_vars] of [extra_options()]: the option this easyblock adds, with
    its default and its help text. *)
Definition extra_vars : list (string * (bool * string)) :=
  [("install_r_ext", (false, "Enable installation of R extensions"))].

(** The default of [install_r_ext]: [extra_vars['install_r_ext'][0]]. *)
Definition install_r_ext_default : bool :=
  match extra_vars with
  | (_, (default, _)) :: _ => default
  | [] => false
  end.

(** An extension object ([PythonPackage], [RPackage]): the attributes set
    or read here. *)
Record Extension : Type := {
  src : option string;
  modulename : option string;
  all_pylibdirs : list string
}.

Record EB_MXNet : Type := {
  name : string;
  builddir : string;
  installdir : string;
  cfg : EasyConfig;
  toolchain_definition : list (string * tcval);
  mxnet_src_dir : option string;
  py_ext : Extension;
  r_ext : Extension
}.

(** What is read from the process environment and the loaded modules. *)
Record Env : Type := {
  getenv : string -> option string;
  get_software_root : string -> option string;
  get_software_version : string -> option string;
  get_shared_lib_ext : string
}.

(** How the collaborators answer when [sanity_check_step] calls them. *)
Record Collaborators : Type := {
  super_sanity_check_step : list string -> list string -> option exn;
  load_fake_module : result string;
  py_sanity_check_step : bool;
  r_sanity_check_step : bool
}.

(** A piece of module text: what the parent class wrote, or one
    [module_generator.prepend_paths(key, paths)] statement. *)
Inductive stmt : Type :=
| SuperText (txt : string)
| PrependPaths (key : string) (paths : list string).

(** Calls made to the framework, the parent class and the two extension
    installers, in the order they are made.  [SuperConfigureStep opts] is the
    call of the parent's [configure_step], where the step hands over to the
    framework: [opts] is what [cfg['buildopts']] holds then, the options the
    build is run with. *)
Inductive call : Type :=
| LogDebug (fmt : string) (args : list string)
| SuperExtractStep
| SuperConfigureStep (opts : list string)
| SuperInstallStep (files : list string)
| ChangeDir (path : string)
| Mkdir (path : string)
| Symlink (target link : string)
| WriteFile (path contents : string)
| RunCmd (cmd : string)
| PyPrerun
| PyRun (unpack_src : bool)
| PyPostrun
| RPrerun
| RRun
| RPostrun
| SuperSanityCheckStep (files dirs : list string)
| LoadFakeModule
| PySanityCheckStep
| RSanityCheckStep
| CleanUpFakeModule (fake_mod_data : string)
| SuperMakeModuleExtra.

(** The state a step runs in: the easyblock, the file system, and the calls
    made so far. *)
Record world (W : Type) : Type := {
  self : EB_MXNet;
  fs : W;
  calls : list call
}.
Arguments self {W} w.
Arguments fs {W} w.
Arguments calls {W} w.
Arguments Build_world {W} self fs calls.

(** How the functions that [extensions_step] and [install_r_ext] call
    answer: [change_dir], [mkdir], [symlink] and [write_file] of
    [easybuild.tools.filetools], [run_cmd] of [easybuild.tools.run], and
    [prerun], [run] and [postrun] of the two extension objects.  Their code
    is not part of this repository, so that they are taken as given: a
    call, made on a file system, leaves a file system and may raise. *)
Record Framework (W : Type) : Type := {
  framework_call : call -> W -> option exn * W
}.
Arguments framework_call {W} _ _ _.

(** The namespace file for the R extension ([R_NAMESPACE]). *)
Definition nl : string := String (ascii_of_nat 10) EmptyString.

Definition R_NAMESPACE : string :=
  "# Export all names" ++ nl ++
  "exportPattern(" ++ PyStr.dquote ++ "." ++ PyStr.dquote ++ ")" ++ nl ++
  nl ++
  "# Import all packages listed as Imports or Depends" ++ nl ++
  "import(" ++ nl ++
  "methods," ++ nl ++
  "Rcpp," ++ nl ++
  "DiagrammeR," ++ nl ++
  "data.table," ++ nl ++
  "jsonlite," ++ nl ++
  "magrittr," ++ nl ++
  "stringr" ++ nl ++
  ")" ++ nl.

Section Easyblock.

Context {W : Type} {FS : FileSystem W}.
Variable E : Env.
Variable C : Collaborators.
Variable F : Framework W.

(** *** Access to the state *)

Definition set_self (f : EB_MXNet -> EB_MXNet) : M (world W) unit :=
  modify (fun w => Build_world (f (self w)) (fs w) (calls w)).

Definition do_call (c : call) : M (world W) unit :=
  modify (fun w => Build_world (self w) (fs w) (calls w ++ [c])%list).

(** A call answered by the framework: the call is recorded, the file
    system is the one the call leaves, and what the call raises is raised
    here. *)
Definition call_framework (c : call) : M (world W) unit :=
  fun w =>
    let '(r, f) := framework_call F c (fs w) in
    let w' := Build_world (self w) f (calls w ++ [c])%list in
    match r with
    | None => (Returned tt, w')
    | Some e => (Raised e, w')
    end.

Definition change_dir (path : string) : M (world W) unit :=
  call_framework (ChangeDir path).

Definition mkdir (path : string) : M (world W) unit :=
  call_framework (Mkdir path).

Definition symlink (source_path symlink_path : string) : M (world W) unit :=
  call_framework (Symlink source_path symlink_path).

Definition write_file (path data : string) : M (world W) unit :=
  call_framework (WriteFile path data).

Definition run_cmd (cmd : string) : M (world W) unit :=
  call_framework (RunCmd cmd).

(** [self.cfg.update('buildopts', value)]: the value is added after what the
    option holds already. *)
Definition cfg_update_buildopts (value : string) : M (world W) unit :=
  set_self (fun s =>
    Build_EB_MXNet (name s) (builddir s) (installdir s)
      (Build_EasyConfig (buildopts (cfg s) ++ [value])%list
         (install_r_ext (cfg s)) (files_to_copy (cfg s)))
      (toolchain_definition s) (mxnet_src_dir s) (py_ext s) (r_ext s)).

Definition set_files_to_copy (l : list string) : M (world W) unit :=
  set_self (fun s =>
    Build_EB_MXNet (name s) (builddir s) (installdir s)
      (Build_EasyConfig (buildopts (cfg s)) (install_r_ext (cfg s)) l)
      (toolchain_definition s) (mxnet_src_dir s) (py_ext s) (r_ext s)).

Definition set_mxnet_src_dir (d : option string) : M (world W) unit :=
  set_self (fun s =>
    Build_EB_MXNet (name s) (builddir s) (installdir s) (cfg s)
      (toolchain_definition s) d (py_ext s) (r_ext s)).

Definition set_py_ext_src (d : string) : M (world W) unit :=
  set_self (fun s =>
    Build_EB_MXNet (name s) (builddir s) (installdir s) (cfg s)
      (toolchain_definition s) (mxnet_src_dir s)
      (Build_Extension (Some d) (modulename (py_ext s)) (all_pylibdirs (py_ext s)))
      (r_ext s)).

Definition set_r_ext_src (d : string) : M (world W) unit :=
  set_self (fun s =>
    Build_EB_MXNet (name s) (builddir s) (installdir s) (cfg s)
      (toolchain_definition s) (mxnet_src_dir s) (py_ext s)
      (Build_Extension (Some d) (modulename (r_ext s)) (all_pylibdirs (r_ext s)))).

Definition set_r_ext_modulename (m : string) : M (world W) unit :=
  set_self (fun s =>
    Build_EB_MXNet (name s) (builddir s) (installdir s) (cfg s)
      (toolchain_definition s) (mxnet_src_dir s) (py_ext s)
      (Build_Extension (src (r_ext s)) (Some m) (all_pylibdirs (r_ext s)))).

(** *** File-system calls as computations *)

Definition os_listdir (path : string) : M (world W) (list string) :=
  fun w =>
    match fs_listdir path (fs w) with
    | inr l => (Returned l, w)
    | inl e => (Raised (OSError e), w)
    end.

Definition os_path_exists (path : string) : M (world W) bool :=
  gets (fun w => fs_exists path (fs w)).

Definition os_rename (old new : string) : M (world W) unit :=
  fun w =>
    match fs_rename old new (fs w) with
    | inr f => (Returned tt, Build_world (self w) f (calls w))
    | inl e => (Raised (OSError e), w)
    end.

(** The attempts of [remove_dir]: the removal is tried up to [n] times,
    each time on the file system the failed attempt before it left; the
    errors of the failed attempts are collected.  [inr] is a removal that
    went through. *)
Fixpoint rmtree_attempts (n : nat) (path : string) (f : W) (errors : list exn)
    : (list exn + unit) * W :=
  match n with
  | O => (inl errors, f)
  | S n' =>
      match fs_remove_dir path f with
      | (None, f') => (inr tt, f')
      | (Some e, f') => rmtree_attempts n' path f' (errors ++ [OSError e])%list
      end
  end.

(** [remove_dir(path)] of [easybuild.tools.filetools] (outside a dry run):
    three attempts, and an [EasyBuildError] that lists their errors when the
    third fails too. *)
Definition remove_dir (path : string) : M (world W) unit :=
  fun w =>
    let max_attempts := 3 in
    match rmtree_attempts max_attempts path (fs w) [] with
    | (inr _, f) => (Returned tt, Build_world (self w) f (calls w))
    | (inl errors, f) =>
        (Raised (EasyBuildError
                   ("Failed to remove directory %s even after %d attempts." ++ nl ++
                    "Reasons: %s")
                   [FStr path; FNat max_attempts; FExnList errors]),
         Build_world (self w) f (calls w))
    end.

Definition shutil_move (old new : string) : M (world W) unit :=
  fun w =>
    match fs_move old new (fs w) with
    | (None, f) => (Returned tt, Build_world (self w) f (calls w))
    | (Some e, f) => (Raised (OSError e), Build_world (self w) f (calls w))
    end.

Definition glob_glob (pathname : string) : M (world W) (list string) :=
  gets (fun w => Glob.glob pathname (fs w)).

(** [os.path.join(a, b)] where [a] may be [None]. *)
Definition join_attr (a : option string) (b : string) : M (world W) string :=
  match a with
  | Some d => ret (OsPath.join d b)
  | None => raise (TypeError "expected str, bytes or os.PathLike object, not NoneType")
  end.

(** *** [__init__] *)

Definition init (nm bdir idir : string) (c : EasyConfig)
    (tc : list (string * tcval)) (pylibdirs : list string) : EB_MXNet :=
  Build_EB_MXNet nm bdir idir c tc None
    (Build_Extension None None pylibdirs)
    (Build_Extension None None []).

(** *** [extract_step] *)

(** The first half of the loop body of [extract_step] for one entry
    [srcdir] of the build directory: the submodule name, and the renaming
    of a [oneDNN] directory.  Its value is [(submodule, srcdir)] as the
    second half finds them. *)
Definition rename_onednn (srcdir : string) : M (world W) (string * string) :=
  bdir <- gets (fun w => builddir (self w)) ;;
  let '(submodule, _, _) := PyStr.rpartition srcdir "-" in
  if submodule =? "oneDNN" then
    let old_srcdir := srcdir in
    let srcdir := PyStr.replace srcdir "oneDNN" "mkldnn" in
    os_rename (OsPath.join bdir old_srcdir) (OsPath.join bdir srcdir) ;;
    ret ("mkldnn", srcdir)
  else ret (submodule, srcdir).

(** The [except IOError as err] clause around [shutil.move]. *)
Definition move_error (olddir newdir : string) (err : exn) : option (M (world W) unit) :=
  match err with
  | OSError _ =>
      Some (raise (EasyBuildError "Failed to move %s to %s: %s"
                     [FStr olddir; FStr newdir; FExn err]))
  | _ => None
  end.

(** The whole loop body. *)
Definition move_submodule (srcdir : string) : M (world W) unit :=
  names <- rename_onednn srcdir ;;
  let '(submodule, srcdir) := names in
  bdir <- gets (fun w => builddir (self w)) ;;
  main <- gets (fun w => mxnet_src_dir (self w)) ;;
  let olddir := OsPath.join bdir srcdir in
  dir3 <- join_attr main "3rdparty" ;;
  let newdir := OsPath.join dir3 submodule in
  remove_dir newdir ;;
  try_except (shutil_move olddir newdir) (move_error olddir newdir).

(** [os.path.basename(self.mxnet_src_dir)]. *)
Definition main_basename : M (world W) string :=
  main <- gets (fun w => mxnet_src_dir (self w)) ;;
  match main with
  | Some d => ret (OsPath.basename d)
  | None => raise (TypeError "expected str, bytes or os.PathLike object, not NoneType")
  end.

(** The step proper; the file system is the one the parent's extraction
    leaves, with every source archive unpacked under [builddir]. *)
Definition extract_step : M (world W) unit :=
  do_call SuperExtractStep ;;
  bdir <- gets (fun w => builddir (self w)) ;;
  mxnet_dirs <- glob_glob (OsPath.join bdir "*mxnet-*") ;;
  match mxnet_dirs with
  | [d] =>
      set_mxnet_src_dir (Some d) ;;
      do_call (LogDebug "MXNet dir is: %s" [d])
  | _ =>
      raise (EasyBuildError "Failed to find/isolate MXNet source directory: %s"
               [FStrList mxnet_dirs])
  end ;;
  entries <- os_listdir bdir ;;
  base <- main_basename ;;
  for_each (filter (fun d => negb (d =? base)) entries) move_submodule.

(** *** [configure_step] *)

(** ['%s="%s"' % (var, value)]. *)
Definition assignment (var : string) (value : option string) : string :=
  var ++ "=" ++ PyStr.dquote ++ PyStr.str_of value ++ PyStr.dquote.

(** [dict.get(key, None)] on the toolchain definition. *)
Fixpoint dict_get (d : list (string * tcval)) (key : string) : tcval :=
  match d with
  | [] => TcNone
  | (k, v) :: d' => if k =? key then v else dict_get d' key
  end.

(** [v[0]]. *)
Definition subscript0 (v : tcval) : M (world W) (option string) :=
  match v with
  | TcNone => raise (TypeError "'NoneType' object is not subscriptable")
  | TcList [] => raise (IndexError "list index out of range")
  | TcList (x :: _) => ret x
  end.

(** [self.toolchain.definition().get('BLAS', None)[0]]. *)
Definition toolchain_blas : M (world W) (option string) :=
  d <- gets (fun w => toolchain_definition (self w)) ;;
  subscript0 (dict_get d "BLAS").

(** [x == y] for a string-or-[None] [x] and a string [y]. *)
Definition is_str (x : option string) (y : string) : bool :=
  match x with
  | Some s => s =? y
  | None => false
  end.

(** The [if]/[elif] chain on the BLAS library of the toolchain.  Its value
    is the local variable [blas] afterwards: [None] when no branch has
    bound it. *)
Definition select_blas (tc_blas : option string) : M (world W) (option string) :=
  if is_str tc_blas "imkl" then
    let imkl_version := get_software_version E "imkl" in
    match LooseVersion.ge imkl_version (Some "17") with
    | Raised e => raise e
    | Returned newer =>
        when newer (cfg_update_buildopts "USE_MKL2017=1") ;;
        cfg_update_buildopts (assignment "MKLML_ROOT" (getenv E "MKLROOT")) ;;
        ret (Some "mkl")
    end
  else if is_str tc_blas "ACML" || is_str tc_blas "ATLAS" then ret (Some "atlas")
  else if is_str tc_blas "OpenBLAS" then ret (Some "openblas")
  else if is_str tc_blas "FlexiBLAS" then ret (Some "flexiblas")
  else
    match tc_blas with
    | None => raise (EasyBuildError "No BLAS library found in the toolchain" [])
    | Some _ => ret None
    end.

(** Reading a local variable. *)
Definition read_local (var : string) (v : option string) : M (world W) string :=
  match v with
  | Some x => ret x
  | None => raise (UnboundLocalError var)
  end.

Definition configure_step : M (world W) unit :=
  for_each [("CC", "CC"); ("CXX", "CXX"); ("ADD_CFLAGS", "CFLAGS"); ("ADD_LDFLAGS", "LDFLAGS")]
    (fun '(var, env_var) => cfg_update_buildopts (assignment var (getenv E env_var))) ;;
  tc_blas <- toolchain_blas ;;
  blas_var <- select_blas tc_blas ;;
  blas <- read_local "blas" blas_var ;;
  cfg_update_buildopts (assignment "USE_BLAS" (Some blas)) ;;
  when (PyStr.truthy (get_software_root E "NNPACK")) (cfg_update_buildopts "USE_NNPACK=1") ;;
  opts <- gets (fun w => buildopts (cfg (self w))) ;;
  do_call (SuperConfigureStep opts).

(** *** [install_step] *)

Definition install_step : M (world W) unit :=
  set_files_to_copy ["bin"; "include"; "lib"] ;;
  files <- gets (fun w => files_to_copy (cfg (self w))) ;;
  do_call (SuperInstallStep files).

(** *** [extensions_step] and [install_r_ext] *)

Definition rscript_export_cmd (idir : string) : string :=
  "R_LIBS=" ++ idir ++ " Rscript -e " ++ PyStr.dquote ++
  "require(mxnet); mxnet:::mxnet.export(\" ++ PyStr.dquote ++ "R-package\" ++
  PyStr.dquote ++ ")" ++ PyStr.dquote.

Definition do_install_r_ext : M (world W) unit :=
  main <- gets (fun w => mxnet_src_dir (self w)) ;;
  rsrc <- join_attr main "R-package" ;;
  set_r_ext_src rsrc ;;
  change_dir rsrc ;;
  mkdir "inst" ;;
  idir <- gets (fun w => installdir (self w)) ;;
  symlink (OsPath.join idir "lib") (OsPath.join "inst" "libs") ;;
  symlink (OsPath.join idir "include") (OsPath.join "inst" "include") ;;
  write_file "NAMESPACE" R_NAMESPACE ;;
  match main with
  | Some d => change_dir d
  | None =>
      raise (TypeError
               "chdir: path should be string, bytes, os.PathLike or integer, not NoneType")
  end ;;
  call_framework RPrerun ;;
  call_framework RRun ;;
  run_cmd (rscript_export_cmd idir) ;;
  change_dir rsrc ;;
  call_framework RRun ;;
  call_framework RPostrun.

Definition extensions_step : M (world W) unit :=
  main <- gets (fun w => mxnet_src_dir (self w)) ;;
  pysrc <- join_attr main "python" ;;
  set_py_ext_src pysrc ;;
  change_dir pysrc ;;
  call_framework PyPrerun ;;
  call_framework (PyRun false) ;;
  call_framework PyPostrun ;;
  enabled <- gets (fun w => install_r_ext (cfg (self w))) ;;
  if enabled then do_install_r_ext
  else do_call (LogDebug "Skipping R extension installation" []).

(** *** [sanity_check_step] *)

Definition sanity_check_step : M (world W) unit :=
  let files := ["lib/libmxnet.a"; "lib/libmxnet." ++ get_shared_lib_ext E] in
  do_call (SuperSanityCheckStep files []) ;;
  match super_sanity_check_step C files [] with
  | Some e => raise e
  | None => ret tt
  end ;;
  fake_mod_data <-
    try_except
      (do_call LoadFakeModule ;;
       match load_fake_module C with
       | Returned d => ret d
       | Raised e => raise e
       end)
      (fun err =>
         match err with
         | EasyBuildError _ _ =>
             Some (raise (EasyBuildError "Loading fake module failed: %s" [FExn err]))
         | _ => None
         end) ;;
  do_call PySanityCheckStep ;;
  (if py_sanity_check_step C then ret tt
   else raise (EasyBuildError "The sanity check for the Python bindings failed" [])) ;;
  nm <- gets (fun w => name (self w)) ;;
  set_r_ext_modulename (PyStr.lower nm) ;;
  do_call RSanityCheckStep ;;
  (if r_sanity_check_step C then ret tt
   else raise (EasyBuildError "The sanity check for the R bindings failed" [])) ;;
  do_call (CleanUpFakeModule fake_mod_data).

(** *** [make_module_extra] *)

(** One round of the loop over [self.py_ext.all_pylibdirs]: [txt] is the
    module text so far. *)
Definition extend_pythonpath (txt : list stmt) (path : string) : M (world W) (list stmt) :=
  idir <- gets (fun w => installdir (self w)) ;;
  let fullpath := OsPath.join idir path in
  present <- os_path_exists fullpath ;;
  if present then
    entries <- os_listdir fullpath ;;
    match entries with
    | [] => ret txt
    | _ :: _ => ret (txt ++ [PrependPaths "PYTHONPATH" [path]])%list
    end
  else ret txt.

Fixpoint fold_paths (txt : list stmt) (paths : list string) : M (world W) (list stmt) :=
  match paths with
  | [] => ret txt
  | p :: paths' => txt' <- extend_pythonpath txt p ;; fold_paths txt' paths'
  end.

Definition make_module_extra (super_txt : string) : M (world W) (list stmt) :=
  do_call SuperMakeModuleExtra ;;
  let txt := [SuperText super_txt] in
  dirs <- gets (fun w => all_pylibdirs (py_ext (self w))) ;;
  txt <- fold_paths txt dirs ;;
  ret (txt ++ [PrependPaths "R_LIBS" [EmptyString]])%list.

End Easyblock.

(* ================================================================== *)
(** ** A file system of directory trees *)
(* ================================================================== *)

(** An instance of [FileSystem]: a tree of directories and regular files,
    without symbolic links, permissions or devices.  A directory lists its
    entries in some order, names unique.  Paths are read from the root of
    the tree (the working directory is the root); empty components and [.]
    are passed over, and [..] is not interpreted: it names no entry. *)
Module TreeFS.

#[warnings="-register-all"] Inductive node : Type :=
| File (data : string)
| Dir (entries : list (string * node)).

Definition is_dir (n : node) : bool :=
  match n with
  | Dir _ => true
  | File _ => false
  end.

(** *** Directory entries *)

Fixpoint assoc (k : string) (es : list (string * node)) : option node :=
  match es with
  | [] => None
  | (k', n) :: es' => if k' =? k then Some n else assoc k es'
  end.

Definition assoc_del (k : string) (es : list (string * node)) : list (string * node) :=
  filter (fun e => negb (fst e =? k)) es.

(** Replace the entry [k] where it stands, or add it at the end. *)
Fixpoint assoc_set (k : string) (n : node) (es : list (string * node))
    : list (string * node) :=
  match es with
  | [] => [(k, n)]
  | (k', n') :: es' =>
      if k' =? k then (k, n) :: es' else (k', n') :: assoc_set k n es'
  end.

(** *** Paths *)

(** [s.split('/')]. *)
Fixpoint split_slash (s : string) : list string :=
  match s with
  | EmptyString => [EmptyString]
  | String c s' =>
      if Ascii.eqb c "/" then EmptyString :: split_slash s'
      else
        match split_slash s' with
        | h :: t => String c h :: t
        | [] => [String c EmptyString]
        end
  end.

Definition skipped (c : string) : bool := (c =? EmptyString) || (c =? ".").

(** The names a path walks through. *)
Definition components (p : string) : list string :=
  filter (fun c => negb (skipped c)) (split_slash p).

(** A path that ends with a slash or with [.] names a directory only. *)
Definition wants_dir (p : string) : bool :=
  skipped (last (split_slash p) EmptyString).

Definition is_nil (a : list string) : bool :=
  match a with
  | [] => true
  | _ :: _ => false
  end.

Fixpoint list_eqb (a b : list string) : bool :=
  match a, b with
  | [], [] => true
  | x :: a', y :: b' => (x =? y) && list_eqb a' b'
  | _, _ => false
  end.

Fixpoint is_prefix (a b : list string) : bool :=
  match a, b with
  | [], _ => true
  | x :: a', y :: b' => (x =? y) && is_prefix a' b'
  | _ :: _, [] => false
  end.

(** *** Trees *)

Fixpoint get (cs : list string) (t : node) : option node :=
  match cs with
  | [] => Some t
  | c :: cs' =>
      match t with
      | Dir es =>
          match assoc c es with
          | Some n => get cs' n
          | None => None
          end
      | File _ => None
      end
  end.

(** Put [n] at [cs], in place of what is there; the parent directory has to
    exist. *)
Fixpoint put (cs : list string) (n : node) (t : node) : option node :=
  match cs with
  | [] => Some n
  | c :: cs' =>
      match t with
      | Dir es =>
          match cs' with
          | [] => Some (Dir (assoc_set c n es))
          | _ :: _ =>
              match assoc c es with
              | Some sub =>
                  match put cs' n sub with
                  | Some sub' => Some (Dir (assoc_set c sub' es))
                  | None => None
                  end
              | None => None
              end
          end
      | File _ => None
      end
  end.

(** As [put], creating the directories that are missing on the way. *)
Fixpoint put_makedirs (cs : list string) (n : node) (t : node) : option node :=
  match cs with
  | [] => Some n
  | c :: cs' =>
      match t with
      | Dir es =>
          let sub := match assoc c es with Some s => s | None => Dir [] end in
          match cs' with
          | [] => Some (Dir (assoc_set c n es))
          | _ :: _ =>
              match put_makedirs cs' n sub with
              | Some sub' => Some (Dir (assoc_set c sub' es))
              | None => None
              end
          end
      | File _ => None
      end
  end.

(** Remove the entry at [cs] with all it holds. *)
Fixpoint del (cs : list string) (t : node) : option node :=
  match cs with
  | [] => None
  | c :: cs' =>
      match t with
      | Dir es =>
          match assoc c es with
          | Some sub =>
              match cs' with
              | [] => Some (Dir (assoc_del c es))
              | _ :: _ =>
                  match del cs' sub with
                  | Some sub' => Some (Dir (assoc_set c sub' es))
                  | None => None
                  end
              end
          | None => None
          end
      | File _ => None
      end
  end.

(** What a path names, if anything. *)
Definition lookup (p : string) (t : node) : option node :=
  match p with
  | EmptyString => None
  | _ =>
      match get (components p) t with
      | Some n => if wants_dir p && negb (is_dir n) then None else Some n
      | None => None
      end
  end.

(** *** The operations *)

(** [os.path.exists]. *)
Definition exists_ (p : string) (t : node) : bool :=
  match lookup p t with
  | Some _ => true
  | None => false
  end.

(** [os.path.isdir]. *)
Definition isdir (p : string) (t : node) : bool :=
  match lookup p t with
  | Some (Dir _) => true
  | _ => false
  end.

(** [os.listdir]. *)
Definition listdir (p : string) (t : node) : oserror + list string :=
  match p with
  | EmptyString => inl ENOENT
  | _ =>
      match get (components p) t with
      | Some (Dir es) => inr (map fst es)
      | Some (File _) => inl ENOTDIR
      | None => inl ENOENT
      end
  end.

(** [os.rename(src, dst)]: the entry moves with all it holds.  An existing
    [dst] is replaced when it is a file and [src] is one, or an empty
    directory and [src] is a directory. *)
Definition rename (src dst : string) (t : node) : oserror + node :=
  let cs := components src in
  let cd := components dst in
  match lookup src t with
  | None => inl ENOENT
  | Some n =>
      if dst =? EmptyString then inl ENOENT
      else if is_nil cs || is_nil cd then inl EBUSY
      else if wants_dir dst && negb (is_dir n) then inl ENOTDIR
      else if list_eqb cs cd then inr t
      else if is_dir n && is_prefix cs cd then inl EINVAL
      else
        match get (removelast cd) t with
        | Some (Dir _) =>
            match get cd t, n with
            | Some (Dir (_ :: _)), Dir _ => inl ENOTEMPTY
            | Some (Dir _), File _ => inl EISDIR
            | Some (File _), Dir _ => inl ENOTDIR
            | _, _ =>
                match del cs t with
                | Some t1 =>
                    match put cd n t1 with
                    | Some t2 => inr t2
                    | None => inl ENOENT
                    end
                | None => inl ENOENT
                end
            end
        | Some (File _) => inl ENOTDIR
        | None => inl ENOENT
        end
  end.

(** One attempt of [remove_dir] of [easybuild.tools.filetools]: when the
    path exists, the whole tree under it is removed ([shutil.rmtree]),
    whatever it holds; a path that is not a directory makes the removal
    fail, and the tree is then as it was. *)
Definition remove_tree (p : string) (t : node) : option oserror * node :=
  match lookup p t with
  | None => (None, t)
  | Some (Dir _) =>
      match del (components p) t with
      | Some t' => (None, t')
      | None => (Some EBUSY, t)
      end
  | Some (File _) => (Some ENOTDIR, t)
  end.

(** The error of [copy2], tried for a regular file after [os.rename] to
    [dst] failed with [e].  The copy opens [dst] for writing and fails as
    the renaming did, but for a [dst] that ends with a slash: below an
    existing directory that is [FileNotFoundError] with a message of
    [shutil.copyfile]. *)
Definition copy_error (dst : string) (e : oserror) (t : node) : oserror :=
  if PyStr.ends_with_char "/" dst then
    match get (removelast (components dst)) t with
    | Some (Dir _) => FileNotFound ("Directory does not exist: " ++ dst)
    | Some (File _) => ENOTDIR
    | None => ENOENT
    end
  else e.

(** The second half of [shutil.move]: [os.rename(src, real_dst)] and, when
    that fails, copy and delete: [copytree] (which makes the missing
    directories above [real_dst]) then [rmtree] for a directory, [copy2]
    then [unlink] for a file. *)
Definition move_to (src real_dst : string) (t : node) : option oserror * node :=
  match rename src real_dst t with
  | inr t' => (None, t')
  | inl e =>
      let cs := components src in
      let cd := components real_dst in
      match lookup src t with
      | Some (Dir es) =>
          if is_prefix cs cd then
            (Some (ShutilError "Cannot move a directory into itself"), t)
          else
            match get cd t with
            | Some _ => (Some EEXIST, t)
            | None =>
                match put_makedirs cd (Dir es) t with
                | Some t1 =>
                    match del cs t1 with
                    | Some t2 => (None, t2)
                    | None => (Some EBUSY, t1)
                    end
                | None => (Some ENOTDIR, t)
                end
            end
      | Some (File _) => (Some (copy_error real_dst e t), t)
      | None => (Some ENOENT, t)
      end
  end.

(** [shutil.move(src, dst)]. *)
Definition move (src dst : string) (t : node) : option oserror * node :=
  if isdir dst t then
    if list_eqb (components src) (components dst) && exists_ src t then
      match rename src dst t with
      | inr t' => (None, t')
      | inl e => (Some e, t)
      end
    else
      let real_dst := OsPath.join dst (OsPath.basename (PyStr.rstrip_char "/" src)) in
      if exists_ real_dst t then
        (Some (ShutilError "Destination path already exists"), t)
      else move_to src real_dst t
  else move_to src dst t.

#[export] Instance tree_fs : FileSystem node := {
  fs_exists := exists_;
  fs_listdir := listdir;
  fs_rename := rename;
  fs_remove_dir := remove_tree;
  fs_move := move
}.

End TreeFS.

(* ================================================================== *)
(** ** Notions used to state the properties *)
(* ================================================================== *)

(** A pattern without [*] and [?]. *)
Fixpoint literal (s : string) : bool :=
  match s with
  | EmptyString => true
  | String c s' => negb (Ascii.eqb c "*") && negb (Ascii.eqb c "?") && literal s'
  end.

Section Notions.

Context {W : Type} {FS : FileSystem W}.

(** The four options every run of [configure_step] starts with. *)
Definition base_opts (E : Env) : list string :=
  [assignment "CC" (getenv E "CC"); assignment "CXX" (getenv E "CXX");
   assignment "ADD_CFLAGS" (getenv E "CFLAGS");
   assignment "ADD_LDFLAGS" (getenv E "LDFLAGS")].

(** The options added for [imkl], [newer] telling whether its version is at
    least 17, and for NNPACK when it is loaded. *)
Definition imkl_opts (E : Env) (newer : bool) : list string :=
  ((if newer then ["USE_MKL2017=1"] else []) ++
   [assignment "MKLML_ROOT" (getenv E "MKLROOT"); assignment "USE_BLAS" (Some "mkl")] ++
   (if PyStr.truthy (get_software_root E "NNPACK") then ["USE_NNPACK=1"] else []))%list.

(** The state with [opts] added to [cfg['buildopts']]. *)
Definition with_opts (w : world W) (opts : list string) : world W :=
  Build_world
    (Build_EB_MXNet (name (self w)) (builddir (self w)) (installdir (self w))
       (Build_EasyConfig (buildopts (cfg (self w)) ++ opts)%list
          (install_r_ext (cfg (self w))) (files_to_copy (cfg (self w))))
       (toolchain_definition (self w)) (mxnet_src_dir (self w))
       (py_ext (self w)) (r_ext (self w)))
    (fs w) (calls w).

(** The state with [cs] added to the calls made. *)
Definition with_calls (w : world W) (cs : list call) : world W :=
  Build_world (self w) (fs w) (calls w ++ cs)%list.

(** The state with another file system. *)
Definition with_fs (w : world W) (f : W) : world W :=
  Build_world (self w) f (calls w).

(** Whether [installdir/path] exists and lists at least one entry: the test
    of [make_module_extra]. *)
Definition nonempty_dir (w : world W) (path : string) : bool :=
  let fullpath := OsPath.join (installdir (self w)) path in
  fs_exists fullpath (fs w) &&
  match fs_listdir fullpath (fs w) with
  | inr (_ :: _) => true
  | _ => false
  end.

(** Every candidate that exists can be listed: it is a directory. *)
Definition listable (w : world W) (paths : list string) : Prop :=
  forall p, In p paths ->
    fs_exists (OsPath.join (installdir (self w)) p) (fs w) = true ->
    exists l, fs_listdir (OsPath.join (installdir (self w)) p) (fs w) = inr l.

(** A directory path as the framework hands it over: not empty, no slash
    at its end, no pattern character of [glob]. *)
Definition plain_path (p : string) : bool :=
  negb (p =? EmptyString) && negb (PyStr.ends_with_char "/" p) && negb (Glob.has_magic p).

(** What [glob] matches against [*mxnet-*]: a name that is not hidden and
    contains [mxnet-]. *)
Definition is_main (name : string) : bool :=
  negb (Glob.ishidden name) && PyStr.contains "mxnet-" name.

(** The entries of a directory as [glob] sees them: none when the
    directory cannot be listed. *)
Definition listed (dir : string) (f : W) : list string :=
  match fs_listdir dir f with
  | inr l => l
  | inl _ => []
  end.

(** The error of a failed search for the main source directory. *)
Definition discovery_error (dirs : list string) : exn :=
  EasyBuildError "Failed to find/isolate MXNet source directory: %s" [FStrList dirs].

(** The error of a failed move. *)
Definition move_failed (olddir newdir : string) (e : oserror) : exn :=
  EasyBuildError "Failed to move %s to %s: %s" [FStr olddir; FStr newdir; FExn (OSError e)].

(** The state once [d] is recorded as the main source directory. *)
Definition discovered (w : world W) (d : string) : world W :=
  Build_world
    (Build_EB_MXNet (name (self w)) (builddir (self w)) (installdir (self w)) (cfg (self w))
       (toolchain_definition (self w)) (Some d) (py_ext (self w)) (r_ext (self w)))
    (fs w) (calls w ++ [SuperExtractStep; LogDebug "MXNet dir is: %s" [d]])%list.

(** The entries of the build directory other than the main one, in the
    order they are listed: what the loop of [extract_step] goes through. *)
Definition other_entries (bdir m : string) (names : list string) : list string :=
  filter (fun d => negb (d =? OsPath.basename (OsPath.join bdir m))) names.

End Notions.

(* ================================================================== *)
(** ** Notions used to state the properties of the assembly on trees *)
(* ================================================================== *)

(** A name a directory entry can bear: not empty, not [.] or [..], no
    slash. *)
Definition valid_name (x : string) : bool :=
  negb (x =? EmptyString) && negb (x =? ".") && negb (x =? "..") &&
  negb (PyStr.contains "/" x).

(** The name [extract_step] gives the entry [srcdir] under [3rdparty]: what
    stands before the last hyphen, with [oneDNN] turned into [mkldnn]. *)
Definition submodule_of (srcdir : string) : string :=
  let '(submodule, _, _) := PyStr.rpartition srcdir "-" in
  if submodule =? "oneDNN" then "mkldnn" else submodule.

(** The name the entry [srcdir] has in the build directory when it is
    moved: a [oneDNN] directory has been renamed by then. *)
Definition renamed (srcdir : string) : string :=
  let '(submodule, _, _) := PyStr.rpartition srcdir "-" in
  if submodule =? "oneDNN" then PyStr.replace srcdir "oneDNN" "mkldnn" else srcdir.

Definition mem (k : string) (l : list string) : bool := existsb (String.eqb k) l.

(** The entries of the [3rdparty] directory of the main source directory
    [m], among the entries [es] of the build directory. *)
Definition main_3rdparty (m : string) (es : list (string * TreeFS.node))
    : option (list (string * TreeFS.node)) :=
  match TreeFS.assoc m es with
  | Some (TreeFS.Dir mes) =>
      match TreeFS.assoc "3rdparty" mes with
      | Some (TreeFS.Dir tes) => Some tes
      | _ => None
      end
  | _ => None
  end.

(** The entries [es] with [tes] as the entries of [m/3rdparty]. *)
Definition set_main_3rdparty (m : string) (tes : list (string * TreeFS.node))
    (es : list (string * TreeFS.node)) : list (string * TreeFS.node) :=
  match TreeFS.assoc m es with
  | Some (TreeFS.Dir mes) =>
      TreeFS.assoc_set m
        (TreeFS.Dir (TreeFS.assoc_set "3rdparty" (TreeFS.Dir tes) mes)) es
  | _ => es
  end.

(** No regular file stands where the entry [d] is to go. *)
Definition destination_free (tes : list (string * TreeFS.node)) (d : string) : bool :=
  match TreeFS.assoc (submodule_of d) tes with
  | Some (TreeFS.File _) => false
  | _ => true
  end.

(** What a round of the loop needs of an entry [d] of the build directory
    (entries [es]) that is to go under [3rdparty] (entries [tes]) of the
    main source directory [m]. *)
Definition movable (m : string) (es tes : list (string * TreeFS.node)) (d : string) : Prop :=
  valid_name d = true /\
  (exists n, TreeFS.assoc d es = Some n) /\
  valid_name (submodule_of d) = true /\
  destination_free tes d = true /\
  valid_name (renamed d) = true /\
  renamed d <> m /\
  (renamed d = d \/ TreeFS.assoc (renamed d) es = None).

(** The entries of the build directory that are dependencies: all but the
    main source directory [m], in the order the directory lists them. *)
Definition dependencies (m : string) (es : list (string * TreeFS.node)) : list string :=
  filter (fun d => negb (d =? m)) (map fst es).

(** The path of the [3rdparty] directory of the main source directory [m]
    of the build directory [bdir]. *)
Definition dir_3rdparty (bdir m : string) : string :=
  OsPath.join (OsPath.join bdir m) "3rdparty".

(** Whether the strings of a list are pairwise distinct. *)
Fixpoint distinct (l : list string) : bool :=
  match l with
  | [] => true
  | x :: l' => negb (mem x l') && distinct l'
  end.

(* ================================================================== *)
(** ** Worked examples *)
(* ================================================================== *)

Module Examples.
Import TreeFS.

(** An environment with the compilers and [MKLROOT] set, [imkl] 18.0
    loaded and no NNPACK. *)
Definition env : Env :=
  {| getenv := fun v =>
       if v =? "CC" then Some "gcc"
       else if v =? "CXX" then Some "g++"
       else if v =? "CFLAGS" then Some "-O2"
       else if v =? "MKLROOT" then Some "/opt/imkl/mkl"
       else None;
     get_software_root := fun _ => None;
     get_software_version := fun n => if n =? "imkl" then Some "18.0" else None;
     get_shared_lib_ext := "so" |}.

(** Collaborators whose checks all pass. *)
Definition collaborators : Collaborators :=
  {| super_sanity_check_step := fun _ _ => None;
     load_fake_module := Returned "fake";
     py_sanity_check_step := true;
     r_sanity_check_step := true |}.

Definition config : EasyConfig :=
  {| buildopts := []; install_r_ext := install_r_ext_default; files_to_copy := [] |}.

(** The easyblock for a toolchain whose definition has [blas] as its
    [BLAS] entry. *)
Definition easyblock (blas : tcval) : EB_MXNet :=
  init "MXNet" "/b" "/opt/mxnet" config [("COMPILER", TcList [Some "GCC"]); ("BLAS", blas)]
    ["lib/python3.9/site-packages"; "lib64/python3.9/site-packages"].

(** The build directory of the scenario of the specification, and an
    installation with one Python library directory in use. *)
Definition scenario_main : list (string * node) :=
  [("3rdparty", Dir [("mkldnn", Dir []); ("ps-lite", Dir [])]); ("python", Dir [])].

Definition scenario_build : list (string * node) :=
  [("proj-mxnet-1.9", Dir scenario_main);
   ("oneDNN-2.6", Dir [("CMakeLists.txt", File "dnn")]);
   ("ps-lite-a1b2", Dir [("Makefile", File "ps")])].

Definition scenario_tree : node :=
  Dir [("b", Dir scenario_build);
       ("opt", Dir [("mxnet",
          Dir [("lib", Dir [("python3.9", Dir [("site-packages", Dir [("mxnet", Dir [])])])]);
               ("lib64", Dir [("python3.9", Dir [("site-packages", Dir [])])])])])].

Definition scenario (blas : tcval) : world node :=
  Build_world (easyblock blas) scenario_tree [].

(** The scenario after [extract_step] has found the main directory. *)
Definition scenario_extracted : world node :=
  discovered (scenario (TcList [Some "imkl"])) "/b/proj-mxnet-1.9".

(** A build directory with a [oneDNN-1.2] directory. *)
Definition onednn_main : list (string * node) :=
  [("3rdparty", Dir [("mkldnn", Dir [])])].

Definition onednn_build : list (string * node) :=
  [("oneDNN-1.2", Dir [("CMakeLists.txt", File "dnn")]);
   ("apache-mxnet-1.9", Dir onednn_main)].

Definition onednn_world : world node :=
  Build_world (easyblock (TcList [Some "OpenBLAS"])) (Dir [("b", Dir onednn_build)]) [].

(** A build directory whose only candidate is hidden. *)
Definition hidden_world : world node :=
  Build_world (easyblock (TcList [Some "OpenBLAS"]))
    (Dir [("b", Dir [(".mxnet-1.9", Dir [])])]) [].

(** A build directory with two dependencies of the same name and different
    versions. *)
Definition twice_build : list (string * node) :=
  [("mxnet-1.9", Dir [("3rdparty", Dir [])]);
   ("foo-1", Dir [("a", File "one")]);
   ("foo-2", Dir [("b", File "two")])].

Definition twice_world : world node :=
  Build_world (easyblock (TcList [Some "OpenBLAS"])) (Dir [("b", Dir twice_build)]) [].

(** A build directory where what [*mxnet-*] matches is a regular file: no
    directory can be moved below it. *)
Definition blocked_world : world node :=
  Build_world (easyblock (TcList [Some "OpenBLAS"]))
    (Dir [("b", Dir [("mxnet-1.9", File "notes"); ("foo-1", Dir []); ("bar-2", Dir [])])]) [].

(** A build directory with an entry whose name has no hyphen. *)
Definition plain_world : world node :=
  Build_world
    (Build_EB_MXNet "MXNet" "/b" "/opt/mxnet" config [] (Some "/b/mxnet-1.9")
       (Build_Extension None None []) (Build_Extension None None []))
    (Dir [("b", Dir [("mxnet-1.9", Dir [("3rdparty", Dir [("x", Dir [])])]);
                     ("README", Dir [("r", File "r")])])]) [].

End Examples.

(* ================================================================== *)
(** ** Further notions: the options of [configure_step] *)
(* ================================================================== *)


(** The option added when NNPACK is loaded. *)
Definition nnpack_opts (E : Env) : list string :=
  if PyStr.truthy (get_software_root E "NNPACK") then ["USE_NNPACK=1"] else [].

(** The keys of a toolchain definition. *)
Definition keys (d : list (string * tcval)) : list string := map fst d.

(** The files [sanity_check_step] asks the parent's check to look for. *)
Definition sanity_files (E : Env) : list string :=
  ["lib/libmxnet.a"; "lib/libmxnet." ++ get_shared_lib_ext E].


(** The calls that install the Python binding from the main source
    directory [d], in order. *)
Definition py_install_calls (d : string) : list call :=
  [ChangeDir (OsPath.join d "python"); PyPrerun; PyRun false; PyPostrun].

(** The message that ends [extensions_step] when the R extension is off. *)
Definition skip_r_calls : list call :=
  [LogDebug "Skipping R extension installation" []].

(** The calls [cs] put to the framework in turn, from the file system [f],
    up to the first that raises: the calls made (the one that raised is the
    last), what was raised if anything, and the file system left. *)
Fixpoint framework_run {W : Type} (F : Framework W) (cs : list call) (f : W)
    : list call * option exn * W :=
  match cs with
  | [] => ([], None, f)
  | c :: cs' =>
      match framework_call F c f with
      | (Some e, f') => ([c], Some e, f')
      | (None, f') =>
          let '(made, r, f'') := framework_run F cs' f' in
          (c :: made, r, f'')
      end
  end.

(** How a step ends when the framework raised [r], or nothing. *)
Definition outcome (r : option exn) : result unit :=
  match r with
  | None => Returned tt
  | Some e => Raised e
  end.

(** The exception [sanity_check_step] raises when loading the fake module
    raised [e]: an [EasyBuildError] is wrapped, any other passes. *)
Definition fake_module_failure (e : exn) : exn :=
  match e with
  | EasyBuildError _ _ => EasyBuildError "Loading fake module failed: %s" [FExn e]
  | _ => e
  end.

(* ================================================================== *)
(** ** Further notions: build directories that can be assembled *)
(* ================================================================== *)

(** A state whose build directory can be assembled: the directory is a
    plain path and holds the entries [es], names valid and distinct; one of
    them, [m], is what [*mxnet-*] matches, a directory with a [3rdparty]
    directory of entries [tes]; the names the other entries get under
    [3rdparty] are valid and distinct, and none is that of a regular file
    there. *)
Definition assemblable (w : world TreeFS.node) (m : string)
    (es tes : list (string * TreeFS.node)) : Prop :=
  plain_path (builddir (self w)) = true /\
  TreeFS.get (TreeFS.components (builddir (self w))) (fs w) = Some (TreeFS.Dir es) /\
  distinct (map fst es) = true /\
  forallb valid_name (map fst es) = true /\
  filter is_main (map fst es) = [m] /\
  main_3rdparty m es = Some tes /\
  forallb (fun d => valid_name (submodule_of d)) (dependencies m es) = true /\
  distinct (map submodule_of (dependencies m es)) = true /\
  forallb (destination_free tes) (dependencies m es) = true.

(* ================================================================== *)
(** ** Further examples *)
(* ================================================================== *)

Module Cases.
Import TreeFS Examples.


(** An environment with nothing set and no module loaded. *)
Definition env_bare : Env :=
  {| getenv := fun _ => None;
     get_software_root := fun _ => None;
     get_software_version := fun _ => None;
     get_shared_lib_ext := "so" |}.

(** Collaborators for which the fake module cannot be loaded. *)
Definition collaborators_no_module : Collaborators :=
  {| super_sanity_check_step := fun _ _ => None;
     load_fake_module := Raised (EasyBuildError "Unable to load module %s" [FStr "MXNet"]);
     py_sanity_check_step := true;
     r_sanity_check_step := true |}.

(** Collaborators for which the check of the R binding fails. *)
Definition collaborators_no_r : Collaborators :=
  {| super_sanity_check_step := fun _ _ => None;
     load_fake_module := Returned "fake";
     py_sanity_check_step := true;
     r_sanity_check_step := false |}.

(** The easyblock once [/b/mxnet-1.9] is recorded as main source directory,
    with configuration [c]. *)
Definition extracted (c : EasyConfig) (t : node) : world node :=
  Build_world
    (Build_EB_MXNet "MXNet" "/b" "/opt/mxnet" c [("BLAS", TcList [Some "OpenBLAS"])]
       (Some "/b/mxnet-1.9")
       (Build_Extension None None
          ["lib/python3.9/site-packages"; "lib64/python3.9/site-packages"])
       (Build_Extension None None []))
    t [].



(** A build directory where [oneDNN-1.2] stands next to a later version. *)
Definition successive_build : list (string * node) :=
  [("mxnet-1.9", Dir [("3rdparty", Dir [("mkldnn", Dir [])])]);
   ("oneDNN-1.2", Dir [("a", File "one")]);
   ("oneDNN-1.3", Dir [("b", File "two")])].

Definition successive_world : world node :=
  Build_world (easyblock (TcList [Some "OpenBLAS"])) (Dir [("b", Dir successive_build)]) [].

(** A build directory where [oneDNN-1.2] stands next to a directory whose
    name has no hyphen. *)
Definition readme_build : list (string * node) :=
  [("mxnet-1.9", Dir [("3rdparty", Dir [("mkldnn", Dir [])])]);
   ("oneDNN-1.2", Dir [("a", File "one")]);
   ("README", Dir [("r", File "r")])].

Definition readme_world : world node :=
  Build_world (easyblock (TcList [Some "OpenBLAS"])) (Dir [("b", Dir readme_build)]) [].

(** A build directory where [oneDNN-1] cannot be renamed: [mkldnn-1] is
    there already, and not empty. *)
Definition crowded_world : world node :=
  extracted config
    (Dir [("b", Dir [("mxnet-1.9", Dir [("3rdparty", Dir [])]);
                     ("oneDNN-1", Dir []);
                     ("mkldnn-1", Dir [("old", File "x")]);
                     ("foo-1", Dir [])])]).

(** A build directory where the place of [foo-1] under [3rdparty] is taken
    by a regular file. *)
Definition taken_world : world node :=
  extracted config
    (Dir [("b", Dir [("mxnet-1.9", Dir [("3rdparty", Dir [("foo", File "stub")])]);
                     ("foo-1", Dir []);
                     ("bar-2", Dir [])])]).

(** An installation where one of the Python library directories is a
    regular file. *)
Definition odd_install_world : world node :=
  extracted config
    (Dir [("opt", Dir [("mxnet",
       Dir [("lib", Dir [("python3.9", Dir [("site-packages", Dir [])])]);
            ("lib64", Dir [("python3.9", Dir [("site-packages", File "x")])])])])]).

(** A build directory that holds the main source directory alone. *)
Definition lone_world : world node :=
  Build_world (easyblock (TcList [Some "OpenBLAS"]))
    (Dir [("b", Dir [("mxnet-1.9", Dir [("3rdparty", Dir [])])])]) [].

(** The build directory of the scenario, listed the other way round. *)
Definition scenario_reversed : world node :=
  Build_world (easyblock (TcList [Some "imkl"]))
    (Dir [("b", Dir (rev scenario_build))]) [].

(** A main source directory without [3rdparty]. *)
Definition bare_main_build : list (string * node) :=
  [("mxnet-1.9", Dir [("src", Dir [])]);
   ("foo-1", Dir [("a", File "one")]);
   ("notes-2", File "n")].

Definition bare_main_world : world node :=
  extracted config (Dir [("b", Dir bare_main_build)]).

End Cases.

(* ================================================================== *)
(** ** An example of a framework *)
(* ================================================================== *)

Module Processes.
Import TreeFS.

(** A process: its working directory, the tree, and the symbolic links
    made so far, each with its target (the tree has no node for them, and
    no path is followed through them). *)
Record process : Type := {
  cwd : string;
  root : node;
  links : list (string * string)
}.

(** The path the process means by [p]: a relative one starts from the
    working directory; the empty path stays what it is and names
    nothing. *)
Definition resolve (s : process) (p : string) : string :=
  if p =? EmptyString then EmptyString else OsPath.join (cwd s) p.

Definition with_root (s : process) (t : node) : process :=
  {| cwd := cwd s; root := t; links := links s |}.

(** The file system of a process is its tree. *)
#[export] Instance process_fs : FileSystem process := {
  fs_exists p s := exists_ (resolve s p) (root s);
  fs_listdir p s := listdir (resolve s p) (root s);
  fs_rename a b s :=
    match rename (resolve s a) (resolve s b) (root s) with
    | inr t => inr (with_root s t)
    | inl e => inl e
    end;
  fs_remove_dir p s :=
    let '(e, t) := remove_tree (resolve s p) (root s) in (e, with_root s t);
  fs_move a b s :=
    let '(e, t) := move (resolve s a) (resolve s b) (root s) in (e, with_root s t)
}.

(** What stands in the way of a new entry at [q]: nothing when the
    directory above it is there. *)
Definition parent_error (q : string) (t : node) : option oserror :=
  match get (removelast (components q)) t with
  | Some (Dir _) => None
  | Some (File _) => Some ENOTDIR
  | None => Some ENOENT
  end.

(** The framework of the examples.  [change_dir] needs its directory to be
    there and makes it the working directory; [mkdir] makes a directory
    that is not there yet, below one that is; [symlink] records a link
    where nothing is yet; [write_file] writes a regular file, making the
    directories above it.  The installers and the command return and leave
    the process as it is: what they build and install is not shown. *)
Definition process_call (c : call) (s : process) : option exn * process :=
  match c with
  | ChangeDir p =>
      let q := resolve s p in
      let failed e :=
        (Some (EasyBuildError "Failed to change from %s to %s: %s"
                 [FStr (cwd s); FStr p; FExn (OSError e)]), s) in
      match lookup q (root s) with
      | Some (Dir _) => (None, {| cwd := q; root := root s; links := links s |})
      | Some (File _) => failed ENOTDIR
      | None => failed ENOENT
      end
  | Mkdir p =>
      let q := resolve s p in
      let failed e :=
        (Some (EasyBuildError "Failed to create directory %s: %s"
                 [FStr q; FExn (OSError e)]), s) in
      if exists_ q (root s) then (None, s)
      else
        match parent_error q (root s) with
        | Some e => failed e
        | None =>
            match put (components q) (Dir []) (root s) with
            | Some t => (None, with_root s t)
            | None => failed ENOENT
            end
        end
  | Symlink target link =>
      let q := resolve s link in
      let failed e :=
        (Some (EasyBuildError "Symlinking %s to %s failed: %s"
                 [FStr (resolve s target); FStr link; FExn (OSError e)]), s) in
      if exists_ q (root s) || mem q (map fst (links s)) then failed EEXIST
      else
        match parent_error q (root s) with
        | Some e => failed e
        | None =>
            (None, {| cwd := cwd s; root := root s;
                      links := (links s ++ [(q, resolve s target)])%list |})
        end
  | WriteFile p data =>
      let q := resolve s p in
      let failed e :=
        (Some (EasyBuildError "Failed to write to %s: %s"
                 [FStr p; FExn (OSError e)]), s) in
      match lookup q (root s) with
      | Some (Dir _) => failed EISDIR
      | _ =>
          match put_makedirs (components q) (File data) (root s) with
          | Some t => (None, with_root s t)
          | None => failed ENOTDIR
          end
      end
  | _ => (None, s)
  end.

Definition process_framework : Framework process :=
  {| framework_call := process_call |}.

(** A state on a tree as the state of a process that starts at the root
    of the tree. *)
Definition on_process (w : world node) : world process :=
  Build_world (self w) {| cwd := "/"; root := fs w; links := [] |} (calls w).

End Processes.

(* ================================================================== *)
(** * Properties *)
(* ================================================================== *)

Local Open Scope py_scope.

(** ** Running computations *)

Section Running.

Context {S A B : Type}.

Lemma bind_returned (m : M S A) (k : A -> M S B) (s s' : S) (a : A) :
  m s = (Returned a, s') -> bind m k s = k a s'.
Proof. intros H. unfold bind. now rewrite H. Qed.

Lemma bind_raised (m : M S A) (k : A -> M S B) (s s' : S) (e : exn) :
  m s = (Raised e, s') -> bind m k s = (Raised e, s').
Proof. intros H. unfold bind. now rewrite H. Qed.

End Running.

(** A loop stops at the first entry whose body raises. *)
Lemma for_each_cons_raised {S A} (body : A -> M S unit) x l s s' e :
  body x s = (Raised e, s') -> for_each (x :: l) body s = (Raised e, s').
Proof. intros H. cbn [for_each]. now apply bind_raised. Qed.

Lemma for_each_cons_returned {S A} (body : A -> M S unit) x l s s' :
  body x s = (Returned tt, s') -> for_each (x :: l) body s = for_each l body s'.
Proof. intros H. cbn [for_each]. now rewrite (bind_returned _ _ _ _ _ H). Qed.

Lemma for_each_app {S A} (body : A -> M S unit) l1 l2 s s' :
  for_each l1 body s = (Returned tt, s') ->
  for_each (l1 ++ l2)%list body s = for_each l2 body s'.
Proof.
  revert s. induction l1 as [|x l1 IH]; intros s H.
  - cbn in H. unfold ret in H. now inversion H.
  - cbn [for_each app] in *. unfold bind in *.
    destruct (body x s) as [[[]|e] s1]; [now apply IH | discriminate].
Qed.

(** ** Flag derivation ([configure_step]) *)

Section ConfigureProperties.

Context {W : Type} {FS : FileSystem W}.
Variable E : Env.

Lemma run_cfg_update (v : string) (w : world W) :
  cfg_update_buildopts v w = (Returned tt, with_opts w [v]).
Proof. reflexivity. Qed.

Lemma with_opts_app (w : world W) (a b : list string) :
  with_opts (with_opts w a) b = with_opts w (a ++ b)%list.
Proof. unfold with_opts. cbn. now rewrite <- app_assoc. Qed.

Lemma toolchain_blas_value (w : world W) (b : option string) :
  toolchain_blas w = (Returned b, w) ->
  exists rest, dict_get (toolchain_definition (self w)) "BLAS" = TcList (b :: rest).
Proof.
  unfold toolchain_blas, bind, gets, subscript0.
  destruct (dict_get (toolchain_definition (self w)) "BLAS") as [|[|x rest]];
    unfold raise, ret; intros H; inversion H; subst.
  now exists rest.
Qed.

Lemma run_toolchain_blas (w : world W) b rest :
  dict_get (toolchain_definition (self w)) "BLAS" = TcList (b :: rest) ->
  toolchain_blas w = (Returned b, w).
Proof.
  intros H. unfold toolchain_blas, bind, gets, subscript0. now rewrite H.
Qed.

Lemma run_base_opts (w : world W) :
  for_each [("CC", "CC"); ("CXX", "CXX"); ("ADD_CFLAGS", "CFLAGS"); ("ADD_LDFLAGS", "LDFLAGS")]
    (fun '(var, env_var) => cfg_update_buildopts (assignment var (getenv E env_var))) w
  = (Returned tt, with_opts w (base_opts E)).
Proof.
  unfold for_each, bind, cfg_update_buildopts, set_self, modify, ret, with_opts, base_opts.
  cbn -[assignment].
  now rewrite <- !app_assoc.
Qed.

(** The run of [configure_step] up to the choice of the BLAS library. *)
Lemma configure_step_prefix (w : world W) (b : option string) :
  toolchain_blas w = (Returned b, w) ->
  configure_step E w =
  (blas_var <- select_blas E b ;;
   blas <- read_local "blas" blas_var ;;
   cfg_update_buildopts (assignment "USE_BLAS" (Some blas)) ;;
   when (PyStr.truthy (get_software_root E "NNPACK")) (cfg_update_buildopts "USE_NNPACK=1") ;;
   opts <- gets (fun w => buildopts (cfg (self w))) ;;
   do_call (SuperConfigureStep opts)) (with_opts w (base_opts E)).
Proof.
  intros H. apply toolchain_blas_value in H as [rest H].
  unfold configure_step.
  rewrite (bind_returned _ _ _ _ _ (run_base_opts w)).
  rewrite (bind_returned _ _ _ _ _ (run_toolchain_blas (with_opts w (base_opts E)) b rest H)).
  reflexivity.
Qed.

Lemma with_opts_calls (w : world W) (opts : list string) :
  calls (with_opts w opts) = calls w.
Proof. reflexivity. Qed.

(** A toolchain definition with no [BLAS] entry at all does not reach the
    [if]/[elif] chain: subscripting [None] is a [TypeError]. *)
Lemma configure_step_no_blas_entry (w : world W) :
  dict_get (toolchain_definition (self w)) "BLAS" = TcNone ->
  configure_step E w =
  (Raised (TypeError "'NoneType' object is not subscriptable"), with_opts w (base_opts E)).
Proof.
  intros H. unfold configure_step.
  rewrite (bind_returned _ _ _ _ _ (run_base_opts w)).
  unfold toolchain_blas, bind, gets, subscript0. cbn -[base_opts]. now rewrite H.
Qed.

(** C1. When the BLAS identifier read from the toolchain definition is
    [None], [configure_step] raises [EasyBuildError] with the message
    "No BLAS library found in the toolchain".  The parent's configure step,
    the only place where the options are handed on towards the build tool,
    is not called: the calls made are those made before, so no option of
    this invocation reaches the build.  (The four compiler options are in
    [cfg] by then, and go nowhere.) *)
Theorem configure_step_missing_backend (w : world W) :
  toolchain_blas w = (Returned None, w) ->
  configure_step E w =
    (Raised (EasyBuildError "No BLAS library found in the toolchain" []),
     with_opts w (base_opts E))
  /\ calls (snd (configure_step E w)) = calls w
  /\ (forall opts, ~ In (SuperConfigureStep opts) (calls w) ->
       ~ In (SuperConfigureStep opts) (calls (snd (configure_step E w)))).
Proof.
  intros H. rewrite (configure_step_prefix w None H).
  cbn -[base_opts]. repeat split; auto.
Qed.



(** C10. A BLAS identifier that is a string other than the five known ones
    binds no branch of the dispatch: reading [blas] raises
    [UnboundLocalError], not the [EasyBuildError] of a missing backend, and
    the parent's configure step is not reached. *)
Theorem configure_step_unknown_blas (w : world W) (b : string) :
  toolchain_blas w = (Returned (Some b), w) ->
  ~ In b ["imkl"; "ACML"; "ATLAS"; "OpenBLAS"; "FlexiBLAS"] ->
  configure_step E w = (Raised (UnboundLocalError "blas"), with_opts w (base_opts E))
  /\ fst (configure_step E w)
       <> Raised (EasyBuildError "No BLAS library found in the toolchain" [])
  /\ calls (snd (configure_step E w)) = calls w.
Proof.
  intros H N.
  assert (Hne : forall k, In k ["imkl"; "ACML"; "ATLAS"; "OpenBLAS"; "FlexiBLAS"] ->
                          (b =? k) = false).
  { intros k Hk. apply String.eqb_neq. intros ->. now apply N. }
  rewrite (configure_step_prefix w _ H).
  unfold select_blas, is_str.
  rewrite !Hne by (cbn; tauto).
  cbn -[base_opts]. repeat split; auto. discriminate.
Qed.

End ConfigureProperties.

(** ** The bindings ([extensions_step], [sanity_check_step]) *)

(** Stepping through the calls of a step: one more call is asked of the
    framework in the run and in the step alike. *)
Ltac next_call Hrun :=
  match type of Hrun with
  | context [framework_call ?F ?c ?f] =>
      let e := fresh "e" in
      let f' := fresh "f" in
      destruct (framework_call F c f) as [[e|] f'];
      cbn -[OsPath.join R_NAMESPACE rscript_export_cmd] in Hrun |- *
  end.

Ltac raised_here Hrun :=
  inversion Hrun; subst; clear Hrun;
  eexists; split; [reflexivity|];
  cbn -[OsPath.join R_NAMESPACE rscript_export_cmd];
  rewrite <- ?app_assoc; repeat split; try reflexivity; try discriminate.

Section BindingProperties.

Context {W : Type} {FS : FileSystem W}.
Variable E : Env.
Variable C : Collaborators.
Variable F : Framework W.

(** The state after [self.py_ext.src = d]. *)
Lemma run_set_py_ext_src (d : string) (w : world W) :
  exists w', set_py_ext_src d w = (Returned tt, w') /\
             calls w' = calls w /\ fs w' = fs w /\
             cfg (self w') = cfg (self w) /\
             mxnet_src_dir (self w') = mxnet_src_dir (self w).
Proof. eexists. split; [reflexivity|]. cbn. auto. Qed.

Lemma run_do_call (c : call) (w : world W) :
  do_call c w = (Returned tt, with_calls w [c]).
Proof. reflexivity. Qed.

Lemma with_calls_app (w : world W) (a b : list call) :
  with_calls (with_calls w a) b = with_calls w (a ++ b)%list.
Proof. unfold with_calls. cbn. now rewrite <- app_assoc. Qed.

(** The calls made are the first of the calls asked for, and all of them
    when none raised. *)
Lemma framework_run_made (cs : list call) :
  forall (f : W) (made : list call) (r : option exn) (f' : W),
    framework_run F cs f = (made, r, f') ->
    (exists rest, cs = made ++ rest)%list /\ (r = None -> made = cs).
Proof.
  induction cs as [|c cs IH]; intros f made r f' H; cbn [framework_run] in H.
  - inversion H; subst. split; [now exists [] | reflexivity].
  - destruct (framework_call F c f) as [[e|] f1].
    + inversion H; subst. split; [now exists cs | discriminate].
    + destruct (framework_run F cs f1) as [[made1 r1] f2] eqn:H1.
      inversion H; subst.
      destruct (IH f1 made1 r f' H1) as [[rest Hrest] Hall].
      split; [exists rest; cbn [app]; now rewrite <- Hrest|].
      intros Hr. now rewrite (Hall Hr).
Qed.

(** With the switch off, [extensions_step] asks the framework for the four
    calls that install the Python binding and, when they have returned,
    logs that the R extension is skipped; what a call raises ends the step
    there. *)
Lemma extensions_step_r_disabled (w : world W) (d : string)
    (made : list call) (r : option exn) (f : W) :
  install_r_ext (cfg (self w)) = false ->
  mxnet_src_dir (self w) = Some d ->
  framework_run F (py_install_calls d) (fs w) = (made, r, f) ->
  exists w',
    extensions_step F w = (outcome r, w') /\
    calls w' =
      (calls w ++ made ++ match r with None => skip_r_calls | Some _ => [] end)%list /\
    fs w' = f /\
    cfg (self w') = cfg (self w) /\
    src (py_ext (self w')) = Some (OsPath.join d "python").
Proof.
  intros Hoff Hmain Hrun.
  unfold extensions_step, change_dir, call_framework, do_call, set_py_ext_src, set_self,
    modify, bind, gets, ret.
  rewrite Hmain.
  cbn -[OsPath.join R_NAMESPACE rscript_export_cmd] in Hrun |- *.
  do 4 (next_call Hrun; [raised_here Hrun|]).
  rewrite Hoff. raised_here Hrun.
Qed.

(** The files the parent's sanity check is asked to look for. *)
Lemma sanity_check_step_outcome (w : world W) :
  let files := ["lib/libmxnet.a"; "lib/libmxnet." ++ get_shared_lib_ext E] in
  exists trace,
    calls (snd (sanity_check_step E C w)) = (calls w ++ trace)%list /\
    (In RSanityCheckStep trace <->
       super_sanity_check_step C files [] = None /\
       (exists data, load_fake_module C = Returned data) /\
       py_sanity_check_step C = true).
Proof.
  intros files. unfold sanity_check_step. fold files.
  rewrite (bind_returned _ _ _ _ _ (run_do_call _ _)).
  destruct (super_sanity_check_step C files []) as [e|] eqn:Hs.
  - exists [SuperSanityCheckStep files []]. split; [reflexivity|].
    split; [cbn; intros [X|[]]; discriminate | intros (X & _); discriminate].
  - unfold bind at 1. unfold ret at 1.
    unfold bind at 1. unfold try_except.
    rewrite (bind_returned _ _ _ _ _ (run_do_call _ _)), with_calls_app.
    destruct (load_fake_module C) as [data|e] eqn:Hl.
    + unfold ret at 1.
      rewrite (bind_returned _ _ _ _ _ (run_do_call _ _)), with_calls_app.
      destruct (py_sanity_check_step C) eqn:Hp.
      * unfold bind at 1. unfold ret at 1.
        unfold bind at 1. unfold gets at 1.
        unfold bind at 1. unfold set_r_ext_modulename, set_self, modify.
        unfold bind at 1. unfold do_call at 1, modify.
        destruct (r_sanity_check_step C).
        -- exists [SuperSanityCheckStep files []; LoadFakeModule; PySanityCheckStep;
                   RSanityCheckStep; CleanUpFakeModule data].
           split; [cbn -[files]; now rewrite <- !app_assoc|].
           split; [eauto | cbn; tauto].
        -- exists [SuperSanityCheckStep files []; LoadFakeModule; PySanityCheckStep;
                   RSanityCheckStep].
           split; [cbn -[files]; now rewrite <- !app_assoc|].
           split; [eauto | cbn; tauto].
      * exists [SuperSanityCheckStep files []; LoadFakeModule; PySanityCheckStep].
        split; [reflexivity|].
        split; [cbn; intros [X|[X|[X|[]]]]; discriminate | intros (_ & _ & X); discriminate].
    + exists [SuperSanityCheckStep files []; LoadFakeModule].
      split; [destruct e; reflexivity|].
      split; [cbn; intros [X|[X|[]]]; discriminate | intros (_ & [d X] & _); discriminate].
Qed.

(** C8. The switch [install_r_ext] is off by default.  With it off,
    [extensions_step] asks the framework for the calls that install the
    Python binding, from the [python] directory of the main source
    directory (which it records as the source directory of the Python
    extension), and for no other: it ends as these calls end, and when they
    return it returns, with the three installer calls made and a log
    message after them.  However the calls end, no [NAMESPACE] file is
    written, the R installer is not run and the export command is not run.
    [sanity_check_step] does not look at the switch: the R binding's sanity
    check is called whenever the step gets that far, that is exactly when
    the parent's check passes, the fake module loads and the Python
    binding's check succeeds. *)
Theorem r_extension_switched_off (w : world W) (d : string)
    (made : list call) (r : option exn) (f : W) :
  install_r_ext (cfg (self w)) = false ->
  mxnet_src_dir (self w) = Some d ->
  framework_run F (py_install_calls d) (fs w) = (made, r, f) ->
  install_r_ext_default = false /\
  fst (extensions_step F w) = outcome r /\
  src (py_ext (self (snd (extensions_step F w)))) = Some (OsPath.join d "python") /\
  (exists trace,
     calls (snd (extensions_step F w)) = (calls w ++ trace)%list /\
     (r = None ->
        trace = (py_install_calls d ++ skip_r_calls)%list /\
        In PyPrerun trace /\ In (PyRun false) trace /\ In PyPostrun trace) /\
     (forall path contents, ~ In (WriteFile path contents) trace) /\
     ~ In RPrerun trace /\ ~ In RRun trace /\ ~ In RPostrun trace /\
     (forall cmd, ~ In (RunCmd cmd) trace)) /\
  (exists trace,
     calls (snd (sanity_check_step E C w)) = (calls w ++ trace)%list /\
     (In RSanityCheckStep trace <->
        super_sanity_check_step C
          ["lib/libmxnet.a"; "lib/libmxnet." ++ get_shared_lib_ext E] [] = None /\
        (exists data, load_fake_module C = Returned data) /\
        py_sanity_check_step C = true)).
Proof.
  intros Hoff Hmain Hrun.
  destruct (extensions_step_r_disabled w d made r f Hoff Hmain Hrun)
    as (w' & Hr & Hc & _ & _ & Hsrc).
  destruct (framework_run_made _ _ _ _ _ Hrun) as [[rest Hrest] Hall].
  rewrite Hr. cbn [fst snd].
  split; [reflexivity|]. split; [reflexivity|]. split; [exact Hsrc|]. split.
  - eexists. split; [exact Hc|].
    assert (Hin : forall c, In c (made ++ match r with None => skip_r_calls | Some _ => [] end)
                    -> In c (py_install_calls d ++ skip_r_calls)).
    { intros c I. apply in_app_or in I as [I|I].
      - apply in_or_app. left. rewrite Hrest. apply in_or_app. now left.
      - destruct r; [contradiction|]. apply in_or_app. now right. }
    split.
    { intros ->. rewrite (Hall eq_refl). split; [reflexivity|].
      cbn. tauto. }
    repeat split; intros; intros I; apply Hin in I; cbn in I;
      destruct I as [X|[X|[X|[X|[X|[]]]]]]; discriminate.
  - apply sanity_check_step_outcome.
Qed.

End BindingProperties.

(** ** The module text ([make_module_extra]) *)

Section ModuleProperties.

Context {W : Type} {FS : FileSystem W}.

Lemma run_extend_pythonpath (w : world W) (txt : list stmt) (p : string) :
  listable w [p] ->
  extend_pythonpath txt p w =
  (Returned (if nonempty_dir w p then txt ++ [PrependPaths "PYTHONPATH" [p]] else txt)%list, w).
Proof.
  intros H. unfold extend_pythonpath, nonempty_dir, os_path_exists, os_listdir.
  unfold bind, gets. cbn beta iota.
  destruct (fs_exists _ (fs w)) eqn:Hex; [|reflexivity].
  destruct (H p (or_introl eq_refl) Hex) as [l Hl]. rewrite Hl.
  now destruct l.
Qed.

Lemma run_fold_paths (w : world W) (paths : list string) (txt : list stmt) :
  listable w paths ->
  fold_paths txt paths w =
  (Returned (txt ++ map (fun p => PrependPaths "PYTHONPATH" [p])
                      (filter (nonempty_dir w) paths))%list, w).
Proof.
  revert txt. induction paths as [|p paths IH]; intros txt H; cbn [fold_paths filter map].
  - now rewrite app_nil_r.
  - assert (Hp : listable w [p]) by (intros q [<-|[]]; apply H; now left).
    rewrite (bind_returned _ _ _ _ _ (run_extend_pythonpath w txt p Hp)).
    rewrite IH by (intros q Hq; apply H; now right).
    destruct (nonempty_dir w p); cbn [map]; [now rewrite <- app_assoc | reflexivity].
Qed.

(** C9. When every candidate of [all_pylibdirs] that exists under the
    installation directory is a directory, the module text is the parent's
    text, then one [PYTHONPATH] statement for each candidate that exists
    and lists at least one entry (and for no other), then the [R_LIBS]
    statement with the empty path, which stands for the installation
    root. *)
Theorem make_module_extra_paths (w : world W) (super_txt : string) :
  listable w (all_pylibdirs (py_ext (self w))) ->
  exists txt,
    make_module_extra super_txt w = (Returned txt, with_calls w [SuperMakeModuleExtra]) /\
    txt = ([SuperText super_txt] ++
           map (fun p => PrependPaths "PYTHONPATH" [p])
               (filter (nonempty_dir w) (all_pylibdirs (py_ext (self w)))) ++
           [PrependPaths "R_LIBS" [EmptyString]])%list /\
    (forall p,
       In (PrependPaths "PYTHONPATH" [p]) txt <->
       In p (all_pylibdirs (py_ext (self w))) /\
       fs_exists (OsPath.join (installdir (self w)) p) (fs w) = true /\
       exists x l, fs_listdir (OsPath.join (installdir (self w)) p) (fs w) = inr (x :: l)) /\
    In (PrependPaths "R_LIBS" [EmptyString]) txt.
Proof.
  intros H. eexists. split; [|split; [reflexivity|split]].
  - unfold make_module_extra.
    rewrite (bind_returned _ _ _ _ _ (eq_refl : do_call _ w = (Returned tt, with_calls w _))).
    unfold bind at 1. unfold gets at 1. cbn [with_calls self].
    rewrite (bind_returned _ _ _ _ _
               (run_fold_paths (with_calls w [SuperMakeModuleExtra]) _ _ H)).
    unfold ret. now rewrite <- app_assoc.
  - intros p. rewrite !in_app_iff, in_map_iff. split.
    + intros [[X|[]]|[(q & Hq & Hin)|[X|[]]]]; try discriminate.
      inversion Hq; subst q. apply filter_In in Hin as [Hin Hne]. split; [exact Hin|].
      unfold nonempty_dir in Hne. apply andb_true_iff in Hne as [Hex Hl].
      split; [exact Hex|].
      destruct (fs_listdir _ (fs w)) as [e|[|x l]]; try discriminate. now exists x, l.
    + intros (Hin & Hex & x & l & Hl). right. left. exists p. split; [reflexivity|].
      apply filter_In. split; [exact Hin|]. unfold nonempty_dir. now rewrite Hex, Hl.
  - rewrite !in_app_iff. right. right. now left.
Qed.

End ModuleProperties.

(** ** Facts on strings and paths *)

Section StringFacts.

Lemma append_assoc (a b c : string) : (a ++ b) ++ c = a ++ (b ++ c).
Proof. induction a as [|x a IH]; cbn; [reflexivity | now rewrite IH]. Qed.

Lemma append_nil_r (a : string) : a ++ EmptyString = a.
Proof. induction a as [|x a IH]; cbn; [reflexivity | now rewrite IH]. Qed.

Lemma prefix_nil (s : string) : String.prefix EmptyString s = true.
Proof. now destruct s. Qed.

Lemma prefix_cons (a b : ascii) (s t : string) :
  String.prefix (String a s) (String b t) = Ascii.eqb a b && String.prefix s t.
Proof.
  cbn [String.prefix]. destruct (ascii_dec a b) as [->|N].
  - now rewrite Ascii.eqb_refl.
  - apply Ascii.eqb_neq in N. now rewrite N.
Qed.

(** No occurrence of a one-character separator: [rpartition] finds none. *)
Lemma rsplit_last_none (c : ascii) (s : string) :
  PyStr.contains (String c EmptyString) s = false ->
  PyStr.rsplit_last (String c EmptyString) s = None.
Proof.
  induction s as [|a s IH]; intros H; [reflexivity|].
  cbn [PyStr.contains] in H. apply orb_false_iff in H as [Hp Hc].
  cbn [PyStr.rsplit_last]. rewrite (IH Hc). now rewrite Hp.
Qed.

Lemma contains_none_rsplit (c : ascii) (s : string) :
  PyStr.rsplit_last (String c EmptyString) s = None ->
  PyStr.contains (String c EmptyString) s = false.
Proof.
  induction s as [|a s IH]; intros H; [reflexivity|].
  cbn [PyStr.rsplit_last] in H.
  destruct (PyStr.rsplit_last (String c EmptyString) s) as [[h t]|]; [discriminate|].
  cbn [PyStr.contains]. rewrite (IH eq_refl), orb_false_r.
  destruct (String.prefix (String c EmptyString) (String a s)); [discriminate | reflexivity].
Qed.

(** The last separator of [a ++ sep ++ t], when [t] holds none. *)
Lemma rsplit_last_app (c : ascii) (a t : string) :
  PyStr.rsplit_last (String c EmptyString) t = None ->
  PyStr.rsplit_last (String c EmptyString) (a ++ String c t) = Some (a, t).
Proof.
  intros H. induction a as [|x a IH].
  - cbn [String.append PyStr.rsplit_last]. rewrite H.
    rewrite prefix_cons, Ascii.eqb_refl. now destruct t.
  - cbn [String.append PyStr.rsplit_last]. now rewrite IH.
Qed.

Lemma rstrip_app_slash (b : string) :
  b <> EmptyString -> PyStr.ends_with_char "/" b = false ->
  PyStr.rstrip_char "/" (b ++ "/") = b /\ PyStr.all_char "/" (b ++ "/") = false.
Proof.
  induction b as [|x b IH]; intros Hne He; [congruence|].
  destruct b as [|y b].
  - cbn in He. cbn. rewrite He. auto.
  - destruct IH as [IH1 IH2]; [discriminate | exact He |].
    change ((String x (String y b) ++ "/")) with (String x (String y b ++ "/")).
    cbn [PyStr.rstrip_char PyStr.all_char]. rewrite IH1, IH2. now rewrite andb_false_r.
Qed.

(** [os.path.join] on a plain directory path and a relative name. *)
Lemma join_plain (b x : string) :
  plain_path b = true -> PyStr.startswith x "/" = false ->
  OsPath.join b x = b ++ String "/" x.
Proof.
  unfold plain_path, OsPath.join, OsPath.sep. intros H Hx. rewrite Hx.
  apply andb_true_iff in H as [H _]. apply andb_true_iff in H as [H1 H2].
  apply negb_true_iff in H1, H2. now rewrite H1, H2.
Qed.

Lemma plain_path_inv (b : string) :
  plain_path b = true ->
  b <> EmptyString /\ PyStr.ends_with_char "/" b = false.
Proof.
  unfold plain_path. intros H.
  apply andb_true_iff in H as [H _]. apply andb_true_iff in H as [H1 H2].
  apply negb_true_iff in H1, H2. split; [|exact H2].
  intros ->. discriminate.
Qed.

(** The pattern handed to [glob] splits into the build directory and
    [*mxnet-*]. *)
Lemma split_join_pattern (b : string) :
  plain_path b = true ->
  OsPath.split (OsPath.join b "*mxnet-*") = (b, "*mxnet-*").
Proof.
  intros H. rewrite (join_plain b "*mxnet-*" H eq_refl).
  unfold OsPath.split, OsPath.sep.
  rewrite (rsplit_last_app "/" b "*mxnet-*" eq_refl).
  destruct (plain_path_inv b H) as [Hne He].
  destruct (rstrip_app_slash b Hne He) as [-> ->]. reflexivity.
Qed.

(** A pattern of literal characters and a final star matches the names
    that start with the literal characters. *)
Lemma fnmatch_star (n : string) : Glob.fnmatch "*" n = true.
Proof.
  cbn [Glob.fnmatch]. cbn [Ascii.eqb Bool.eqb].
  induction n as [|c n IH]; [reflexivity|]. exact IH.
Qed.

Lemma fnmatch_literal_star (lit n : string) :
  literal lit = true -> Glob.fnmatch (lit ++ "*") n = String.prefix lit n.
Proof.
  revert n. induction lit as [|p lit IH]; intros n H.
  - change (EmptyString ++ "*") with "*". rewrite fnmatch_star. now destruct n.
  - cbn [literal] in H. apply andb_true_iff in H as [H Hl].
    apply andb_true_iff in H as [H1 H2]. apply negb_true_iff in H1, H2.
    change (String p lit ++ "*") with (String p (lit ++ "*")).
    cbn [Glob.fnmatch]. rewrite H1, H2. destruct n as [|c n]; [reflexivity|].
    rewrite prefix_cons, IH by exact Hl. reflexivity.
Qed.

(** [*mxnet-*] matches the names that contain [mxnet-]. *)
Lemma fnmatch_mxnet (n : string) :
  Glob.fnmatch "*mxnet-*" n = PyStr.contains "mxnet-" n.
Proof.
  change (Glob.fnmatch "*mxnet-*" n) with
    ((fix from (n : string) : bool :=
        Glob.fnmatch "mxnet-*" n ||
        match n with
        | EmptyString => false
        | String _ n' => from n'
        end) n).
  induction n as [|c n IH].
  - reflexivity.
  - cbn [PyStr.contains]. rewrite <- IH.
    change "mxnet-*" with ("mxnet-" ++ "*").
    now rewrite (fnmatch_literal_star "mxnet-" (String c n) eq_refl).
Qed.

Lemma glob1_mxnet (names : list string) :
  Glob.glob1 names "*mxnet-*" = filter is_main names.
Proof.
  unfold Glob.glob1. apply filter_ext. intros n.
  unfold is_main. now rewrite fnmatch_mxnet.
Qed.

Lemma ends_with_char_app (c : ascii) (a b : string) :
  b <> EmptyString ->
  PyStr.ends_with_char c (a ++ b) = PyStr.ends_with_char c b.
Proof.
  intros Hb. induction a as [|x a IH]; [reflexivity|].
  cbn [String.append PyStr.ends_with_char]. rewrite IH.
  destruct (a ++ b) eqn:Hab; [|reflexivity].
  destruct a; [cbn in Hab; congruence | discriminate].
Qed.

(** Joining the empty string to [main/3rdparty] adds a slash. *)
Lemma join_empty_3rdparty (main : string) :
  OsPath.join (OsPath.join main "3rdparty") EmptyString =
  OsPath.join main "3rdparty" ++ "/".
Proof.
  assert (H : exists x, OsPath.join main "3rdparty" = x ++ "3rdparty").
  { unfold OsPath.join at 1. cbn [PyStr.startswith String.prefix OsPath.sep].
    destruct (ascii_dec "/" "3"); [discriminate|].
    destruct (_ || _); [now exists main|].
    exists (main ++ "/"). now rewrite append_assoc. }
  destruct H as [x ->]. unfold OsPath.join, OsPath.sep.
  cbn [PyStr.startswith String.prefix].
  rewrite ends_with_char_app by discriminate. cbn [PyStr.ends_with_char Ascii.eqb Bool.eqb].
  destruct x; cbn; now rewrite ?append_assoc.
Qed.

End StringFacts.

(** ** Source assembly ([extract_step]) over any file system *)

Section ExtractProperties.

Context {W : Type} {FS : FileSystem W}.

(** What [glob] finds in a plain build directory. *)
Lemma glob_build_dir (b : string) (f : W) (names : list string) :
  plain_path b = true ->
  fs_listdir b f = inr names ->
  Glob.glob (OsPath.join b "*mxnet-*") f = map (OsPath.join b) (filter is_main names).
Proof.
  intros Hp Hl. unfold Glob.glob. rewrite (split_join_pattern b Hp).
  destruct (plain_path_inv b Hp) as [Hne _].
  apply String.eqb_neq in Hne. rewrite Hne, Hl. now rewrite glob1_mxnet.
Qed.

(** The outcomes of one round of the loop, by cases on what the file
    system answers. *)
Ltac run_body :=
  unfold move_submodule, rename_onednn, os_rename, remove_dir, shutil_move,
    try_except, move_error, join_attr, bind, gets, ret, raise;
  repeat match goal with
    | |- context [PyStr.rpartition ?s ?c] => destruct (PyStr.rpartition s c) as [[? ?] ?]
    | |- context [if ?b =? ?c then _ else _] => destruct (b =? c)
    | |- context [fs_rename ?a ?b ?f] => destruct (fs_rename a b f)
    | |- context [mxnet_src_dir ?s] => destruct (mxnet_src_dir s)
    | |- context [fs_remove_dir ?a ?f] => destruct (fs_remove_dir a f) as [[?|] ?]
    | |- context [fs_move ?a ?b ?f] => destruct (fs_move a b f) as [[?|] ?]
    | _ => progress cbn
    end.

(** A round of the loop touches the file system only: the easyblock and
    the calls made stay as they are. *)
Lemma move_submodule_frame (d : string) (w : world W) :
  self (snd (move_submodule d w)) = self w /\
  calls (snd (move_submodule d w)) = calls w.
Proof. run_body; auto. Qed.

Lemma for_each_move_frame (l : list string) (w : world W) :
  self (snd (for_each l move_submodule w)) = self w /\
  calls (snd (for_each l move_submodule w)) = calls w.
Proof.
  revert w. induction l as [|d l IH]; intros w; [now cbn|].
  cbn [for_each]. unfold bind.
  pose proof (move_submodule_frame d w) as [Hs Hc].
  destruct (move_submodule d w) as [[[]|e] w1]; cbn [snd] in *; [|auto].
  destruct (IH w1) as [Hs' Hc']. split; congruence.
Qed.

(** A round of the loop never raises the error of the search. *)
Lemma move_submodule_no_discovery_error (d : string) (w : world W) (dirs : list string) :
  fst (move_submodule d w) <> Raised (discovery_error dirs).
Proof. unfold discovery_error. run_body; discriminate. Qed.

Lemma for_each_move_no_discovery_error (l : list string) (w : world W) (dirs : list string) :
  fst (for_each l move_submodule w) <> Raised (discovery_error dirs).
Proof.
  revert w. induction l as [|d l IH]; intros w; [cbn; discriminate|].
  cbn [for_each]. unfold bind.
  pose proof (move_submodule_no_discovery_error d w dirs) as H.
  destruct (move_submodule d w) as [[[]|e] w1]; cbn [fst] in *; [apply IH | exact H].
Qed.

(** [extract_step] when exactly one entry of the build directory is
    matched: the entry is recorded and the loop runs over the others. *)
Lemma extract_step_found (w : world W) (names : list string) (m : string) :
  plain_path (builddir (self w)) = true ->
  fs_listdir (builddir (self w)) (fs w) = inr names ->
  filter is_main names = [m] ->
  extract_step w =
  for_each (other_entries (builddir (self w)) m names) move_submodule
    (discovered w (OsPath.join (builddir (self w)) m)).
Proof.
  intros Hp Hl Hm.
  unfold extract_step, do_call, glob_glob, set_mxnet_src_dir, set_self, modify,
    os_listdir, main_basename, bind, gets, ret.
  cbn [self fs calls builddir mxnet_src_dir].
  rewrite (glob_build_dir _ _ names Hp Hl), Hm. cbn [map].
  cbn [self fs calls builddir mxnet_src_dir]. rewrite Hl.
  unfold discovered, other_entries. rewrite <- app_assoc. reflexivity.
Qed.

(** [extract_step] when the match is not unique. *)
Lemma extract_step_not_found (w : world W) (names : list string) :
  plain_path (builddir (self w)) = true ->
  fs_listdir (builddir (self w)) (fs w) = inr names ->
  length (filter is_main names) <> 1 ->
  extract_step w =
  (Raised (discovery_error (map (OsPath.join (builddir (self w))) (filter is_main names))),
   with_calls w [SuperExtractStep]).
Proof.
  intros Hp Hl Hm.
  unfold extract_step, do_call, glob_glob, set_mxnet_src_dir, set_self, modify,
    os_listdir, main_basename, bind, gets, ret, raise.
  cbn [self fs calls builddir mxnet_src_dir].
  rewrite (glob_build_dir _ _ names Hp Hl).
  destruct (filter is_main names) as [|a [|b l]]; cbn [length map] in *;
    [reflexivity | congruence | reflexivity].
Qed.

(** [extract_step] when the build directory cannot be listed: [glob] finds
    nothing. *)
Lemma extract_step_unlisted (w : world W) (e : oserror) :
  plain_path (builddir (self w)) = true ->
  fs_listdir (builddir (self w)) (fs w) = inl e ->
  extract_step w = (Raised (discovery_error []), with_calls w [SuperExtractStep]).
Proof.
  intros Hp Hl.
  unfold extract_step, do_call, glob_glob, modify, bind, gets, ret, raise.
  cbn [self fs calls builddir]. unfold Glob.glob.
  rewrite (split_join_pattern _ Hp).
  destruct (plain_path_inv _ Hp) as [Hne _]. apply String.eqb_neq in Hne.
  rewrite Hne, Hl. reflexivity.
Qed.

(** C3 (amended). [extract_step] lists the entries of the build directory
    and keeps those that are not hidden (no leading dot) and contain
    [mxnet-].  When exactly one is kept it is recorded as the main source
    directory, the loop over the other entries runs, and the error of the
    search is not raised; when none or several are kept, the step raises
    that error, with the entries kept, and records nothing. *)
Theorem extract_step_discovery (w : world W) :
  plain_path (builddir (self w)) = true ->
  let bdir := builddir (self w) in
  let names := listed bdir (fs w) in
  let found := filter is_main names in
  (forall m, found = [m] ->
     extract_step w =
       for_each (other_entries bdir m names) move_submodule
         (discovered w (OsPath.join bdir m)) /\
     mxnet_src_dir (self (snd (extract_step w))) = Some (OsPath.join bdir m) /\
     forall dirs, fst (extract_step w) <> Raised (discovery_error dirs)) /\
  (length found <> 1 ->
     extract_step w =
       (Raised (discovery_error (map (OsPath.join bdir) found)),
        with_calls w [SuperExtractStep]) /\
     mxnet_src_dir (self (snd (extract_step w))) = mxnet_src_dir (self w)).
Proof.
  intros Hp bdir names found. unfold found, names, listed, bdir.
  destruct (fs_listdir (builddir (self w)) (fs w)) as [e|l] eqn:Hl.
  - split; [intros m Hm; discriminate|].
    intros _. rewrite (extract_step_unlisted w e Hp Hl). split; reflexivity.
  - split.
    + intros m Hm. rewrite (extract_step_found w l m Hp Hl Hm).
      split; [reflexivity|]. split.
      * destruct (for_each_move_frame (other_entries (builddir (self w)) m l)
                    (discovered w (OsPath.join (builddir (self w)) m))) as [-> _].
        reflexivity.
      * intros dirs. apply for_each_move_no_discovery_error.
    + intros Hn. rewrite (extract_step_not_found w l Hp Hl Hn).
      split; reflexivity.
Qed.

(** C4. When [shutil.move] fails for an entry of the build directory, with
    the ones before it moved, [extract_step] ends there with the
    [EasyBuildError] "Failed to move ..." that carries the two paths and the
    error of the file system.  The file system is left as the failed move
    left it: the move is not tried again and the entries after it are not
    touched. *)
Theorem extract_step_move_failure
    (w wk w1 w2 : world W) (names done rest : list string) (m srcdir sub srcdir' : string)
    (e : oserror) (f : W) :
  let bdir := builddir (self w) in
  let olddir := OsPath.join bdir srcdir' in
  let newdir := OsPath.join (OsPath.join (OsPath.join bdir m) "3rdparty") sub in
  plain_path bdir = true ->
  fs_listdir bdir (fs w) = inr names ->
  filter is_main names = [m] ->
  other_entries bdir m names = (done ++ srcdir :: rest)%list ->
  for_each done move_submodule (discovered w (OsPath.join bdir m)) = (Returned tt, wk) ->
  rename_onednn srcdir wk = (Returned (sub, srcdir'), w1) ->
  remove_dir newdir w1 = (Returned tt, w2) ->
  fs_move olddir newdir (fs w2) = (Some e, f) ->
  extract_step w = (Raised (move_failed olddir newdir e), with_fs w2 f).
Proof.
  intros bdir olddir newdir Hp Hl Hm Ho Hdone Hren Hrm Hmv.
  rewrite (extract_step_found w names m Hp Hl Hm). fold bdir. rewrite Ho.
  rewrite (for_each_app _ _ _ _ _ Hdone).
  apply for_each_cons_raised.
  assert (Hk : self wk = self (discovered w (OsPath.join bdir m))).
  { pose proof (for_each_move_frame done (discovered w (OsPath.join bdir m))) as [H _].
    now rewrite Hdone in H. }
  assert (H1 : self w1 = self wk).
  { revert Hren. unfold rename_onednn, os_rename, bind, gets, ret.
    destruct (PyStr.rpartition srcdir "-") as [[? ?] ?].
    destruct (_ =? _); [destruct (fs_rename _ _ _)|]; intros H; inversion H; reflexivity. }
  unfold move_submodule.
  rewrite (bind_returned _ _ _ _ _ Hren).
  unfold bind at 1. unfold gets at 1.
  unfold bind at 1. unfold gets at 1.
  rewrite H1, Hk. cbn [discovered self builddir mxnet_src_dir join_attr].
  unfold bind at 1. unfold ret at 1.
  fold bdir. fold newdir. fold olddir.
  rewrite (bind_returned _ _ _ _ _ Hrm).
  unfold try_except, shutil_move. rewrite Hmv. reflexivity.
Qed.


End ExtractProperties.

(** ** Paths on trees *)

Module TreePaths.
Import TreeFS.

Lemma split_slash_nonempty (s : string) : split_slash s <> [].
Proof.
  destruct s as [|c s]; cbn [split_slash]; [discriminate|].
  destruct (Ascii.eqb c "/"); [discriminate|].
  destruct (split_slash s); discriminate.
Qed.

(** A name without a slash is one component. *)
Lemma split_slash_name (x : string) :
  PyStr.contains "/" x = false -> split_slash x = [x].
Proof.
  induction x as [|c x IH]; intros H; [reflexivity|].
  cbn [PyStr.contains] in H. apply orb_false_iff in H as [Hp Hc].
  rewrite prefix_cons, prefix_nil, andb_true_r in Hp.
  cbn [split_slash]. rewrite Ascii.eqb_sym, Hp, (IH Hc). reflexivity.
Qed.

(** Splitting at a slash splits the list of components. *)
Lemma split_slash_app (a b : string) :
  split_slash (a ++ String "/" b) = (split_slash a ++ split_slash b)%list.
Proof.
  induction a as [|c a IH].
  - reflexivity.
  - cbn [String.append split_slash]. rewrite IH.
    destruct (Ascii.eqb c "/"); [reflexivity|].
    destruct (split_slash a) eqn:Ha; [now apply split_slash_nonempty in Ha|].
    reflexivity.
Qed.

Lemma ends_with_slash_inv (a : string) :
  PyStr.ends_with_char "/" a = true -> exists a', a = a' ++ "/".
Proof.
  induction a as [|c a IH]; [discriminate|].
  destruct a as [|d a].
  - cbn. intros H. apply Ascii.eqb_eq in H. subst c. now exists EmptyString.
  - intros H. destruct (IH H) as [a' Ha']. exists (String c a').
    cbn [String.append]. now rewrite <- Ha'.
Qed.

Lemma valid_name_inv (x : string) :
  valid_name x = true ->
  x <> EmptyString /\ skipped x = false /\ PyStr.contains "/" x = false.
Proof.
  unfold valid_name, skipped. intros H.
  apply andb_true_iff in H as [H H4]. apply andb_true_iff in H as [H H3].
  apply andb_true_iff in H as [H1 H2].
  apply negb_true_iff in H1, H2, H4. rewrite H1, H2.
  repeat split; auto. intros ->. discriminate.
Qed.

Lemma valid_name_no_slash_start (x : string) :
  valid_name x = true -> PyStr.startswith x "/" = false.
Proof.
  intros H. destruct (valid_name_inv x H) as (_ & _ & Hc).
  destruct x as [|c x]; [reflexivity|].
  cbn [PyStr.contains] in Hc. now apply orb_false_iff in Hc as [Hp _].
Qed.

(** The pieces of [os.path.join(a, x)] for an entry name [x]: those of [a],
    then [x]. *)
Lemma split_slash_join (a x : string) :
  valid_name x = true ->
  exists pre,
    split_slash (OsPath.join a x) = (pre ++ [x])%list /\
    filter (fun c => negb (skipped c)) pre = components a.
Proof.
  intros Hx. destruct (valid_name_inv x Hx) as (Hne & Hsk & Hsl).
  unfold OsPath.join, OsPath.sep. rewrite (valid_name_no_slash_start x Hx).
  destruct (a =? EmptyString) eqn:Ha.
  - apply String.eqb_eq in Ha. subst a. cbn [orb String.append].
    exists []. now rewrite (split_slash_name x Hsl).
  - cbn [orb]. destruct (PyStr.ends_with_char "/" a) eqn:He.
    + destruct (ends_with_slash_inv a He) as [a' ->].
      rewrite append_assoc. cbn [String.append].
      rewrite split_slash_app, (split_slash_name x Hsl).
      exists (split_slash a'). split; [reflexivity|].
      unfold components. change (a' ++ "/") with (a' ++ String "/" EmptyString).
      rewrite split_slash_app. cbn [split_slash]. rewrite filter_app. cbn.
      now rewrite app_nil_r.
    + cbn [String.append]. rewrite split_slash_app, (split_slash_name x Hsl).
      exists (split_slash a). split; reflexivity.
Qed.

Lemma components_join (a x : string) :
  valid_name x = true -> components (OsPath.join a x) = (components a ++ [x])%list.
Proof.
  intros Hx. destruct (split_slash_join a x Hx) as (pre & Hs & Hf).
  destruct (valid_name_inv x Hx) as (_ & Hsk & _).
  unfold components at 1. rewrite Hs, filter_app, Hf. cbn [filter]. now rewrite Hsk.
Qed.

Lemma wants_dir_join (a x : string) :
  valid_name x = true -> wants_dir (OsPath.join a x) = false.
Proof.
  intros Hx. destruct (split_slash_join a x Hx) as (pre & Hs & _).
  destruct (valid_name_inv x Hx) as (_ & Hsk & _).
  unfold wants_dir. now rewrite Hs, last_last.
Qed.

Lemma join_not_empty (a x : string) :
  valid_name x = true -> OsPath.join a x <> EmptyString.
Proof.
  intros Hx H. destruct (split_slash_join a x Hx) as (pre & Hs & _).
  destruct (valid_name_inv x Hx) as (Hne & _ & _).
  rewrite H in Hs. cbn in Hs.
  destruct pre as [|p pre]; cbn in Hs; inversion Hs as [[Hx1 Hx2]]; [congruence|].
  destruct pre; discriminate.
Qed.

(** What a path to an entry names. *)
Lemma lookup_join (a x : string) (t : node) :
  valid_name x = true ->
  lookup (OsPath.join a x) t = get (components a ++ [x]) t.
Proof.
  intros Hx. unfold lookup.
  rewrite (components_join a x Hx), (wants_dir_join a x Hx).
  pose proof (join_not_empty a x Hx) as Hne.
  destruct (OsPath.join a x); [congruence|].
  now destruct (get _ t).
Qed.

End TreePaths.

(** ** Directory entries and trees *)

Module TreeFacts.
Import TreeFS.

Lemma assoc_set_same k n es : assoc k (assoc_set k n es) = Some n.
Proof.
  induction es as [|[k' n'] es IH]; cbn [assoc_set assoc].
  - now rewrite String.eqb_refl.
  - destruct (k' =? k) eqn:E; cbn [assoc]; [now rewrite String.eqb_refl | now rewrite E].
Qed.

Lemma assoc_set_other k k' n es :
  k <> k' -> assoc k' (assoc_set k n es) = assoc k' es.
Proof.
  intros N. apply String.eqb_neq in N.
  induction es as [|[k0 n0] es IH]; cbn [assoc_set assoc].
  - now rewrite N.
  - destruct (k0 =? k) eqn:E; cbn [assoc].
    + apply String.eqb_eq in E. subst k0. now rewrite N.
    + now rewrite IH.
Qed.

Lemma assoc_del_same k es : assoc k (assoc_del k es) = None.
Proof.
  unfold assoc_del. induction es as [|[k' n'] es IH]; [reflexivity|].
  cbn [filter fst]. destruct (k' =? k) eqn:E; cbn [negb assoc]; [exact IH | now rewrite E].
Qed.

Lemma assoc_del_other k k' es :
  k <> k' -> assoc k' (assoc_del k es) = assoc k' es.
Proof.
  intros N. unfold assoc_del. induction es as [|[k0 n0] es IH]; [reflexivity|].
  cbn [filter fst]. destruct (k0 =? k) eqn:E; cbn [negb assoc].
  - apply String.eqb_eq in E. subst k0. apply String.eqb_neq in N. now rewrite N.
  - now rewrite IH.
Qed.

Lemma assoc_none_names k es : assoc k es = None <-> ~ In k (map fst es).
Proof.
  induction es as [|[k' n'] es IH]; cbn [assoc map fst In]; [tauto|].
  destruct (k' =? k) eqn:E.
  - apply String.eqb_eq in E. split; [discriminate | tauto].
  - apply String.eqb_neq in E. rewrite IH. tauto.
Qed.

Lemma assoc_some_names k n es : assoc k es = Some n -> In k (map fst es).
Proof.
  intros H. destruct (in_dec string_dec k (map fst es)) as [I|N]; [exact I|].
  apply assoc_none_names in N. congruence.
Qed.

Lemma assoc_del_absent k es : assoc k es = None -> assoc_del k es = es.
Proof.
  unfold assoc_del. induction es as [|[k' n'] es IH]; [reflexivity|].
  cbn [assoc filter fst]. destruct (k' =? k); [discriminate|].
  intros H. cbn [negb]. now rewrite IH.
Qed.

Lemma names_assoc_del k es :
  map fst (assoc_del k es) = filter (fun x => negb (x =? k)) (map fst es).
Proof.
  unfold assoc_del. induction es as [|[k' n'] es IH]; [reflexivity|].
  cbn [filter map fst]. destruct (k' =? k); cbn [negb map fst]; now rewrite IH.
Qed.

Lemma names_assoc_set_present k n es :
  assoc k es <> None -> map fst (assoc_set k n es) = map fst es.
Proof.
  induction es as [|[k' n'] es IH]; cbn [assoc assoc_set]; [congruence|].
  destruct (k' =? k) eqn:E; intros H; cbn [map fst].
  - apply String.eqb_eq in E. now subst.
  - now rewrite IH.
Qed.

Lemma names_assoc_set_absent k n es :
  assoc k es = None -> map fst (assoc_set k n es) = (map fst es ++ [k])%list.
Proof.
  induction es as [|[k' n'] es IH]; cbn [assoc assoc_set]; [reflexivity|].
  destruct (k' =? k); [discriminate|]. intros H. cbn [map fst app]. now rewrite IH.
Qed.

(** *** Walking into a tree *)

Lemma get_app p q t :
  get (p ++ q) t = match get p t with Some s => get q s | None => None end.
Proof.
  revert t. induction p as [|c p IH]; intros t; [reflexivity|].
  cbn [app get]. destruct t as [|es]; [reflexivity|].
  destruct (assoc c es); [apply IH | reflexivity].
Qed.

(** A change made below [p] is seen at [p], and made there only. *)
Lemma put_below p q n t s s' :
  get p t = Some s -> q <> [] -> put q n s = Some s' ->
  exists t', put (p ++ q) n t = Some t' /\ get p t' = Some s'.
Proof.
  revert t. induction p as [|c p IH]; intros t Hg Hq Hp.
  - cbn in Hg. inversion Hg; subst. now exists s'.
  - cbn [get] in Hg. destruct t as [|es]; [discriminate|].
    destruct (assoc c es) as [sub|] eqn:Hc; [|discriminate].
    destruct (IH sub Hg Hq Hp) as (sub' & Hput & Hget).
    cbn [app put]. rewrite Hc, Hput.
    destruct (p ++ q)%list eqn:Hpq.
    { apply app_eq_nil in Hpq as [_ ?]. contradiction. }
    eexists. split; [reflexivity|]. cbn [get]. now rewrite assoc_set_same.
Qed.

Lemma del_below p q t s s' :
  get p t = Some s -> q <> [] -> del q s = Some s' ->
  exists t', del (p ++ q) t = Some t' /\ get p t' = Some s'.
Proof.
  revert t. induction p as [|c p IH]; intros t Hg Hq Hp.
  - cbn in Hg. inversion Hg; subst. now exists s'.
  - cbn [get] in Hg. destruct t as [|es]; [discriminate|].
    destruct (assoc c es) as [sub|] eqn:Hc; [|discriminate].
    destruct (IH sub Hg Hq Hp) as (sub' & Hdel & Hget).
    cbn [app del]. rewrite Hc, Hdel.
    destruct (p ++ q)%list eqn:Hpq.
    { apply app_eq_nil in Hpq as [_ ?]. contradiction. }
    eexists. split; [reflexivity|]. cbn [get]. now rewrite assoc_set_same.
Qed.

Lemma list_eqb_app p a b : list_eqb (p ++ a) (p ++ b) = list_eqb a b.
Proof.
  induction p as [|c p IH]; [reflexivity|].
  cbn [app list_eqb]. now rewrite String.eqb_refl, IH.
Qed.

Lemma is_prefix_app p a b : is_prefix (p ++ a) (p ++ b) = is_prefix a b.
Proof.
  induction p as [|c p IH]; [reflexivity|].
  cbn [app is_prefix]. now rewrite String.eqb_refl, IH.
Qed.

Lemma removelast_snoc {A} (p : list A) (a : list A) (x : A) :
  removelast (p ++ a ++ [x]) = (p ++ a)%list.
Proof. now rewrite app_assoc, removelast_last. Qed.

(** *** The [3rdparty] directory of the main source directory *)

Lemma main_3rdparty_inv m es tes :
  main_3rdparty m es = Some tes ->
  exists mes, assoc m es = Some (Dir mes) /\ assoc "3rdparty" mes = Some (Dir tes).
Proof.
  unfold main_3rdparty.
  destruct (assoc m es) as [[|mes]|]; try discriminate.
  destruct (assoc "3rdparty" mes) as [[|x]|] eqn:H3; try discriminate.
  intros H. inversion H; subst. now exists mes.
Qed.

Lemma main_3rdparty_set m es tes tes' :
  main_3rdparty m es = Some tes ->
  main_3rdparty m (set_main_3rdparty m tes' es) = Some tes'.
Proof.
  intros H. destruct (main_3rdparty_inv m es tes H) as (mes & Hm & H3).
  unfold set_main_3rdparty, main_3rdparty. rewrite Hm.
  now rewrite !assoc_set_same.
Qed.

Lemma assoc_set_main_other m k es tes' :
  k <> m -> assoc k (set_main_3rdparty m tes' es) = assoc k es.
Proof.
  intros N. unfold set_main_3rdparty.
  destruct (assoc m es) as [[|mes]|]; try reflexivity.
  apply assoc_set_other. congruence.
Qed.

Lemma names_set_main m es tes' :
  map fst (set_main_3rdparty m tes' es) = map fst es.
Proof.
  unfold set_main_3rdparty.
  destruct (assoc m es) as [[|mes]|] eqn:Hm; try reflexivity.
  apply names_assoc_set_present. congruence.
Qed.

Lemma main_3rdparty_del m d es :
  d <> m -> main_3rdparty m (assoc_del d es) = main_3rdparty m es.
Proof. intros N. unfold main_3rdparty. now rewrite assoc_del_other. Qed.

Lemma main_3rdparty_add m d n es :
  d <> m -> main_3rdparty m (assoc_set d n es) = main_3rdparty m es.
Proof. intros N. unfold main_3rdparty. now rewrite assoc_set_other. Qed.

(** What stands at [m/3rdparty/s] in the build directory. *)
Lemma get_main_3rdparty m s es tes :
  main_3rdparty m es = Some tes ->
  get [m; "3rdparty"; s] (Dir es) = assoc s tes.
Proof.
  intros H. destruct (main_3rdparty_inv m es tes H) as (mes & Hm & H3).
  cbn [get]. rewrite Hm, H3. now destruct (assoc s tes).
Qed.

Lemma put_main_3rdparty m s n es tes :
  main_3rdparty m es = Some tes ->
  put [m; "3rdparty"; s] n (Dir es) =
  Some (Dir (set_main_3rdparty m (assoc_set s n tes) es)).
Proof.
  intros H. destruct (main_3rdparty_inv m es tes H) as (mes & Hm & H3).
  unfold set_main_3rdparty. cbn [put]. now rewrite Hm, H3.
Qed.

Lemma del_main_3rdparty m s x es tes :
  main_3rdparty m es = Some tes -> assoc s tes = Some x ->
  del [m; "3rdparty"; s] (Dir es) =
  Some (Dir (set_main_3rdparty m (assoc_del s tes) es)).
Proof.
  intros H Hs. destruct (main_3rdparty_inv m es tes H) as (mes & Hm & H3).
  unfold set_main_3rdparty. cbn [del]. now rewrite Hm, H3, Hs.
Qed.

End TreeFacts.

(** ** The operations on the entries of the build directory *)

Module TreeOps.
Import TreeFS TreePaths TreeFacts.

Section InBuildDir.

Variable t : node.
Variable bdir : string.
Variable es : list (string * node).
Hypothesis Hes : get (components bdir) t = Some (Dir es).

Lemma is_nil_snoc (p q : list string) (x : string) : is_nil (p ++ q ++ [x]) = false.
Proof. destruct p; [destruct q|]; reflexivity. Qed.

Lemma lookup_entry d :
  valid_name d = true -> lookup (OsPath.join bdir d) t = assoc d es.
Proof.
  intros Hd. rewrite (lookup_join bdir d t Hd), get_app, Hes.
  cbn [get]. now destruct (assoc d es).
Qed.

Lemma components_submodule m s :
  valid_name m = true -> valid_name s = true ->
  components (OsPath.join (OsPath.join (OsPath.join bdir m) "3rdparty") s)
  = (components bdir ++ [m; "3rdparty"; s])%list.
Proof.
  intros Hm Hs.
  rewrite (components_join _ s Hs), (components_join _ "3rdparty" eq_refl),
    (components_join _ m Hm).
  now rewrite <- !app_assoc.
Qed.

Lemma lookup_submodule m s tes :
  valid_name m = true -> valid_name s = true ->
  main_3rdparty m es = Some tes ->
  lookup (OsPath.join (OsPath.join (OsPath.join bdir m) "3rdparty") s) t = assoc s tes.
Proof.
  intros Hm Hs H3. rewrite (lookup_join _ s t Hs).
  rewrite (components_join _ "3rdparty" eq_refl), (components_join _ m Hm).
  rewrite <- !app_assoc. cbn [app]. rewrite get_app, Hes.
  apply (get_main_3rdparty m s es tes H3).
Qed.

(** [os.rename] of an entry of the build directory to a free name. *)
Lemma rename_entry d d' n :
  valid_name d = true -> valid_name d' = true -> d <> d' ->
  assoc d es = Some n -> assoc d' es = None ->
  exists t',
    rename (OsPath.join bdir d) (OsPath.join bdir d') t = inr t' /\
    get (components bdir) t' = Some (Dir (assoc_set d' n (assoc_del d es))).
Proof.
  intros Hd Hd' Hne Hn Hfree. unfold rename.
  rewrite (lookup_entry d Hd), Hn.
  pose proof (join_not_empty bdir d' Hd') as Hj. apply String.eqb_neq in Hj. rewrite Hj.
  rewrite (components_join bdir d Hd), (components_join bdir d' Hd').
  rewrite (is_nil_snoc _ [] d), (is_nil_snoc _ [] d'). cbn [orb].
  rewrite (wants_dir_join bdir d' Hd'). cbn [andb].
  rewrite list_eqb_app, is_prefix_app. cbn [list_eqb is_prefix].
  apply String.eqb_neq in Hne. rewrite Hne. cbn [andb]. rewrite andb_false_r.
  rewrite removelast_last, Hes.
  rewrite get_app, Hes. cbn [get]. rewrite Hfree.
  destruct (del_below (components bdir) [d] t (Dir es) (Dir (assoc_del d es)) Hes)
    as (t1 & Hdel & Hg1); [discriminate | cbn [del]; now rewrite Hn |].
  rewrite Hdel.
  destruct (put_below (components bdir) [d'] n t1 (Dir (assoc_del d es))
              (Dir (assoc_set d' n (assoc_del d es))) Hg1)
    as (t2 & Hput & Hg2); [discriminate | reflexivity |].
  rewrite Hput. exists t2. split; [now destruct n | exact Hg2].
Qed.

(** [remove_dir] of a destination under [3rdparty]. *)
Lemma remove_dir_absent m s tes :
  valid_name m = true -> valid_name s = true ->
  main_3rdparty m es = Some tes -> assoc s tes = None ->
  remove_tree (OsPath.join (OsPath.join (OsPath.join bdir m) "3rdparty") s) t = (None, t).
Proof.
  intros Hm Hs H3 Hfree. unfold remove_tree.
  now rewrite (lookup_submodule m s tes Hm Hs H3), Hfree.
Qed.

Lemma remove_dir_present m s tes x :
  valid_name m = true -> valid_name s = true ->
  main_3rdparty m es = Some tes -> assoc s tes = Some (Dir x) ->
  exists t',
    remove_tree (OsPath.join (OsPath.join (OsPath.join bdir m) "3rdparty") s) t = (None, t') /\
    get (components bdir) t' = Some (Dir (set_main_3rdparty m (assoc_del s tes) es)).
Proof.
  intros Hm Hs H3 Hx. unfold remove_tree.
  rewrite (lookup_submodule m s tes Hm Hs H3), Hx.
  rewrite (components_submodule m s Hm Hs).
  destruct (del_below (components bdir) [m; "3rdparty"; s] t (Dir es) _ Hes
              ltac:(discriminate) (del_main_3rdparty m s _ es tes H3 Hx))
    as (t1 & Hdel & Hg1).
  rewrite Hdel. now exists t1.
Qed.

(** [shutil.move] of an entry of the build directory to a free destination
    under [3rdparty]. *)
Lemma move_entry m d s n tes :
  valid_name m = true -> valid_name d = true -> valid_name s = true ->
  d <> m -> assoc d es = Some n ->
  main_3rdparty m es = Some tes -> assoc s tes = None ->
  exists t',
    move (OsPath.join bdir d)
         (OsPath.join (OsPath.join (OsPath.join bdir m) "3rdparty") s) t = (None, t') /\
    get (components bdir) t' =
      Some (Dir (set_main_3rdparty m (assoc_set s n tes) (assoc_del d es))).
Proof.
  intros Hm Hd Hs Hne Hn H3 Hfree. unfold move, isdir.
  rewrite (lookup_submodule m s tes Hm Hs H3), Hfree.
  unfold move_to, rename.
  rewrite (lookup_entry d Hd), Hn.
  pose proof (join_not_empty (OsPath.join (OsPath.join bdir m) "3rdparty") s Hs) as Hj.
  apply String.eqb_neq in Hj. rewrite Hj.
  rewrite (components_join bdir d Hd), (components_submodule m s Hm Hs).
  rewrite (is_nil_snoc _ [] d).
  replace (is_nil (components bdir ++ [m; "3rdparty"; s])) with false
    by (symmetry; apply (is_nil_snoc _ [m; "3rdparty"] s)).
  cbn [orb].
  rewrite (wants_dir_join _ s Hs). cbn [andb].
  rewrite list_eqb_app, is_prefix_app. cbn [list_eqb is_prefix].
  apply String.eqb_neq in Hne. rewrite Hne. cbn [andb]. rewrite andb_false_r.
  replace (removelast (components bdir ++ [m; "3rdparty"; s]))
    with (components bdir ++ [m; "3rdparty"])%list
    by (symmetry; apply (removelast_snoc (components bdir) [m; "3rdparty"] s)).
  destruct (main_3rdparty_inv m es tes H3) as (mes & Hmm & Hm3).
  rewrite !get_app, Hes. cbn [get]. rewrite Hmm, Hm3, Hfree.
  destruct (del_below (components bdir) [d] t (Dir es) (Dir (assoc_del d es)) Hes)
    as (t1 & Hdel & Hg1); [discriminate | cbn [del]; now rewrite Hn |].
  rewrite Hdel.
  assert (H3' : main_3rdparty m (assoc_del d es) = Some tes).
  { rewrite main_3rdparty_del; [exact H3 | now apply String.eqb_neq]. }
  destruct (put_below (components bdir) [m; "3rdparty"; s] n t1 (Dir (assoc_del d es)) _ Hg1
              ltac:(discriminate) (put_main_3rdparty m s n _ tes H3'))
    as (t2 & Hput & Hg2).
  rewrite Hput. exists t2. split; [now destruct n | exact Hg2].
Qed.

End InBuildDir.

End TreeOps.

(** ** Source assembly on trees *)

Module TreeAssembly.
Import TreeFS TreePaths TreeFacts TreeOps.

Section Assembly.

Variable bdir m : string.
Hypothesis Hm : valid_name m = true.

(** [os.rename] of a path to itself changes nothing. *)
Lemma rename_entry_same t es d n :
  get (components bdir) t = Some (Dir es) ->
  valid_name d = true -> assoc d es = Some n ->
  rename (OsPath.join bdir d) (OsPath.join bdir d) t = inr t.
Proof.
  intros Hes Hd Hn. unfold rename.
  rewrite (lookup_entry t bdir es Hes d Hd), Hn.
  pose proof (join_not_empty bdir d Hd) as Hj. apply String.eqb_neq in Hj. rewrite Hj.
  rewrite (components_join bdir d Hd), (is_nil_snoc _ [] d). cbn [orb].
  rewrite (wants_dir_join bdir d Hd). cbn [andb].
  rewrite list_eqb_app. cbn [list_eqb]. now rewrite String.eqb_refl.
Qed.

(** The first half of a round: afterwards the entry bears its new name. *)
Lemma rename_onednn_tree (w : world node) es tes d n :
  builddir (self w) = bdir ->
  get (components bdir) (fs w) = Some (Dir es) ->
  main_3rdparty m es = Some tes ->
  valid_name d = true -> d <> m -> assoc d es = Some n ->
  valid_name (renamed d) = true -> renamed d <> m ->
  (renamed d = d \/ assoc (renamed d) es = None) ->
  exists t1 es1,
    rename_onednn d w = (Returned (submodule_of d, renamed d), with_fs w t1) /\
    get (components bdir) t1 = Some (Dir es1) /\
    assoc (renamed d) es1 = Some n /\
    main_3rdparty m es1 = Some tes /\
    map fst (assoc_del (renamed d) es1) = filter (fun x => negb (x =? d)) (map fst es) /\
    (forall k, k <> d -> k <> renamed d -> assoc k es1 = assoc k es).
Proof.
  intros Hb Hes H3 Hd Hdm Hn Hr Hrm Hfree.
  assert (Hsame : renamed d = d ->
            exists t1 es1, t1 = fs w /\ es1 = es /\
              get (components bdir) t1 = Some (Dir es1) /\
              assoc (renamed d) es1 = Some n /\
              main_3rdparty m es1 = Some tes /\
              map fst (assoc_del (renamed d) es1)
                = filter (fun x => negb (x =? d)) (map fst es) /\
              (forall k, k <> d -> k <> renamed d -> assoc k es1 = assoc k es)).
  { intros E. exists (fs w), es. rewrite E.
    repeat split; auto. apply names_assoc_del. }
  unfold rename_onednn, submodule_of, renamed in *.
  unfold bind at 1. unfold gets at 1. rewrite Hb.
  destruct (PyStr.rpartition d "-") as [[sub sep] tail].
  destruct (sub =? "oneDNN").
  - remember (PyStr.replace d "oneDNN" "mkldnn") as d' eqn:Hd'. clear Hd'.
    unfold bind, os_rename, ret. cbn [fs_rename tree_fs].
    destruct (string_dec d' d) as [E|N].
    + destruct (Hsame E) as (t1 & es1 & -> & -> & R).
      subst d'. rewrite (rename_entry_same (fs w) es d n Hes Hd Hn).
      exists (fs w), es. split; [now destruct w | exact R].
    + destruct Hfree as [E|Hfree]; [contradiction|].
      destruct (rename_entry (fs w) bdir es Hes d d' n Hd Hr (not_eq_sym N) Hn Hfree)
        as (t1 & Hren & Hg1).
      rewrite Hren. exists t1, (assoc_set d' n (assoc_del d es)).
      split; [reflexivity|]. split; [exact Hg1|].
      split; [apply assoc_set_same|].
      split; [rewrite main_3rdparty_add, main_3rdparty_del; auto|].
      split.
      * rewrite names_assoc_del, names_assoc_set_absent
          by (rewrite assoc_del_other; auto).
        rewrite filter_app, names_assoc_del. cbn [filter].
        rewrite String.eqb_refl. cbn [negb]. rewrite app_nil_r.
        apply assoc_none_names in Hfree.
        clear - Hfree. induction (map fst es) as [|x l IH]; [reflexivity|].
        cbn [filter]. destruct (x =? d) eqn:Ex; cbn [negb].
        -- apply IH. intros I. apply Hfree. now right.
        -- cbn [filter]. destruct (x =? d') eqn:Ex'.
           ++ apply String.eqb_eq in Ex'. subst x. exfalso. apply Hfree. now left.
           ++ cbn [negb]. f_equal. apply IH. intros I. apply Hfree. now right.
      * intros k Hkd Hkd'. rewrite assoc_set_other, assoc_del_other; auto.
  - destruct (Hsame eq_refl) as (t1 & es1 & -> & -> & R).
    exists (fs w), es. split; [now destruct w | exact R].
Qed.

(** The second half: the destination is cleared and the entry moved. *)
Lemma clear_and_move_tree (w : world node) es tes d s n :
  builddir (self w) = bdir ->
  mxnet_src_dir (self w) = Some (OsPath.join bdir m) ->
  get (components bdir) (fs w) = Some (Dir es) ->
  main_3rdparty m es = Some tes ->
  valid_name d = true -> d <> m -> assoc d es = Some n ->
  valid_name s = true ->
  (forall x, assoc s tes <> Some (File x)) ->
  let olddir := OsPath.join bdir d in
  let newdir := OsPath.join (OsPath.join (OsPath.join bdir m) "3rdparty") s in
  exists t' es',
    (remove_dir newdir ;;
     try_except (shutil_move olddir newdir) (move_error olddir newdir)) w
      = (Returned tt, with_fs w t') /\
    get (components bdir) t' = Some (Dir es') /\
    map fst es' = map fst (assoc_del d es) /\
    (forall k, k <> m -> assoc k es' = assoc k (assoc_del d es)) /\
    main_3rdparty m es' = Some (assoc_set s n (assoc_del s tes)).
Proof.
  intros Hb Hmain Hes H3 Hd Hdm Hn Hs Hnofile olddir newdir.
  assert (Hmove : forall t2 es2 tes2,
            get (components bdir) t2 = Some (Dir es2) ->
            main_3rdparty m es2 = Some tes2 -> assoc s tes2 = None ->
            assoc d es2 = Some n ->
            map fst es2 = map fst es ->
            (forall k, k <> m -> assoc k es2 = assoc k es) ->
            exists t' es',
              try_except (shutil_move olddir newdir) (move_error olddir newdir)
                (with_fs w t2) = (Returned tt, with_fs w t') /\
              get (components bdir) t' = Some (Dir es') /\
              map fst es' = map fst (assoc_del d es) /\
              (forall k, k <> m -> assoc k es' = assoc k (assoc_del d es)) /\
              main_3rdparty m es' = Some (assoc_set s n tes2)).
  { intros t2 es2 tes2 Hes2 H32 Hfree Hn2 Hnames Hsame.
    destruct (move_entry t2 bdir es2 Hes2 m d s n tes2 Hm Hd Hs Hdm Hn2 H32 Hfree)
      as (t' & Hmv & Hg).
    exists t', (set_main_3rdparty m (assoc_set s n tes2) (assoc_del d es2)).
    split.
    { unfold try_except, shutil_move. cbn [fs_move tree_fs with_fs fs].
      fold olddir newdir in Hmv. now rewrite Hmv. }
    split; [exact Hg|]. split.
    { now rewrite names_set_main, !names_assoc_del, Hnames. }
    split.
    { intros k Hk. rewrite assoc_set_main_other by exact Hk.
      destruct (string_dec d k) as [<-|Nk].
      - now rewrite !assoc_del_same.
      - rewrite !assoc_del_other by exact Nk. now apply Hsame. }
    apply (main_3rdparty_set m _ tes2). now rewrite main_3rdparty_del. }
  unfold bind, remove_dir. cbn [rmtree_attempts fs_remove_dir tree_fs].
  destruct (assoc s tes) as [[x|x]|] eqn:Hx.
  - now destruct (Hnofile x).
  - destruct (remove_dir_present (fs w) bdir es Hes m s tes x Hm Hs H3 Hx)
      as (t2 & Hrm & Hg2).
    fold newdir in Hrm. rewrite Hrm.
    apply (Hmove t2 _ (assoc_del s tes) Hg2).
    + now apply (main_3rdparty_set m es tes).
    + apply assoc_del_same.
    + rewrite assoc_set_main_other; auto.
    + apply names_set_main.
    + intros k Hk. now apply assoc_set_main_other.
  - pose proof (remove_dir_absent (fs w) bdir es Hes m s tes Hm Hs H3 Hx) as Hrm.
    fold newdir in Hrm. rewrite Hrm. rewrite (assoc_del_absent s tes Hx).
    replace (Build_world (self w) (fs w) (calls w)) with (with_fs w (fs w)) by reflexivity.
    apply (Hmove (fs w) es tes Hes H3 Hx Hn); auto.
Qed.

(** One round of the loop on a tree: the entry [d] leaves the build
    directory and stands under [3rdparty] with its new name, in place of
    what was there. *)
Lemma move_submodule_tree (w : world node) es tes d n :
  builddir (self w) = bdir ->
  mxnet_src_dir (self w) = Some (OsPath.join bdir m) ->
  get (components bdir) (fs w) = Some (Dir es) ->
  main_3rdparty m es = Some tes ->
  valid_name d = true -> d <> m -> assoc d es = Some n ->
  valid_name (submodule_of d) = true ->
  destination_free tes d = true ->
  valid_name (renamed d) = true -> renamed d <> m ->
  (renamed d = d \/ assoc (renamed d) es = None) ->
  exists t' es',
    move_submodule d w = (Returned tt, with_fs w t') /\
    get (components bdir) t' = Some (Dir es') /\
    map fst es' = filter (fun x => negb (x =? d)) (map fst es) /\
    (forall k, k <> d -> k <> m -> assoc k es' = assoc k es) /\
    main_3rdparty m es' =
      Some (assoc_set (submodule_of d) n (assoc_del (submodule_of d) tes)).
Proof.
  intros Hb Hmain Hes H3 Hd Hdm Hn Hs Hdest Hr Hrm Hfree.
  destruct (rename_onednn_tree w es tes d n Hb Hes H3 Hd Hdm Hn Hr Hrm Hfree)
    as (t1 & es1 & Hren & Hg1 & Hn1 & H31 & Hnames1 & Hsame1).
  assert (Hnofile : forall x, assoc (submodule_of d) tes <> Some (File x)).
  { intros x Hx. unfold destination_free in Hdest. now rewrite Hx in Hdest. }
  destruct (clear_and_move_tree (with_fs w t1) es1 tes (renamed d) (submodule_of d) n
              Hb Hmain Hg1 H31 Hr Hrm Hn1 Hs Hnofile)
    as (t' & es' & Hrun & Hg' & Hnames' & Hsame' & H3').
  exists t', es'. split.
  { unfold move_submodule. rewrite (bind_returned _ _ _ _ _ Hren).
    unfold bind at 1. unfold gets at 1.
    unfold bind at 1. unfold gets at 1.
    cbn [with_fs self]. rewrite Hb, Hmain. cbn [join_attr].
    unfold bind at 1. unfold ret at 1. exact Hrun. }
  split; [exact Hg'|]. split; [now rewrite Hnames'|]. split; [|exact H3'].
  intros k Hkd Hkm. rewrite (Hsame' k Hkm).
  destruct (string_dec (renamed d) k) as [E|N].
  - subst k. rewrite assoc_del_same.
    destruct Hfree as [E|Hfree]; [congruence | now rewrite Hfree].
  - rewrite assoc_del_other by exact N. apply Hsame1; auto.
Qed.

Lemma mem_true_iff k l : mem k l = true <-> In k l.
Proof.
  unfold mem. rewrite existsb_exists. split.
  - intros (x & Hin & E). apply String.eqb_eq in E. now subst.
  - intros H. exists k. split; [exact H | apply String.eqb_refl].
Qed.

Lemma mem_false_iff k l : mem k l = false <-> ~ In k l.
Proof.
  rewrite <- mem_true_iff. destruct (mem k l); split; congruence.
Qed.

Lemma filter_filter {A} (f g : A -> bool) (l : list A) :
  filter f (filter g l) = filter (fun x => g x && f x) l.
Proof.
  induction l as [|x l IH]; [reflexivity|].
  cbn [filter]. destruct (g x); cbn [filter andb]; now rewrite IH.
Qed.

(** The whole loop on a tree. *)
Lemma for_each_move_tree (deps : list string) :
  forall (w : world node) es tes,
  builddir (self w) = bdir ->
  mxnet_src_dir (self w) = Some (OsPath.join bdir m) ->
  get (components bdir) (fs w) = Some (Dir es) ->
  main_3rdparty m es = Some tes ->
  NoDup deps -> ~ In m deps ->
  (forall d, In d deps -> movable m es tes d) ->
  NoDup (map submodule_of deps) ->
  exists t' es' tes',
    for_each deps move_submodule w = (Returned tt, with_fs w t') /\
    get (components bdir) t' = Some (Dir es') /\
    map fst es' = filter (fun x => negb (mem x deps)) (map fst es) /\
    main_3rdparty m es' = Some tes' /\
    (forall d n, In d deps -> assoc d es = Some n ->
       assoc (submodule_of d) tes' = Some n) /\
    (forall k, ~ In k (map submodule_of deps) -> assoc k tes' = assoc k tes) /\
    Permutation (map fst tes')
      (filter (fun k => negb (mem k (map submodule_of deps))) (map fst tes)
       ++ map submodule_of deps).
Proof.
  induction deps as [|d deps IH]; intros w es tes Hb Hmain Hes H3 Hnd Hm' Hall Hnds.
  - exists (fs w), es, tes. cbn [for_each map mem existsb negb].
    split; [now destruct w|]. split; [exact Hes|].
    split; [clear; induction (map fst es) as [|x l IHl]; cbn; [reflexivity | now f_equal]|].
    split; [exact H3|]. split; [intros d n []|]. split; [reflexivity|].
    rewrite app_nil_r.
    replace (filter (fun _ => true) (map fst tes)) with (map fst tes); [reflexivity|].
    clear; induction (map fst tes) as [|x l IHl]; cbn; [reflexivity | now f_equal].
  - apply NoDup_cons_iff in Hnd as [Hd_notin Hnd'].
    cbn [map] in Hnds. apply NoDup_cons_iff in Hnds as [Hs_notin Hnds'].
    destruct (Hall d (or_introl eq_refl))
      as (Hd & (n & Hn) & Hs & Hdest & Hr & Hrm & Hfree).
    assert (Hdm : d <> m) by (intros ->; apply Hm'; now left).
    destruct (move_submodule_tree w es tes d n Hb Hmain Hes H3 Hd Hdm Hn Hs Hdest Hr Hrm Hfree)
      as (t1 & es1 & Hrun1 & Hg1 & Hnames1 & Hsame1 & H31).
    set (s := submodule_of d) in *.
    set (tes1 := assoc_set s n (assoc_del s tes)) in *.
    assert (Hsub : forall k, In k (map fst es1) -> In k (map fst es)).
    { intros k. rewrite Hnames1, filter_In. tauto. }
    assert (Hall1 : forall d', In d' deps -> movable m es1 tes1 d').
    { intros d' Hin. destruct (Hall d' (or_intror Hin))
        as (Hd' & (n' & Hn') & Hs' & Hdest' & Hr' & Hrm' & Hfree').
      assert (Hne : d' <> d) by (intros ->; contradiction).
      assert (Hnm : d' <> m) by (intros ->; apply Hm'; now right).
      assert (Hns : s <> submodule_of d').
      { intros E. apply Hs_notin. rewrite E. now apply in_map. }
      repeat split; auto.
      - exists n'. now rewrite Hsame1.
      - unfold destination_free, tes1 in *.
        now rewrite assoc_set_other, assoc_del_other.
      - destruct Hfree' as [E|Hf]; [now left|]. right.
        apply assoc_none_names. intros I. apply Hsub in I.
        now apply assoc_none_names in Hf. }
    destruct (IH (with_fs w t1) es1 tes1 Hb Hmain Hg1 H31 Hnd'
                 (fun I => Hm' (or_intror I)) Hall1 Hnds')
      as (t' & es' & tes' & Hrun & Hg' & Hnames' & H3' & Hmoved & Hkept & Hperm).
    exists t', es', tes'. split.
    { rewrite (for_each_cons_returned _ _ _ _ _ Hrun1). exact Hrun. }
    split; [exact Hg'|]. split.
    { rewrite Hnames', Hnames1, filter_filter. apply filter_ext.
      intros x. unfold mem. cbn [existsb]. now rewrite negb_orb. }
    split; [exact H3'|]. split.
    { intros d' n' [<-|Hin] Hn'.
      - rewrite Hkept by exact Hs_notin. fold s. unfold tes1.
        rewrite assoc_set_same. congruence.
      - apply Hmoved; [exact Hin|].
        rewrite Hsame1; [exact Hn' | intros ->; contradiction
                        | intros ->; apply Hm'; now right]. }
    split.
    { intros k Hk. cbn [map In] in Hk. fold s in Hk.
      rewrite Hkept by tauto. unfold tes1.
      rewrite assoc_set_other, assoc_del_other; auto. }
    rewrite Hperm. unfold tes1.
    rewrite names_assoc_set_absent by apply assoc_del_same.
    rewrite names_assoc_del, filter_app, filter_filter. cbn [filter map].
    apply mem_false_iff in Hs_notin. rewrite Hs_notin. cbn [negb].
    rewrite <- app_assoc. cbn [app]. fold s.
    replace (filter (fun x => negb (x =? s) && negb (mem x (map submodule_of deps)))
               (map fst tes))
      with (filter (fun k => negb (mem k (s :: map submodule_of deps))) (map fst tes));
      [reflexivity|].
    apply filter_ext. intros x. unfold mem. cbn [existsb]. now rewrite negb_orb.
Qed.

End Assembly.

End TreeAssembly.

(** ** The renaming of a [oneDNN] directory *)

Section RenamingFacts.

Lemma contains_char_app (c : ascii) (a b : string) :
  PyStr.contains (String c EmptyString) (a ++ b) =
  PyStr.contains (String c EmptyString) a || PyStr.contains (String c EmptyString) b.
Proof.
  induction a as [|x a IH].
  - cbn [String.append PyStr.contains]. now destruct b.
  - cbn [String.append PyStr.contains]. rewrite IH, !prefix_cons, !prefix_nil.
    now rewrite orb_assoc.
Qed.

Lemma contains_char_cons (c x : ascii) (s : string) :
  PyStr.contains (String c EmptyString) (String x s) =
  Ascii.eqb c x || PyStr.contains (String c EmptyString) s.
Proof. cbn [PyStr.contains]. now rewrite prefix_cons, prefix_nil, andb_true_r. Qed.

(** What [rpartition] finds: the text splits at the separator, and the
    tail holds no other. *)
Lemma rsplit_last_sound (c : ascii) (s h t : string) :
  PyStr.rsplit_last (String c EmptyString) s = Some (h, t) ->
  s = h ++ String c t /\ PyStr.contains (String c EmptyString) t = false.
Proof.
  revert h. induction s as [|x s IH]; intros h H; [discriminate|].
  cbn [PyStr.rsplit_last] in H.
  destruct (PyStr.rsplit_last (String c EmptyString) s) as [[h' t']|] eqn:Hs.
  - inversion H; subst. destruct (IH h' eq_refl) as [-> Ht]. now split.
  - rewrite prefix_cons, prefix_nil, andb_true_r in H.
    destruct (Ascii.eqb c x) eqn:E; [|discriminate].
    apply Ascii.eqb_eq in E. subst x. inversion H; subst. cbn [PyStr.drop String.length].
    split; [reflexivity|]. now apply contains_none_rsplit.
Qed.

(** Replacing leaves out no character that the text or the new piece does
    not hold. *)
Lemma replace_from_keeps_free (c : ascii) (old new : string) (k : nat) (s : string) :
  PyStr.contains (String c EmptyString) new = false ->
  PyStr.contains (String c EmptyString) s = false ->
  PyStr.contains (String c EmptyString) (PyStr.replace_from old new k s) = false.
Proof.
  intros Hnew. revert k. induction s as [|x s IH]; intros k Hs; [reflexivity|].
  rewrite contains_char_cons in Hs. apply orb_false_iff in Hs as [Hx Hs].
  cbn [PyStr.replace_from]. destruct k as [|k]; [|now apply IH].
  destruct (String.prefix old (String x s)).
  - rewrite contains_char_app, Hnew. now apply IH.
  - rewrite contains_char_cons, Hx. now apply IH.
Qed.

Lemma prefix_contains_char (c : ascii) (p s : string) :
  String.prefix p s = true ->
  PyStr.contains (String c EmptyString) p = true ->
  PyStr.contains (String c EmptyString) s = true.
Proof.
  revert s. induction p as [|a p IH]; intros s Hp Hc; [discriminate|].
  destruct s as [|b s]; [discriminate|].
  rewrite prefix_cons in Hp. apply andb_true_iff in Hp as [Hab Hp].
  apply Ascii.eqb_eq in Hab. subst b.
  rewrite contains_char_cons in *. apply orb_true_iff in Hc as [Hc|Hc].
  - now rewrite Hc.
  - rewrite (IH s Hp Hc). apply orb_true_r.
Qed.

(** A text without a hyphen does not contain [mxnet-]. *)
Lemma no_hyphen_not_main (s : string) :
  PyStr.contains "-" s = false -> PyStr.contains "mxnet-" s = false.
Proof.
  induction s as [|x s IH]; intros H; [reflexivity|].
  cbn [PyStr.contains].
  destruct (String.prefix "mxnet-" (String x s)) eqn:Hp.
  - rewrite (prefix_contains_char "-" "mxnet-" (String x s) Hp eq_refl) in H. discriminate.
  - rewrite contains_char_cons in H. apply orb_false_iff in H as [_ H]. now apply IH.
Qed.

(** The shape of an entry that goes to [mkldnn], and of its new name. *)
Lemma renamed_onednn (d : string) :
  fst (fst (PyStr.rpartition d "-")) = "oneDNN" ->
  exists tail r,
    d = "oneDNN-" ++ tail /\
    PyStr.replace d "oneDNN" "mkldnn" = "mkldnn-" ++ r /\
    PyStr.contains "-" r = false /\
    (PyStr.contains "/" d = false -> PyStr.contains "/" r = false).
Proof.
  unfold PyStr.rpartition.
  destruct (PyStr.rsplit_last "-" d) as [[h t]|] eqn:Hs; cbn [fst]; [|discriminate].
  intros ->. destruct (rsplit_last_sound "-" d _ _ Hs) as [-> Ht].
  exists t, (PyStr.replace_from "oneDNN" "mkldnn" 0 t).
  split; [reflexivity|]. split; [|split].
  - unfold PyStr.replace. cbn [String.append PyStr.replace_from String.length Nat.sub].
    rewrite !prefix_cons. cbn [Ascii.eqb Bool.eqb andb].
    reflexivity.
  - now apply replace_from_keeps_free.
  - intros Hd. apply replace_from_keeps_free; [reflexivity|].
    cbn [String.append] in Hd. rewrite !contains_char_cons in Hd.
    cbn [Ascii.eqb Bool.eqb orb] in Hd. exact Hd.
Qed.

Lemma submodule_of_mkldnn (r : string) :
  PyStr.contains "-" r = false -> submodule_of ("mkldnn-" ++ r) = "mkldnn".
Proof.
  intros Hr. unfold submodule_of, PyStr.rpartition.
  change ("mkldnn-" ++ r) with ("mkldnn" ++ String "-" r).
  now rewrite (rsplit_last_app "-" "mkldnn" r (rsplit_last_none "-" r Hr)).
Qed.

Lemma submodule_of_not_onednn (d : string) : submodule_of d <> "oneDNN".
Proof.
  unfold submodule_of. destruct (PyStr.rpartition d "-") as [[s x] y].
  destruct (s =? "oneDNN") eqn:E; [discriminate|]. now apply String.eqb_neq.
Qed.

Lemma main_not_mkldnn (r : string) :
  PyStr.contains "-" r = false -> is_main ("mkldnn-" ++ r) = false.
Proof.
  intros Hr. unfold is_main. apply andb_false_iff. right.
  cbn [String.append PyStr.contains]. rewrite !prefix_cons.
  cbn [Ascii.eqb Bool.eqb andb orb]. now apply no_hyphen_not_main.
Qed.

End RenamingFacts.

(** ** The assembled tree *)

Module TreeResult.
Import TreeFS TreePaths TreeFacts TreeOps TreeAssembly.

Lemma renamed_unfold (d : string) :
  renamed d =
  if fst (fst (PyStr.rpartition d "-")) =? "oneDNN"
  then PyStr.replace d "oneDNN" "mkldnn" else d.
Proof. unfold renamed. now destruct (PyStr.rpartition d "-") as [[s x] y]. Qed.

Lemma submodule_of_unfold (d : string) :
  submodule_of d =
  if fst (fst (PyStr.rpartition d "-")) =? "oneDNN"
  then "mkldnn" else fst (fst (PyStr.rpartition d "-")).
Proof. unfold submodule_of. now destruct (PyStr.rpartition d "-") as [[s x] y]. Qed.

Lemma map_injective_on {A B} (f : A -> B) (l : list A) (a b : A) :
  NoDup (map f l) -> In a l -> In b l -> f a = f b -> a = b.
Proof.
  induction l as [|x l IH]; intros Hnd Ha Hb E; [contradiction|].
  cbn [map] in Hnd. apply NoDup_cons_iff in Hnd as [Hx Hnd].
  destruct Ha as [->|Ha], Hb as [->|Hb]; auto.
  - exfalso. apply Hx. rewrite E. now apply in_map.
  - exfalso. apply Hx. rewrite <- E. now apply in_map.
Qed.

Lemma in_dependencies m es d :
  In d (dependencies m es) <-> In d (map fst es) /\ d <> m.
Proof.
  unfold dependencies. rewrite filter_In, negb_true_iff, String.eqb_neq. tauto.
Qed.

Lemma valid_mkldnn (r : string) :
  PyStr.contains "/" r = false -> valid_name ("mkldnn-" ++ r) = true.
Proof.
  intros H. unfold valid_name. cbn [String.append String.eqb Ascii.eqb Bool.eqb negb andb].
  rewrite !contains_char_cons. cbn [Ascii.eqb Bool.eqb orb]. now rewrite H.
Qed.

(** Every dependency of a well-formed build directory can be moved. *)
Lemma dependencies_movable m es tes :
  NoDup (map fst es) ->
  forallb valid_name (map fst es) = true ->
  filter is_main (map fst es) = [m] ->
  forallb (fun d => valid_name (submodule_of d)) (dependencies m es) = true ->
  NoDup (map submodule_of (dependencies m es)) ->
  forallb (destination_free tes) (dependencies m es) = true ->
  forall d, In d (dependencies m es) -> movable m es tes d.
Proof.
  intros Hnd Hvalid Hmain Hsub Hnds Hdest d Hd.
  rewrite forallb_forall in Hvalid, Hsub, Hdest.
  pose proof Hd as Hd'. apply in_dependencies in Hd' as [Hin Hdm].
  assert (Hmm : is_main m = true).
  { assert (I : In m (filter is_main (map fst es))) by (rewrite Hmain; now left).
    now apply filter_In in I. }
  assert (Hvd : valid_name d = true) by auto.
  unfold movable. split; [exact Hvd|]. split.
  { destruct (assoc d es) as [n|] eqn:E; [now exists n|].
    now apply assoc_none_names in E. }
  split; [now apply Hsub|]. split; [now apply Hdest|].
  rewrite renamed_unfold.
  destruct (fst (fst (PyStr.rpartition d "-")) =? "oneDNN") eqn:E; [|auto].
  apply String.eqb_eq in E.
  destruct (renamed_onednn d E) as (tail & r & Hshape & -> & Hr & Hslash).
  destruct (valid_name_inv d Hvd) as (_ & _ & Hnoslash).
  specialize (Hslash Hnoslash).
  assert (Hrm : "mkldnn-" ++ r <> m).
  { intros X. rewrite <- X, (main_not_mkldnn r Hr) in Hmm. discriminate. }
  split; [now apply valid_mkldnn|]. split; [exact Hrm|].
  destruct (assoc ("mkldnn-" ++ r) es) as [n|] eqn:Ha; [left | now right].
  apply assoc_some_names in Ha.
  apply (map_injective_on submodule_of (dependencies m es)); auto.
  - now apply in_dependencies.
  - rewrite (submodule_of_mkldnn r Hr), submodule_of_unfold, E. reflexivity.
Qed.

Lemma basename_join (b m : string) :
  plain_path b = true -> valid_name m = true ->
  OsPath.basename (OsPath.join b m) = m.
Proof.
  intros Hb Hm. destruct (valid_name_inv m Hm) as (_ & _ & Hs).
  rewrite (join_plain b m Hb (valid_name_no_slash_start m Hm)).
  unfold OsPath.basename, OsPath.sep.
  now rewrite (rsplit_last_app "/" b m (rsplit_last_none "/" m Hs)).
Qed.

Lemma filter_only (m : string) (l : list string) :
  NoDup l -> In m l ->
  filter (fun x => negb (mem x (filter (fun d => negb (d =? m)) l))) l = [m].
Proof.
  intros Hnd Hin.
  assert (E : forall x, In x l ->
            negb (mem x (filter (fun d => negb (d =? m)) l)) = (x =? m)).
  { intros x Hx. destruct (x =? m) eqn:Exm.
    - apply negb_true_iff, mem_false_iff. rewrite filter_In, Exm. cbn. intros [_ X].
      discriminate.
    - apply negb_false_iff, mem_true_iff. rewrite filter_In, Exm. now split. }
  rewrite (filter_ext_in _ _ l E). clear E.
  induction l as [|x l IH]; [contradiction|].
  apply NoDup_cons_iff in Hnd as [Hx Hnd]. cbn [filter].
  destruct Hin as [->|Hin].
  - rewrite String.eqb_refl. f_equal.
    clear IH Hnd. induction l as [|y l IHl]; [reflexivity|].
    cbn [filter]. destruct (y =? m) eqn:Ey.
    + apply String.eqb_eq in Ey. subst y. exfalso. apply Hx. now left.
    + apply IHl. intros I. apply Hx. now right.
  - destruct (x =? m) eqn:Ex.
    + apply String.eqb_eq in Ex. subst x. contradiction.
    + now apply IH.
Qed.

(** The whole of [extract_step] on a tree.  The build directory [bdir] has
    the entries [es], names valid and distinct, one of them, [m], the main
    source directory with a [3rdparty] directory of entries [tes]; the
    names given to the others under [3rdparty] are valid and distinct, and
    none of them is that of a regular file there. *)
Lemma extract_step_tree (w : world node) (m : string) (es tes : list (string * node)) :
  let bdir := builddir (self w) in
  let deps := dependencies m es in
  plain_path bdir = true ->
  get (components bdir) (fs w) = Some (Dir es) ->
  NoDup (map fst es) ->
  forallb valid_name (map fst es) = true ->
  filter is_main (map fst es) = [m] ->
  main_3rdparty m es = Some tes ->
  forallb (fun d => valid_name (submodule_of d)) deps = true ->
  NoDup (map submodule_of deps) ->
  forallb (destination_free tes) deps = true ->
  exists w' kept,
    extract_step w = (Returned tt, w') /\
    mxnet_src_dir (self w') = Some (OsPath.join bdir m) /\
    listdir bdir (fs w') = inr [m] /\
    listdir (dir_3rdparty bdir m) (fs w') = inr kept /\
    Permutation kept
      (filter (fun k => negb (mem k (map submodule_of deps))) (map fst tes)
       ++ map submodule_of deps) /\
    (forall d n, In d deps -> assoc d es = Some n ->
       lookup (OsPath.join (dir_3rdparty bdir m) (submodule_of d)) (fs w') = Some n) /\
    (forall k, valid_name k = true -> ~ In k (map submodule_of deps) ->
       lookup (OsPath.join (dir_3rdparty bdir m) k) (fs w') = assoc k tes).
Proof.
  intros bdir deps Hp Hes Hnd Hvalid Hmain H3 Hsub Hnds Hdest.
  assert (Hmin : In m (map fst es)).
  { assert (I : In m (filter is_main (map fst es))) by (rewrite Hmain; now left).
    now apply filter_In in I. }
  assert (Hm : valid_name m = true).
  { rewrite forallb_forall in Hvalid. now apply Hvalid. }
  assert (Hl : fs_listdir bdir (fs w) = inr (map fst es)).
  { cbn [fs_listdir tree_fs]. unfold listdir. rewrite Hes.
    destruct (plain_path_inv bdir Hp) as [Hne _]. now destruct bdir. }
  assert (Hother : other_entries bdir m (map fst es) = deps).
  { unfold other_entries, deps, dependencies. now rewrite (basename_join bdir m Hp Hm). }
  rewrite (extract_step_found w (map fst es) m Hp Hl Hmain). fold bdir. rewrite Hother.
  assert (Hnd_deps : NoDup deps) by now apply NoDup_filter.
  assert (Hm_deps : ~ In m deps) by (intros I; apply in_dependencies in I; tauto).
  destruct (for_each_move_tree bdir m Hm deps (discovered w (OsPath.join bdir m)) es tes
              eq_refl eq_refl Hes H3 Hnd_deps Hm_deps
              (dependencies_movable m es tes Hnd Hvalid Hmain Hsub Hnds Hdest) Hnds)
    as (t' & es' & tes' & Hrun & Hg' & Hnames' & H3' & Hmoved & Hkept & Hperm).
  exists (with_fs (discovered w (OsPath.join bdir m)) t'), (map fst tes').
  split; [exact Hrun|]. split; [reflexivity|]. cbn [with_fs fs].
  destruct (main_3rdparty_inv m es' tes' H3') as (mes' & Hmm' & Hm3').
  split.
  { unfold listdir. rewrite Hg', Hnames'.
    destruct (plain_path_inv bdir Hp) as [Hne _].
    destruct bdir; [congruence|]. f_equal. now apply filter_only. }
  split.
  { unfold listdir, dir_3rdparty.
    pose proof (join_not_empty (OsPath.join bdir m) "3rdparty" eq_refl) as Hne.
    rewrite (components_join _ "3rdparty" eq_refl), (components_join _ m Hm).
    rewrite <- app_assoc, get_app, Hg'. cbn [app get]. rewrite Hmm', Hm3'.
    now destruct (OsPath.join (OsPath.join bdir m) "3rdparty"). }
  split; [exact Hperm|]. split.
  - intros d n Hd Hn. unfold dir_3rdparty.
    rewrite forallb_forall in Hsub.
    rewrite (lookup_submodule t' bdir es' Hg' m _ tes' Hm (Hsub d Hd) H3').
    now apply Hmoved.
  - intros k Hk Hnot. unfold dir_3rdparty.
    rewrite (lookup_submodule t' bdir es' Hg' m k tes' Hm Hk H3').
    now apply Hkept.
Qed.

End TreeResult.

(** ** The claims on the assembled tree *)

Section AssemblyClaims.
Import TreeFS TreePaths TreeFacts TreeOps TreeAssembly TreeResult.

Lemma distinct_NoDup (l : list string) : distinct l = true -> NoDup l.
Proof.
  induction l as [|x l IH]; intros H; [constructor|].
  cbn [distinct] in H. apply andb_true_iff in H as [Hx Hl].
  constructor; [now apply mem_false_iff, negb_true_iff | now apply IH].
Qed.

(** C2 (amended). Take a build directory whose entries have valid, distinct
    names, exactly one of which is matched by [*mxnet-*], a directory with
    a [3rdparty] directory that holds nothing but placeholder directories
    for the dependencies; let the names the other entries get (the text
    before the last hyphen, [oneDNN] turned into [mkldnn]) be valid and
    pairwise distinct.  Then [extract_step] returns; [3rdparty] lists
    exactly these names, one for each of the N other entries, each naming
    what the entry was; and the build directory lists the main source
    directory alone. *)
Theorem extract_step_assembles
    (w : world node) (m : string) (es tes : list (string * node)) :
  let bdir := builddir (self w) in
  let deps := dependencies m es in
  plain_path bdir = true ->
  get (components bdir) (fs w) = Some (Dir es) ->
  distinct (map fst es) = true ->
  forallb valid_name (map fst es) = true ->
  filter is_main (map fst es) = [m] ->
  main_3rdparty m es = Some tes ->
  forallb (fun d => valid_name (submodule_of d)) deps = true ->
  distinct (map submodule_of deps) = true ->
  forallb (destination_free tes) deps = true ->
  forallb (fun k => mem k (map submodule_of deps)) (map fst tes) = true ->
  exists w' kept,
    extract_step w = (Returned tt, w') /\
    listdir bdir (fs w') = inr [m] /\
    listdir (dir_3rdparty bdir m) (fs w') = inr kept /\
    Permutation kept (map submodule_of deps) /\
    length kept = length deps /\
    (forall d n, In d deps -> assoc d es = Some n ->
       lookup (OsPath.join (dir_3rdparty bdir m) (submodule_of d)) (fs w') = Some n) /\
    (forall d, In d deps -> lookup (OsPath.join bdir d) (fs w') = None).
Proof.
  intros bdir deps Hp Hes Hnd Hvalid Hmain H3 Hsub Hnds Hdest Hholders.
  destruct (extract_step_tree w m es tes Hp Hes (distinct_NoDup _ Hnd) Hvalid Hmain H3
              Hsub (distinct_NoDup _ Hnds) Hdest)
    as (w' & kept & Hrun & _ & Hroot & H3rd & Hperm & Hmoved & _).
  fold bdir deps in Hroot, H3rd, Hperm, Hmoved.
  assert (Hnone : filter (fun k => negb (mem k (map submodule_of deps))) (map fst tes) = []).
  { rewrite forallb_forall in Hholders. clear - Hholders.
    induction (map fst tes) as [|k l IH]; [reflexivity|].
    cbn [filter]. rewrite (Hholders k (or_introl eq_refl)). cbn [negb].
    apply IH. intros x Hx. apply Hholders. now right. }
  rewrite Hnone in Hperm. cbn [app] in Hperm.
  exists w', kept. repeat split; auto.
  - now rewrite (Permutation_length Hperm), length_map.
  - intros d Hd. apply in_dependencies in Hd as [Hin Hdm].
    rewrite forallb_forall in Hvalid.
    unfold listdir in Hroot.
    destruct (plain_path_inv bdir Hp) as [Hne _].
    destruct bdir as [|c b] eqn:Eb; [congruence|]. rewrite <- Eb in *.
    destruct (get (components bdir) (fs w')) as [[x|es']|] eqn:Hg'; try discriminate.
    inversion Hroot as [Hnames].
    rewrite (lookup_entry (fs w') bdir es' Hg' d (Hvalid d Hin)).
    apply assoc_none_names. rewrite Hnames. intros [X|[]]. congruence.
Qed.

(** The round of the loop for an entry named [oneDNN-1.2], over any file
    system: the directory is renamed to [mkldnn-1.2], and [3rdparty/mkldnn]
    is what is cleared and what the directory is moved to. *)
Lemma move_submodule_onednn {W : Type} {FS : FileSystem W} (w : world W) (main : string) :
  mxnet_src_dir (self w) = Some main ->
  let bdir := builddir (self w) in
  let olddir := OsPath.join bdir "mkldnn-1.2" in
  let newdir := OsPath.join (OsPath.join main "3rdparty") "mkldnn" in
  move_submodule "oneDNN-1.2" w =
  (os_rename (OsPath.join bdir "oneDNN-1.2") olddir ;;
   remove_dir newdir ;;
   try_except (shutil_move olddir newdir) (move_error olddir newdir)) w.
Proof.
  intros Hmain bdir olddir newdir. unfold move_submodule, rename_onednn.
  change (PyStr.rpartition "oneDNN-1.2" "-") with ("oneDNN", "-", "1.2").
  change (PyStr.replace "oneDNN-1.2" "oneDNN" "mkldnn") with "mkldnn-1.2".
  cbn [String.eqb Ascii.eqb Bool.eqb].
  unfold bind, gets, ret, os_rename. fold bdir.
  destruct (fs_rename _ _ (fs w)) as [e|f]; [reflexivity|].
  cbn [self mxnet_src_dir builddir]. rewrite Hmain. reflexivity.
Qed.

(** C6 (amended). In every state the round for an entry named [oneDNN-1.2]
    renames it to [mkldnn-1.2] and takes [3rdparty/mkldnn] as its
    destination: the rule looks at the name only.  Where the entry ends up
    depends on the other entries: on a build directory that can be
    assembled (valid and distinct entry names, one main source directory
    with a [3rdparty] directory, valid and distinct names for the other
    entries, no regular file in their way), after [extract_step] what was
    [oneDNN-1.2] stands at [3rdparty/mkldnn], and at [3rdparty/oneDNN]
    stands what stood there before, nothing if there was nothing. *)
Theorem onednn_moves_to_mkldnn
    (w : world node) (m : string) (es tes : list (string * node)) (n : node) :
  let bdir := builddir (self w) in
  let deps := dependencies m es in
  plain_path bdir = true ->
  get (components bdir) (fs w) = Some (Dir es) ->
  distinct (map fst es) = true ->
  forallb valid_name (map fst es) = true ->
  filter is_main (map fst es) = [m] ->
  main_3rdparty m es = Some tes ->
  forallb (fun d => valid_name (submodule_of d)) deps = true ->
  distinct (map submodule_of deps) = true ->
  forallb (destination_free tes) deps = true ->
  assoc "oneDNN-1.2" es = Some n ->
  submodule_of "oneDNN-1.2" = "mkldnn" /\
  (forall (w0 : world node) (main : string),
     mxnet_src_dir (self w0) = Some main ->
     let olddir := OsPath.join (builddir (self w0)) "mkldnn-1.2" in
     let newdir := OsPath.join (OsPath.join main "3rdparty") "mkldnn" in
     move_submodule "oneDNN-1.2" w0 =
     (os_rename (OsPath.join (builddir (self w0)) "oneDNN-1.2") olddir ;;
      remove_dir newdir ;;
      try_except (shutil_move olddir newdir) (move_error olddir newdir)) w0) /\
  exists w',
    extract_step w = (Returned tt, w') /\
    lookup (OsPath.join (dir_3rdparty bdir m) "mkldnn") (fs w') = Some n /\
    lookup (OsPath.join (dir_3rdparty bdir m) "oneDNN") (fs w') = assoc "oneDNN" tes.
Proof.
  intros bdir deps Hp Hes Hnd Hvalid Hmain H3 Hsub Hnds Hdest Hn.
  split; [reflexivity|]. split; [intros w0 main H0; now apply move_submodule_onednn|].
  destruct (extract_step_tree w m es tes Hp Hes (distinct_NoDup _ Hnd) Hvalid Hmain H3
              Hsub (distinct_NoDup _ Hnds) Hdest)
    as (w' & kept & Hrun & _ & _ & _ & _ & Hmoved & Hkept).
  fold bdir deps in Hmoved, Hkept.
  exists w'. split; [exact Hrun|]. split.
  - apply (Hmoved "oneDNN-1.2" n); [|exact Hn].
    apply in_dependencies. split; [now apply (assoc_some_names _ n)|].
    intros X.
    assert (I : In m (filter is_main (map fst es))) by (rewrite Hmain; now left).
    apply filter_In in I as [_ I]. rewrite <- X in I. discriminate.
  - apply Hkept; [reflexivity|].
    intros I. apply in_map_iff in I as (d & Hd & _).
    now apply (submodule_of_not_onednn d).
Qed.

End AssemblyClaims.

(** ** The claims at work *)

Section Instances.
Import TreeFS Examples Cases Processes.

(** A toolchain whose [BLAS] entry is [[None]]: no backend, no build. *)
Lemma configure_step_missing_backend_witness :
  let w := scenario (TcList [None]) in
  toolchain_blas w = (Returned None, w) /\
  (configure_step env w =
     (Raised (EasyBuildError "No BLAS library found in the toolchain" []),
      with_opts w (base_opts env))
   /\ calls (snd (configure_step env w)) = calls w
   /\ (forall opts, ~ In (SuperConfigureStep opts) (calls w) ->
        ~ In (SuperConfigureStep opts) (calls (snd (configure_step env w))))).
Proof.
  split; [reflexivity|].
  apply (configure_step_missing_backend env (scenario (TcList [None]))). reflexivity.
Defined.


(** A toolchain with BLIS, which the dispatch does not know. *)
Lemma configure_step_unknown_blas_witness :
  let w := scenario (TcList [Some "BLIS"]) in
  (toolchain_blas w = (Returned (Some "BLIS"), w) /\
   ~ In "BLIS" ["imkl"; "ACML"; "ATLAS"; "OpenBLAS"; "FlexiBLAS"]) /\
  (configure_step env w = (Raised (UnboundLocalError "blas"), with_opts w (base_opts env))
   /\ fst (configure_step env w)
        <> Raised (EasyBuildError "No BLAS library found in the toolchain" [])
   /\ calls (snd (configure_step env w)) = calls w).
Proof.
  assert (N : ~ In "BLIS" ["imkl"; "ACML"; "ATLAS"; "OpenBLAS"; "FlexiBLAS"]).
  { cbn. intros [X|[X|[X|[X|[X|[]]]]]]; discriminate. }
  split; [split; [reflexivity | exact N]|].
  apply (configure_step_unknown_blas env (scenario (TcList [Some "BLIS"])) "BLIS");
    [reflexivity | exact N].
Defined.

(** The scenario with the switch for the R extension at its default, as a
    process: the [python] directory is there, the installer calls return. *)
Lemma r_extension_switched_off_witness :
  let w := on_process scenario_extracted in
  (install_r_ext (cfg (self w)) = false /\
   mxnet_src_dir (self w) = Some "/b/proj-mxnet-1.9" /\
   fst (fst (framework_run process_framework (py_install_calls "/b/proj-mxnet-1.9") (fs w)))
     = py_install_calls "/b/proj-mxnet-1.9") /\
  fst (extensions_step process_framework w) = Returned tt /\
  calls (snd (extensions_step process_framework w)) =
    [SuperExtractStep; LogDebug "MXNet dir is: %s" ["/b/proj-mxnet-1.9"];
     ChangeDir "/b/proj-mxnet-1.9/python"; PyPrerun; PyRun false; PyPostrun;
     LogDebug "Skipping R extension installation" []] /\
  ~ In (WriteFile "NAMESPACE" R_NAMESPACE)
      (calls (snd (extensions_step process_framework w))) /\
  In RSanityCheckStep (calls (snd (sanity_check_step env collaborators w))).
Proof.
  intros w.
  split; [repeat split|].
  assert (Hrun : framework_run process_framework (py_install_calls "/b/proj-mxnet-1.9") (fs w)
                 = (py_install_calls "/b/proj-mxnet-1.9", None,
                    {| cwd := "/b/proj-mxnet-1.9/python"; root := scenario_tree;
                       links := [] |})) by reflexivity.
  destruct (r_extension_switched_off env collaborators process_framework w
              "/b/proj-mxnet-1.9" _ _ _ eq_refl eq_refl Hrun)
    as (_ & Hret & _ & (tr & Hc & Hpy & Hw & _) & (ts & Hs & Hr)).
  destruct (Hpy eq_refl) as (Htr & _).
  split; [exact Hret|]. split; [|split].
  - rewrite Hc, Htr. reflexivity.
  - rewrite Hc. intros I. apply in_app_or in I as [I|I].
    + cbn in I. destruct I as [X|[X|[]]]; discriminate.
    + exact (Hw _ _ I).
  - rewrite Hs. apply in_or_app. right. apply Hr.
    split; [reflexivity|]. split; [now exists "fake" | reflexivity].
Defined.

(** The module text of the scenario: of the two library directories, the
    one that holds a package is added. *)
Lemma make_module_extra_paths_witness :
  let w := scenario (TcList [Some "imkl"]) in
  nonempty_dir w "lib/python3.9/site-packages" = true /\
  nonempty_dir w "lib64/python3.9/site-packages" = false /\
  make_module_extra "conflict MXNet" w =
    (Returned [SuperText "conflict MXNet";
               PrependPaths "PYTHONPATH" ["lib/python3.9/site-packages"];
               PrependPaths "R_LIBS" [EmptyString]],
     with_calls w [SuperMakeModuleExtra]).
Proof.
  split; [reflexivity|]. split; [reflexivity|].
  destruct (make_module_extra_paths (scenario (TcList [Some "imkl"])) "conflict MXNet")
    as (txt & Hrun & Htxt & _).
  - intros p [<-|[<-|[]]] _; eexists; reflexivity.
  - rewrite Hrun, Htxt. reflexivity.
Defined.

(** The search in the scenario: one entry matched, and recorded. *)
Lemma extract_step_discovery_witness :
  let w := scenario (TcList [Some "imkl"]) in
  plain_path "/b" = true /\
  listed "/b" (fs w) = ["proj-mxnet-1.9"; "oneDNN-2.6"; "ps-lite-a1b2"] /\
  filter is_main (listed "/b" (fs w)) = ["proj-mxnet-1.9"] /\
  mxnet_src_dir (self (snd (extract_step w))) = Some "/b/proj-mxnet-1.9".
Proof.
  split; [reflexivity|]. split; [reflexivity|]. split; [reflexivity|].
  destruct (extract_step_discovery (scenario (TcList [Some "imkl"])) eq_refl) as [Hone _].
  destruct (Hone "proj-mxnet-1.9" eq_refl) as (_ & Hrec & _). exact Hrec.
Defined.

(** A build directory whose one entry with [mxnet-] in its name is hidden:
    one entry contains the marker, and yet the step raises the error of the
    search, against the wording of the specification. *)
Lemma hidden_main_directory_is_not_found :
  fs_listdir "/b" (fs hidden_world) = inr [".mxnet-1.9"] /\
  filter (PyStr.contains "mxnet-") [".mxnet-1.9"] = [".mxnet-1.9"] /\
  extract_step hidden_world =
    (Raised (discovery_error []), with_calls hidden_world [SuperExtractStep]).
Proof. repeat split. Qed.

(** A build directory where the move cannot be made. *)
Lemma extract_step_move_failure_witness :
  let w := blocked_world in
  let wk := discovered w "/b/mxnet-1.9" in
  (plain_path "/b" = true /\
   fs_listdir "/b" (fs w) = inr ["mxnet-1.9"; "foo-1"; "bar-2"] /\
   filter is_main ["mxnet-1.9"; "foo-1"; "bar-2"] = ["mxnet-1.9"] /\
   other_entries "/b" "mxnet-1.9" ["mxnet-1.9"; "foo-1"; "bar-2"]
     = ([] ++ "foo-1" :: ["bar-2"])%list /\
   for_each [] move_submodule wk = (Returned tt, wk) /\
   rename_onednn "foo-1" wk = (Returned ("foo", "foo-1"), wk) /\
   remove_dir "/b/mxnet-1.9/3rdparty/foo" wk = (Returned tt, wk) /\
   fs_move "/b/foo-1" "/b/mxnet-1.9/3rdparty/foo" (fs wk) = (Some ENOTDIR, fs wk)) /\
  extract_step w =
    (Raised (move_failed "/b/foo-1" "/b/mxnet-1.9/3rdparty/foo" ENOTDIR), wk).
Proof.
  intros w wk.
  assert (H1 : plain_path "/b" = true) by reflexivity.
  assert (H2 : fs_listdir "/b" (fs w) = inr ["mxnet-1.9"; "foo-1"; "bar-2"]) by reflexivity.
  assert (H3 : filter is_main ["mxnet-1.9"; "foo-1"; "bar-2"] = ["mxnet-1.9"]) by reflexivity.
  assert (H4 : other_entries "/b" "mxnet-1.9" ["mxnet-1.9"; "foo-1"; "bar-2"]
               = ([] ++ "foo-1" :: ["bar-2"])%list) by reflexivity.
  assert (H5 : for_each [] move_submodule wk = (Returned tt, wk)) by reflexivity.
  assert (H6 : rename_onednn "foo-1" wk = (Returned ("foo", "foo-1"), wk)) by reflexivity.
  assert (H7 : remove_dir "/b/mxnet-1.9/3rdparty/foo" wk = (Returned tt, wk)) by reflexivity.
  assert (H8 : fs_move "/b/foo-1" "/b/mxnet-1.9/3rdparty/foo" (fs wk) = (Some ENOTDIR, fs wk))
    by reflexivity.
  split; [repeat split; assumption|].
  exact (extract_step_move_failure w wk wk wk
           ["mxnet-1.9"; "foo-1"; "bar-2"] [] ["bar-2"] "mxnet-1.9" "foo-1" "foo" "foo-1"
           ENOTDIR (fs wk) H1 H2 H3 H4 H5 H6 H7 H8).
Defined.


(** What that round does to the tree: the [3rdparty] directory of the main
    source directory is removed with all it holds, and [README] takes its
    place. *)
Lemma without_hyphen_replaces_3rdparty :
  fs (snd (move_submodule "README" plain_world)) =
  Dir [("b", Dir [("mxnet-1.9", Dir [("3rdparty", Dir [("r", File "r")])])])].
Proof. reflexivity. Qed.

(** The assembly of the scenario of the specification. *)
Lemma extract_step_assembles_witness :
  let w := scenario (TcList [Some "imkl"]) in
  let tes := [("mkldnn", Dir []); ("ps-lite", Dir [])] in
  (plain_path "/b" = true /\
   get (components "/b") (fs w) = Some (Dir scenario_build) /\
   distinct (map fst scenario_build) = true /\
   forallb valid_name (map fst scenario_build) = true /\
   filter is_main (map fst scenario_build) = ["proj-mxnet-1.9"] /\
   main_3rdparty "proj-mxnet-1.9" scenario_build = Some tes /\
   dependencies "proj-mxnet-1.9" scenario_build = ["oneDNN-2.6"; "ps-lite-a1b2"] /\
   map submodule_of ["oneDNN-2.6"; "ps-lite-a1b2"] = ["mkldnn"; "ps-lite"]) /\
  exists w' kept,
    extract_step w = (Returned tt, w') /\
    listdir "/b" (fs w') = inr ["proj-mxnet-1.9"] /\
    listdir "/b/proj-mxnet-1.9/3rdparty" (fs w') = inr kept /\
    Permutation kept ["mkldnn"; "ps-lite"] /\
    length kept = 2.
Proof.
  split; [repeat split|].
  destruct (extract_step_assembles (scenario (TcList [Some "imkl"])) "proj-mxnet-1.9"
              scenario_build [("mkldnn", Dir []); ("ps-lite", Dir [])]
              eq_refl eq_refl eq_refl eq_refl eq_refl eq_refl eq_refl eq_refl eq_refl eq_refl)
    as (w' & kept & Hrun & Hroot & H3rd & Hperm & Hlen & _).
  exists w', kept. repeat split; assumption.
Defined.

(** Two dependencies that differ in their versions only: of the two, one
    directory is left under [3rdparty], holding what the second held,
    against the count the specification gives. *)
Lemma same_name_dependencies_collide :
  filter is_main (map fst twice_build) = ["mxnet-1.9"] /\
  dependencies "mxnet-1.9" twice_build = ["foo-1"; "foo-2"] /\
  map submodule_of ["foo-1"; "foo-2"] = ["foo"; "foo"] /\
  fst (extract_step twice_world) = Returned tt /\
  listdir "/b" (fs (snd (extract_step twice_world))) = inr ["mxnet-1.9"] /\
  listdir "/b/mxnet-1.9/3rdparty" (fs (snd (extract_step twice_world))) = inr ["foo"] /\
  lookup "/b/mxnet-1.9/3rdparty/foo" (fs (snd (extract_step twice_world)))
    = Some (Dir [("b", File "two")]).
Proof. repeat split. Qed.

(** [oneDNN-1.2] next to other entries.  Next to [oneDNN-1.3], which gets
    the same destination, [extract_step] returns and [3rdparty/mkldnn]
    holds what [oneDNN-1.3] held; next to a directory [README], which takes
    the place of [3rdparty], nothing is at [3rdparty/mkldnn].  In both what
    [oneDNN-1.2] held is nowhere, against the wording of the
    specification. *)
Lemma onednn_lost_next_to_other_entries :
  (assoc "oneDNN-1.2" successive_build = Some (Dir [("a", File "one")]) /\
   fst (extract_step successive_world) = Returned tt /\
   lookup "/b/mxnet-1.9/3rdparty/mkldnn" (fs (snd (extract_step successive_world)))
     = Some (Dir [("b", File "two")]) /\
   listdir "/b" (fs (snd (extract_step successive_world))) = inr ["mxnet-1.9"] /\
   listdir "/b/mxnet-1.9/3rdparty" (fs (snd (extract_step successive_world)))
     = inr ["mkldnn"]) /\
  (assoc "oneDNN-1.2" readme_build = Some (Dir [("a", File "one")]) /\
   fst (extract_step readme_world) = Returned tt /\
   lookup "/b/mxnet-1.9/3rdparty/mkldnn" (fs (snd (extract_step readme_world))) = None /\
   listdir "/b" (fs (snd (extract_step readme_world))) = inr ["mxnet-1.9"] /\
   listdir "/b/mxnet-1.9/3rdparty" (fs (snd (extract_step readme_world))) = inr ["r"]).
Proof. repeat split. Qed.

(** A build directory with [oneDNN-1.2]. *)
Lemma onednn_moves_to_mkldnn_witness :
  let w := onednn_world in
  (plain_path "/b" = true /\
   get (components "/b") (fs w) = Some (Dir onednn_build) /\
   distinct (map fst onednn_build) = true /\
   forallb valid_name (map fst onednn_build) = true /\
   filter is_main (map fst onednn_build) = ["apache-mxnet-1.9"] /\
   main_3rdparty "apache-mxnet-1.9" onednn_build = Some [("mkldnn", Dir [])] /\
   assoc "oneDNN-1.2" onednn_build = Some (Dir [("CMakeLists.txt", File "dnn")])) /\
  exists w',
    extract_step w = (Returned tt, w') /\
    lookup "/b/apache-mxnet-1.9/3rdparty/mkldnn" (fs w')
      = Some (Dir [("CMakeLists.txt", File "dnn")]) /\
    lookup "/b/apache-mxnet-1.9/3rdparty/oneDNN" (fs w') = None.
Proof.
  split; [repeat split|].
  destruct (onednn_moves_to_mkldnn onednn_world "apache-mxnet-1.9" onednn_build
              [("mkldnn", Dir [])] (Dir [("CMakeLists.txt", File "dnn")])
              eq_refl eq_refl eq_refl eq_refl eq_refl eq_refl eq_refl eq_refl eq_refl eq_refl)
    as (_ & _ & w' & Hrun & Hat & Hnot).
  exists w'. repeat split; assumption.
Defined.

End Instances.

(* ================================================================== *)
(** * Further properties *)
(* ================================================================== *)

(** ** More on [configure_step] *)

Section ConfigureCoverage.

Context {W : Type} {FS : FileSystem W}.
Variable E : Env.

Ltac run_configure :=
  unfold bind, when, read_local, ret, raise, gets, do_call, modify, cfg_update_buildopts,
    set_self, with_calls, with_opts, nnpack_opts;
  cbn -[assignment base_opts];
  rewrite <- ?app_assoc.




(** With [imkl] as BLAS library and no [imkl] module loaded (no version to
    be had), comparing the versions is an [AttributeError]: the step ends
    with it, having added the four compiler options and no other, and the
    parent's configure step is not called. *)
Theorem configure_step_imkl_not_loaded (w : world W) :
  toolchain_blas w = (Returned (Some "imkl"), w) ->
  get_software_version E "imkl" = None ->
  configure_step E w =
    (Raised (AttributeError "'LooseVersion' object has no attribute 'version'"),
     with_opts w (base_opts E)).
Proof.
  intros H V. rewrite (configure_step_prefix E w _ H).
  unfold select_blas. cbn [is_str String.eqb Ascii.eqb Bool.eqb]. rewrite V.
  reflexivity.
Qed.

Lemma dict_get_missing (d : list (string * tcval)) (key : string) :
  ~ In key (keys d) -> dict_get d key = TcNone.
Proof.
  induction d as [|[k v] d IH]; intros H; [reflexivity|].
  cbn [dict_get]. destruct (k =? key) eqn:Ek.
  - apply String.eqb_eq in Ek. exfalso. apply H. now left.
  - apply IH. intros I. apply H. now right.
Qed.

(** A toolchain definition without a [BLAS] key does not reach the error
    for a missing backend: [.get('BLAS', None)[0]] subscripts [None], a
    [TypeError].  The four compiler options are added by then; the parent's
    configure step is not called. *)
Theorem configure_step_without_blas_key (w : world W) :
  ~ In "BLAS" (keys (toolchain_definition (self w))) ->
  configure_step E w =
    (Raised (TypeError "'NoneType' object is not subscriptable"), with_opts w (base_opts E)) /\
  fst (configure_step E w)
    <> Raised (EasyBuildError "No BLAS library found in the toolchain" []).
Proof.
  intros H. rewrite (configure_step_no_blas_entry E w (dict_get_missing _ _ H)).
  split; [reflexivity | discriminate].
Qed.

(** Every run of [configure_step], by cases on the toolchain and the
    environment. *)
Lemma configure_step_shape (w : world W) :
  exists r added cs,
    configure_step E w = (r, with_calls (with_opts w (base_opts E ++ added)) cs) /\
    match r with
    | Returned _ =>
        cs = [SuperConfigureStep (buildopts (cfg (self w)) ++ base_opts E ++ added)]
    | Raised _ => cs = []
    end.
Proof.
  assert (Hnil : forall (v : world W) opts,
            with_opts v opts = with_calls (with_opts v (opts ++ [])) []).
  { intros v opts. unfold with_calls, with_opts. cbn. now rewrite !app_nil_r. }
  unfold configure_step.
  rewrite (bind_returned _ _ _ _ _ (run_base_opts E w)).
  unfold toolchain_blas, subscript0.
  unfold bind at 1. unfold bind at 1. unfold gets at 1.
  cbn [with_opts self toolchain_definition].
  destruct (dict_get (toolchain_definition (self w)) "BLAS") as [|[|tc rest]].
  - eexists; exists [], []. unfold raise. split; [now rewrite <- Hnil | reflexivity].
  - eexists; exists [], []. unfold raise. split; [now rewrite <- Hnil | reflexivity].
  - unfold ret at 1. fold (with_opts w (base_opts E)).
    unfold select_blas.
    destruct (is_str tc "imkl").
    { destruct (LooseVersion.ge (get_software_version E "imkl") (Some "17")) as [[|]|e].
      - exists (Returned tt), (imkl_opts E true). unfold imkl_opts.
        destruct (PyStr.truthy (get_software_root E "NNPACK")) eqn:Hn; eexists;
          run_configure; rewrite ?Hn; cbn -[assignment base_opts];
          rewrite <- ?app_assoc; split; reflexivity.
      - exists (Returned tt), (imkl_opts E false). unfold imkl_opts.
        destruct (PyStr.truthy (get_software_root E "NNPACK")) eqn:Hn; eexists;
          run_configure; rewrite ?Hn; cbn -[assignment base_opts];
          rewrite <- ?app_assoc; split; reflexivity.
      - exists (Raised e), [], []. run_configure. rewrite !app_nil_r. split; reflexivity. }
    assert (Hplain : forall blas : string,
              exists r added cs,
                (blas_var <- ret (Some blas) ;;
                 blas <- read_local "blas" blas_var ;;
                 cfg_update_buildopts (assignment "USE_BLAS" (Some blas)) ;;
                 when (PyStr.truthy (get_software_root E "NNPACK"))
                   (cfg_update_buildopts "USE_NNPACK=1") ;;
                 opts <- gets (fun w => buildopts (cfg (self w))) ;;
                 do_call (SuperConfigureStep opts)) (with_opts w (base_opts E))
                = (r, with_calls (with_opts w (base_opts E ++ added)) cs) /\
                match r with
                | Returned _ =>
                    cs = [SuperConfigureStep
                            (buildopts (cfg (self w)) ++ base_opts E ++ added)]
                | Raised _ => cs = []
                end).
    { intros blas. exists (Returned tt).
      exists ([assignment "USE_BLAS" (Some blas)] ++ nnpack_opts E)%list.
      destruct (PyStr.truthy (get_software_root E "NNPACK")) eqn:Hn; eexists;
        run_configure; rewrite ?Hn; cbn -[assignment base_opts];
        rewrite <- ?app_assoc; split; reflexivity. }
    destruct (is_str tc "ACML" || is_str tc "ATLAS"); [apply Hplain|].
    destruct (is_str tc "OpenBLAS"); [apply Hplain|].
    destruct (is_str tc "FlexiBLAS"); [apply Hplain|].
    destruct tc as [b|]; eexists; exists [], []; run_configure; rewrite !app_nil_r;
      split; reflexivity.
Qed.

(** Whatever the toolchain and the environment, [configure_step] only adds
    to [cfg['buildopts']]: what the option held stays in front, the four
    compiler options follow, then what the branch taken adds.  Nothing else
    of the easyblock and nothing of the file system changes.  The parent's
    configure step is called when the step returns, once, with the options
    as they stand then, and is not called when the step raises. *)
Theorem configure_step_appends_only (w : world W) :
  exists added cs,
    snd (configure_step E w) = with_calls (with_opts w (base_opts E ++ added)) cs /\
    match fst (configure_step E w) with
    | Returned _ =>
        cs = [SuperConfigureStep (buildopts (cfg (self (snd (configure_step E w)))))]
    | Raised _ => cs = []
    end.
Proof.
  destruct (configure_step_shape w) as (r & added & cs & -> & Hcs).
  exists added, cs. cbn [fst snd]. split; [reflexivity|].
  destruct r; [|exact Hcs]. rewrite Hcs at 1. reflexivity.
Qed.

End ConfigureCoverage.

(** ** More on the bindings *)

Section BindingCoverage.

Context {W : Type} {FS : FileSystem W}.
Variable E : Env.
Variable C : Collaborators.
Variable F : Framework W.

(** Without a main source directory on record ([extract_step] has not run:
    [__init__] leaves [None]), [extensions_step] ends with the [TypeError]
    of [os.path.join] at its first statement: no installer is called and
    nothing changes. *)
Theorem extensions_step_without_sources (w : world W) :
  mxnet_src_dir (self w) = None ->
  extensions_step F w =
    (Raised (TypeError "expected str, bytes or os.PathLike object, not NoneType"), w).
Proof.
  intros H. unfold extensions_step, bind, gets. rewrite H. reflexivity.
Qed.


(** Every run of [sanity_check_step], by cases on the collaborators. *)
Lemma sanity_check_step_shape (w : world W) :
  exists r w' trace,
    sanity_check_step E C w = (r, w') /\
    calls w' = (calls w ++ trace)%list /\
    ((exists data, In (CleanUpFakeModule data) trace) <-> r = Returned tt) /\
    (r = Returned tt <->
       super_sanity_check_step C (sanity_files E) [] = None /\
       (exists data, load_fake_module C = Returned data) /\
       py_sanity_check_step C = true /\ r_sanity_check_step C = true) /\
    (In LoadFakeModule trace <-> super_sanity_check_step C (sanity_files E) [] = None) /\
    (In RSanityCheckStep trace ->
       modulename (r_ext (self w')) = Some (PyStr.lower (name (self w)))).
Proof.
  unfold sanity_check_step. fold (sanity_files E).
  rewrite (bind_returned _ _ _ _ _ (run_do_call _ _)).
  destruct (super_sanity_check_step C (sanity_files E) []) as [e|] eqn:Hs.
  { exists (Raised e), (with_calls w [SuperSanityCheckStep (sanity_files E) []]),
      [SuperSanityCheckStep (sanity_files E) []].
    split; [reflexivity|]. split; [reflexivity|].
    split; [split; [intros (d & [X|[]]); discriminate | discriminate]|].
    split; [split; [discriminate | intros (X & _); discriminate]|].
    split; [split; [intros [X|[]]; discriminate | discriminate]|].
    intros [X|[]]; discriminate. }
  unfold bind at 1. unfold ret at 1.
  unfold bind at 1. unfold try_except.
  rewrite (bind_returned _ _ _ _ _ (run_do_call _ _)), with_calls_app.
  destruct (load_fake_module C) as [data|e] eqn:Hl.
  2:{ exists (Raised (fake_module_failure e)),
        (with_calls w [SuperSanityCheckStep (sanity_files E) []; LoadFakeModule]),
        [SuperSanityCheckStep (sanity_files E) []; LoadFakeModule].
      split; [destruct e; reflexivity|]. split; [reflexivity|].
      split; [split; [intros (d & [X|[X|[]]]); discriminate | discriminate]|].
      split; [split; [discriminate | intros (_ & (d & X) & _); discriminate]|].
      split; [split; [reflexivity | cbn; tauto]|].
      intros [X|[X|[]]]; discriminate. }
  unfold ret at 1.
  rewrite (bind_returned _ _ _ _ _ (run_do_call _ _)), with_calls_app.
  destruct (py_sanity_check_step C) eqn:Hp.
  2:{ eexists; eexists;
        exists [SuperSanityCheckStep (sanity_files E) []; LoadFakeModule; PySanityCheckStep].
      split; [reflexivity|]. split; [reflexivity|].
      split; [split; [intros (d & [X|[X|[X|[]]]]); discriminate | discriminate]|].
      split; [split; [discriminate | intros (_ & _ & X & _); discriminate]|].
      split; [split; [reflexivity | cbn; tauto]|].
      intros [X|[X|[X|[]]]]; discriminate. }
  unfold bind at 1. unfold ret at 1.
  unfold bind at 1. unfold gets at 1.
  unfold bind at 1. unfold set_r_ext_modulename, set_self, modify.
  unfold bind at 1. unfold do_call at 1, modify.
  destruct (r_sanity_check_step C) eqn:Hr.
  - eexists; eexists;
      exists [SuperSanityCheckStep (sanity_files E) []; LoadFakeModule; PySanityCheckStep;
              RSanityCheckStep; CleanUpFakeModule data].
    split; [reflexivity|]. split; [cbn; now rewrite <- !app_assoc|].
    split; [split; [reflexivity | intros _; exists data; cbn; tauto]|].
    split; [split; [intros _; eauto 6 | reflexivity]|].
    split; [split; [reflexivity | cbn; tauto]|].
    reflexivity.
  - eexists; eexists;
      exists [SuperSanityCheckStep (sanity_files E) []; LoadFakeModule; PySanityCheckStep;
              RSanityCheckStep].
    split; [reflexivity|]. split; [cbn; now rewrite <- !app_assoc|].
    split; [split; [intros (d & [X|[X|[X|[X|[]]]]]); discriminate | discriminate]|].
    split; [split; [discriminate | intros (_ & _ & _ & X); discriminate]|].
    split; [split; [reflexivity | cbn; tauto]|].
    reflexivity.
Qed.

(** [sanity_check_step] returns exactly when the parent's check passes, the
    fake module loads and both bindings' checks succeed, and the fake
    module is cleaned up exactly then: when a check fails after the module
    was loaded, the step ends with the module still loaded. *)
Theorem sanity_check_step_cleans_up_on_success_only (w : world W) :
  exists trace,
    calls (snd (sanity_check_step E C w)) = (calls w ++ trace)%list /\
    ((exists data, In (CleanUpFakeModule data) trace)
       <-> fst (sanity_check_step E C w) = Returned tt) /\
    (fst (sanity_check_step E C w) = Returned tt <->
       super_sanity_check_step C (sanity_files E) [] = None /\
       (exists data, load_fake_module C = Returned data) /\
       py_sanity_check_step C = true /\ r_sanity_check_step C = true) /\
    (In LoadFakeModule trace <-> super_sanity_check_step C (sanity_files E) [] = None).
Proof.
  destruct (sanity_check_step_shape w) as (r & w' & trace & -> & Hc & H1 & H2 & H3 & _).
  exists trace. cbn [fst snd]. auto.
Qed.

(** When loading the fake module raises, the bindings are not checked: an
    [EasyBuildError] comes back as "Loading fake module failed" around the
    original one, any other exception as it is. *)
Theorem sanity_check_step_fake_module_fails (w : world W) (e : exn) :
  super_sanity_check_step C (sanity_files E) [] = None ->
  load_fake_module C = Raised e ->
  sanity_check_step E C w =
    (Raised (fake_module_failure e),
     with_calls w [SuperSanityCheckStep (sanity_files E) []; LoadFakeModule]).
Proof.
  intros Hs Hl. unfold sanity_check_step. fold (sanity_files E).
  rewrite (bind_returned _ _ _ _ _ (run_do_call _ _)). rewrite Hs.
  unfold bind at 1. unfold ret at 1.
  unfold bind at 1. unfold try_except.
  rewrite (bind_returned _ _ _ _ _ (run_do_call _ _)), with_calls_app.
  rewrite Hl. now destruct e.
Qed.

(** The check of the R binding is made, and counts, whether or not the R
    extension was installed: when it fails (the checks before it passing)
    the step raises "The sanity check for the R bindings failed", for
    either value of [install_r_ext].  By then [modulename] of the R
    extension is the lower-cased name of the software. *)
Theorem sanity_check_step_r_check_fails (w : world W) (data : string) :
  super_sanity_check_step C (sanity_files E) [] = None ->
  load_fake_module C = Returned data ->
  py_sanity_check_step C = true ->
  r_sanity_check_step C = false ->
  fst (sanity_check_step E C w)
    = Raised (EasyBuildError "The sanity check for the R bindings failed" []) /\
  calls (snd (sanity_check_step E C w)) =
    (calls w ++ [SuperSanityCheckStep (sanity_files E) []; LoadFakeModule;
                 PySanityCheckStep; RSanityCheckStep])%list /\
  modulename (r_ext (self (snd (sanity_check_step E C w))))
    = Some (PyStr.lower (name (self w))).
Proof.
  intros Hs Hl Hp Hr.
  assert (X : exists w',
            sanity_check_step E C w =
              (Raised (EasyBuildError "The sanity check for the R bindings failed" []), w') /\
            calls w' = (calls w ++ [SuperSanityCheckStep (sanity_files E) []; LoadFakeModule;
                                    PySanityCheckStep; RSanityCheckStep])%list /\
            modulename (r_ext (self w')) = Some (PyStr.lower (name (self w)))).
  { unfold sanity_check_step. fold (sanity_files E).
    unfold bind, try_except, do_call, modify, ret, raise, gets, set_r_ext_modulename, set_self.
    rewrite Hs, Hl, Hp, Hr. eexists. split; [reflexivity|].
    cbn. rewrite <- !app_assoc. split; reflexivity. }
  destruct X as (w' & -> & Hc & Hm). cbn [fst snd]. auto.
Qed.

End BindingCoverage.

(** ** More on [make_module_extra] *)

Section ModuleCoverage.

Context {W : Type} {FS : FileSystem W}.

(** A candidate that exists and cannot be listed (a regular file where a
    library directory is expected) makes [os.listdir] raise: the step ends
    with that [OSError] and returns no module text, not even for the
    candidates before it, and [R_LIBS] is not written. *)
Theorem make_module_extra_unlistable
    (w : world W) (super_txt : string) (before after : list string) (p : string)
    (e : oserror) :
  all_pylibdirs (py_ext (self w)) = (before ++ p :: after)%list ->
  listable w before ->
  fs_exists (OsPath.join (installdir (self w)) p) (fs w) = true ->
  fs_listdir (OsPath.join (installdir (self w)) p) (fs w) = inl e ->
  make_module_extra super_txt w = (Raised (OSError e), with_calls w [SuperMakeModuleExtra]).
Proof.
  intros Hall Hbefore Hex Hl. unfold make_module_extra.
  rewrite (bind_returned _ _ _ _ _ (eq_refl : do_call _ w = (Returned tt, with_calls w _))).
  unfold bind at 1. unfold gets at 1. cbn [with_calls self]. rewrite Hall.
  apply bind_raised.
  set (w1 := with_calls w [SuperMakeModuleExtra]).
  assert (Hb1 : listable w1 before) by exact Hbefore.
  generalize [SuperText super_txt]. clear Hall.
  induction before as [|q before IH]; intros txt.
  - cbn [app fold_paths]. apply bind_raised.
    unfold extend_pythonpath, os_path_exists, os_listdir, bind, gets.
    cbn [w1 with_calls self fs]. rewrite Hex. cbn [w1 with_calls self fs]. now rewrite Hl.
  - cbn [app fold_paths].
    assert (Hq : listable w1 [q]) by (intros x [<-|[]]; apply Hb1; now left).
    rewrite (bind_returned _ _ _ _ _ (run_extend_pythonpath w1 txt q Hq)).
    apply IH.
    + intros x Hx. apply Hbefore. now right.
    + intros x Hx. apply Hb1. now right.
Qed.

End ModuleCoverage.

(** ** More on [extract_step], over any file system *)

Section ExtractCoverage.

Context {W : Type} {FS : FileSystem W}.
Variable F : Framework W.

(** The first half of a round for an entry that is not a [oneDNN]
    directory: no file operation. *)
Lemma rename_onednn_other (d : string) (w : world W) :
  fst (fst (PyStr.rpartition d "-")) <> "oneDNN" ->
  rename_onednn d w = (Returned (fst (fst (PyStr.rpartition d "-")), d), w).
Proof.
  intros H. unfold rename_onednn, bind, gets.
  destruct (PyStr.rpartition d "-") as [[s x] y]. cbn [fst] in *.
  apply String.eqb_neq in H. now rewrite H.
Qed.

(** The renaming of a [oneDNN] directory is outside the [try]: when
    [os.rename] fails, the round ends with the bare [OSError], not with an
    [EasyBuildError]; the destination is not cleared, nothing is moved, and
    the entries after it are left alone. *)
Theorem extract_round_rename_failure
    (w : world W) (srcdir : string) (rest : list string) (e : oserror) :
  fst (fst (PyStr.rpartition srcdir "-")) = "oneDNN" ->
  fs_rename (OsPath.join (builddir (self w)) srcdir)
    (OsPath.join (builddir (self w)) (PyStr.replace srcdir "oneDNN" "mkldnn")) (fs w) = inl e ->
  for_each (srcdir :: rest) move_submodule w = (Raised (OSError e), w).
Proof.
  intros Hs Hr. apply for_each_cons_raised.
  unfold move_submodule. apply bind_raised.
  unfold rename_onednn, bind, gets, os_rename.
  destruct (PyStr.rpartition srcdir "-") as [[s x] y]. cbn [fst] in Hs. subst s.
  cbn [String.eqb Ascii.eqb Bool.eqb]. now rewrite Hr.
Qed.

(** When the destination of an entry cannot be cleared, the round ends
    with whatever [remove_dir] raised, in the state it left:
    [shutil.move] is not called, the error is not turned into the one of a
    failed move, and the entries after it are left alone. *)
Theorem extract_round_clear_failure
    (w w1 w2 : world W) (srcdir sub srcdir' main : string) (rest : list string)
    (x : exn) :
  let newdir := OsPath.join (OsPath.join main "3rdparty") sub in
  rename_onednn srcdir w = (Returned (sub, srcdir'), w1) ->
  mxnet_src_dir (self w1) = Some main ->
  remove_dir newdir w1 = (Raised x, w2) ->
  for_each (srcdir :: rest) move_submodule w = (Raised x, w2).
Proof.
  intros newdir Hren Hmain Hrm. apply for_each_cons_raised.
  unfold move_submodule. rewrite (bind_returned _ _ _ _ _ Hren).
  unfold bind at 1. unfold gets at 1.
  unfold bind at 1. unfold gets at 1. rewrite Hmain. cbn [join_attr].
  unfold bind at 1. unfold ret at 1. fold newdir.
  now apply bind_raised.
Qed.

Lemma basename_join_name (b m : string) :
  plain_path b = true -> PyStr.contains "/" m = false ->
  OsPath.basename (OsPath.join b m) = m.
Proof.
  intros Hb Hm.
  assert (Hstart : PyStr.startswith m "/" = false).
  { destruct m as [|c m]; [reflexivity|].
    cbn [PyStr.contains] in Hm. now apply orb_false_iff in Hm as [Hp _]. }
  rewrite (join_plain b m Hb Hstart).
  unfold OsPath.basename, OsPath.sep.
  now rewrite (rsplit_last_app "/" b m (rsplit_last_none "/" m Hm)).
Qed.

(** A build directory that holds the main source directory and nothing
    else: [extract_step] records the directory and returns; no file
    operation is made. *)
Theorem extract_step_no_dependencies (w : world W) (m : string) :
  plain_path (builddir (self w)) = true ->
  fs_listdir (builddir (self w)) (fs w) = inr [m] ->
  is_main m = true ->
  PyStr.contains "/" m = false ->
  extract_step w = (Returned tt, discovered w (OsPath.join (builddir (self w)) m)).
Proof.
  intros Hp Hl Hm Hs.
  rewrite (extract_step_found w [m] m Hp Hl); [|cbn [filter]; now rewrite Hm].
  unfold other_entries. cbn [filter].
  now rewrite (basename_join_name _ m Hp Hs), String.eqb_refl.
Qed.

(** The steps in sequence: when [extract_step] returns, the main source
    directory it recorded is an entry of the build directory matched by
    [*mxnet-*], and [extensions_step] (the switch for R off) then asks the
    framework to install the Python binding from the [python] directory
    below it.  It ends as these calls end: when they return, the calls made
    by the two steps are the seven listed and no other; when one raises (as
    [change_dir] does where there is no [python] directory) the step ends
    with that exception and the calls after it are not made. *)
Theorem extensions_step_after_extract_step (w w1 : world W) :
  plain_path (builddir (self w)) = true ->
  extract_step w = (Returned tt, w1) ->
  install_r_ext (cfg (self w)) = false ->
  exists m,
    In m (listed (builddir (self w)) (fs w)) /\
    is_main m = true /\
    mxnet_src_dir (self w1) = Some (OsPath.join (builddir (self w)) m) /\
    forall (made : list call) (r : option exn) (f : W),
      framework_run F (py_install_calls (OsPath.join (builddir (self w)) m)) (fs w1)
        = (made, r, f) ->
      exists w2,
        extensions_step F w1 = (outcome r, w2) /\
        fs w2 = f /\
        calls w2 =
          (calls w ++
           [SuperExtractStep;
            LogDebug "MXNet dir is: %s" [OsPath.join (builddir (self w)) m]] ++
           made ++ match r with None => skip_r_calls | Some _ => [] end)%list /\
        (r = None ->
           calls w2 =
             (calls w ++
              [SuperExtractStep;
               LogDebug "MXNet dir is: %s" [OsPath.join (builddir (self w)) m];
               ChangeDir (OsPath.join (OsPath.join (builddir (self w)) m) "python");
               PyPrerun; PyRun false; PyPostrun;
               LogDebug "Skipping R extension installation" []])%list).
Proof.
  intros Hp Hrun Hoff. unfold listed.
  destruct (fs_listdir (builddir (self w)) (fs w)) as [e|names] eqn:Hl.
  { rewrite (extract_step_unlisted w e Hp Hl) in Hrun. discriminate. }
  destruct (filter is_main names) as [|m [|m' l]] eqn:Hf.
  - rewrite (extract_step_not_found w names Hp Hl) in Hrun; [discriminate|].
    rewrite Hf. discriminate.
  - assert (Hin : In m (filter is_main names)) by (rewrite Hf; now left).
    apply filter_In in Hin as [Hin Hm].
    rewrite (extract_step_found w names m Hp Hl Hf) in Hrun.
    pose proof (for_each_move_frame (other_entries (builddir (self w)) m names)
                  (discovered w (OsPath.join (builddir (self w)) m))) as [Hs Hc].
    rewrite Hrun in Hs, Hc. cbn [snd] in Hs, Hc.
    exists m. split; [exact Hin|]. split; [exact Hm|].
    split; [now rewrite Hs|].
    intros made r f Hcalls.
    destruct (extensions_step_r_disabled F w1 (OsPath.join (builddir (self w)) m) made r f)
      as (w2 & Hext & Hmade & Hfs & _).
    + rewrite Hs. exact Hoff.
    + now rewrite Hs.
    + exact Hcalls.
    + exists w2. split; [exact Hext|]. split; [exact Hfs|].
      assert (Hall : calls w2 =
                (calls w ++
                 [SuperExtractStep;
                  LogDebug "MXNet dir is: %s" [OsPath.join (builddir (self w)) m]] ++
                 made ++ match r with None => skip_r_calls | Some _ => [] end)%list).
      { rewrite Hmade, Hc. cbn [discovered calls]. now rewrite <- !app_assoc. }
      split; [exact Hall|].
      intros ->. rewrite Hall.
      destruct (framework_run_made F _ _ _ _ _ Hcalls) as [_ Hfull].
      now rewrite (Hfull eq_refl).
  - rewrite (extract_step_not_found w names Hp Hl) in Hrun; [discriminate|].
    rewrite Hf. discriminate.
Qed.

(** The naming of a round settles at once: its submodule name is never
    [oneDNN], and a round for the name the entry has after the first half
    would rename nothing and find the same submodule name and the same
    entry name again. *)
Theorem rename_onednn_settles (w w1 : world W) (d s d' : string) :
  rename_onednn d w = (Returned (s, d'), w1) ->
  s <> "oneDNN" /\
  forall w2 : world W, rename_onednn d' w2 = (Returned (s, d'), w2).
Proof.
  intros H.
  destruct (string_dec (fst (fst (PyStr.rpartition d "-"))) "oneDNN") as [E|N].
  - destruct (renamed_onednn d E) as (tail & r & _ & Hrep & Hr & _).
    assert (Hval : s = "mkldnn" /\ d' = "mkldnn-" ++ r).
    { revert H. unfold rename_onednn, bind, gets, os_rename, ret.
      destruct (PyStr.rpartition d "-") as [[sub x] y]. cbn [fst] in E. subst sub.
      cbn [String.eqb Ascii.eqb Bool.eqb]. rewrite Hrep.
      destruct (fs_rename _ _ (fs w)); intros X; inversion X. now split. }
    destruct Hval as [-> ->]. split; [discriminate|].
    intros w2. rewrite rename_onednn_other.
    + unfold PyStr.rpartition.
      change ("mkldnn-" ++ r) with ("mkldnn" ++ String "-" r).
      now rewrite (rsplit_last_app "-" "mkldnn" r (rsplit_last_none "-" r Hr)).
    + unfold PyStr.rpartition.
      change ("mkldnn-" ++ r) with ("mkldnn" ++ String "-" r).
      rewrite (rsplit_last_app "-" "mkldnn" r (rsplit_last_none "-" r Hr)).
      cbn [fst]. discriminate.
  - rewrite (rename_onednn_other d w N) in H. inversion H; subst.
    split; [exact N|]. intros w2. now apply rename_onednn_other.
Qed.

(** The submodule name of an entry is what stands before its LAST hyphen:
    for a name [x-v] with no hyphen in [v] (and [x] not [oneDNN]) it is [x],
    hyphens of [x] included, and the entry keeps its name. *)
Theorem rename_onednn_name_version (w : world W) (x v : string) :
  PyStr.contains "-" v = false ->
  x <> "oneDNN" ->
  rename_onednn (x ++ "-" ++ v) w = (Returned (x, x ++ "-" ++ v), w).
Proof.
  intros Hv Hx.
  assert (Hr : PyStr.rpartition (x ++ "-" ++ v) "-" = (x, "-", v)).
  { unfold PyStr.rpartition. change ("-" ++ v) with (String "-" v).
    now rewrite (rsplit_last_app "-" x v (rsplit_last_none "-" v Hv)). }
  rewrite rename_onednn_other; rewrite Hr; cbn [fst]; [reflexivity | exact Hx].
Qed.

End ExtractCoverage.

(** ** More on [extract_step], on trees *)

Section TreeCoverage.
Import TreeFS TreePaths TreeFacts TreeOps TreeAssembly TreeResult.

Lemma components_slash (p : string) : components (p ++ "/") = components p.
Proof.
  unfold components. change (p ++ "/") with (p ++ String "/" EmptyString).
  rewrite split_slash_app, filter_app. cbn. now rewrite app_nil_r.
Qed.

Lemma wants_dir_slash (p : string) : wants_dir (p ++ "/") = true.
Proof.
  unfold wants_dir. change (p ++ "/") with (p ++ String "/" EmptyString).
  rewrite split_slash_app. cbn [split_slash]. now rewrite last_last.
Qed.

Lemma slash_not_empty (p : string) : (p ++ "/" =? EmptyString) = false.
Proof. now destruct p. Qed.

Lemma components_3rdparty (bdir m : string) :
  valid_name m = true ->
  components (dir_3rdparty bdir m) = (components bdir ++ [m; "3rdparty"])%list.
Proof.
  intros Hm. unfold dir_3rdparty.
  rewrite (components_join _ "3rdparty" eq_refl), (components_join _ m Hm).
  now rewrite <- app_assoc.
Qed.

(** An entry of the build directory whose name holds no hyphen, a
    directory, takes the place of the whole [3rdparty] directory of the
    main source directory: the round returns; afterwards [3rdparty] is what
    the entry was, so that everything [3rdparty] held before is gone, and
    the entry is no longer in the build directory. *)
Theorem hyphen_free_entry_replaces_3rdparty
    (w : world node) (m d : string) (es tes dn : list (string * node)) :
  let bdir := builddir (self w) in
  mxnet_src_dir (self w) = Some (OsPath.join bdir m) ->
  get (components bdir) (fs w) = Some (Dir es) ->
  valid_name m = true -> valid_name d = true -> d <> m ->
  PyStr.contains "-" d = false ->
  assoc d es = Some (Dir dn) ->
  main_3rdparty m es = Some tes ->
  exists w',
    move_submodule d w = (Returned tt, w') /\
    lookup (dir_3rdparty bdir m) (fs w') = Some (Dir dn) /\
    (forall k, valid_name k = true ->
       lookup (OsPath.join (dir_3rdparty bdir m) k) (fs w') = assoc k dn) /\
    lookup (OsPath.join bdir d) (fs w') = None.
Proof.
  intros bdir Hmain Hes Hm Hd Hdm Hh Hn H3.
  destruct (main_3rdparty_inv m es tes H3) as (mes & Hmm & Hm3).
  assert (Hrp : PyStr.rpartition d "-" = (EmptyString, EmptyString, d)).
  { unfold PyStr.rpartition. now rewrite (rsplit_last_none "-" d Hh). }
  assert (Hnew : OsPath.join (OsPath.join (OsPath.join bdir m) "3rdparty") EmptyString
                 = dir_3rdparty bdir m ++ "/") by apply join_empty_3rdparty.
  (* the destination is cleared: [3rdparty] goes *)
  set (mes1 := assoc_del "3rdparty" mes).
  set (es1 := assoc_set m (Dir mes1) es).
  destruct (del_below (components bdir) [m; "3rdparty"] (fs w) (Dir es) (Dir es1) Hes)
    as (t1 & Hdel1 & Hg1); [discriminate | cbn [del]; now rewrite Hmm, Hm3 |].
  assert (Hm1 : assoc m es1 = Some (Dir mes1)) by apply assoc_set_same.
  assert (Hd1 : assoc d es1 = Some (Dir dn)).
  { unfold es1. rewrite assoc_set_other; [exact Hn | congruence]. }
  assert (H31 : assoc "3rdparty" mes1 = None) by apply assoc_del_same.
  (* the entry is moved to where [3rdparty] was *)
  set (es2 := assoc_del d es1).
  set (es3 := assoc_set m (Dir (assoc_set "3rdparty" (Dir dn) mes1)) es2).
  destruct (del_below (components bdir) [d] t1 (Dir es1) (Dir es2) Hg1)
    as (t2 & Hdel2 & Hg2); [discriminate | cbn [del]; now rewrite Hd1 |].
  assert (Hm2 : assoc m es2 = Some (Dir mes1)).
  { unfold es2. rewrite assoc_del_other; [exact Hm1 | exact Hdm]. }
  destruct (put_below (components bdir) [m; "3rdparty"] (Dir dn) t2 (Dir es2) (Dir es3) Hg2)
    as (t3 & Hput3 & Hg3); [discriminate | cbn [put]; now rewrite Hm2 |].
  assert (Hne : (d =? m) = false) by now apply String.eqb_neq.
  exists (with_fs w t3). split.
  { unfold move_submodule.
    rewrite (bind_returned _ _ _ _ _ (rename_onednn_other d w
               ltac:(rewrite Hrp; cbn [fst]; discriminate))).
    rewrite Hrp. cbn [fst].
    unfold bind at 1. unfold gets at 1.
    unfold bind at 1. unfold gets at 1. fold bdir. rewrite Hmain. cbn [join_attr].
    unfold bind at 1. unfold ret at 1. rewrite Hnew.
    assert (Hrm : remove_dir (dir_3rdparty bdir m ++ "/") w = (Returned tt, with_fs w t1)).
    { unfold remove_dir. cbn [rmtree_attempts fs_remove_dir tree_fs]. unfold remove_tree, lookup.
      rewrite components_slash, wants_dir_slash, (components_3rdparty bdir m Hm).
      rewrite get_app, Hes. cbn [get]. rewrite Hmm, Hm3. cbn [is_dir negb andb].
      rewrite Hdel1. now destruct (dir_3rdparty bdir m ++ "/") eqn:X;
        [rewrite <- String.eqb_eq, slash_not_empty in X|]. }
    rewrite (bind_returned _ _ _ _ _ Hrm).
    unfold try_except, shutil_move. cbn [fs_move tree_fs with_fs fs].
    unfold move, isdir, move_to, rename.
    replace (lookup (dir_3rdparty bdir m ++ "/") t1) with (@None node).
    2:{ unfold lookup. rewrite components_slash, (components_3rdparty bdir m Hm).
        rewrite get_app, Hg1. cbn [get]. rewrite Hm1, H31.
        now destruct (dir_3rdparty bdir m ++ "/"). }
    rewrite (lookup_entry t1 bdir es1 Hg1 d Hd), Hd1.
    rewrite slash_not_empty, components_slash, wants_dir_slash.
    rewrite (components_join bdir d Hd), (components_3rdparty bdir m Hm).
    rewrite (is_nil_snoc _ [] d).
    replace (is_nil (components bdir ++ [m; "3rdparty"])) with false
      by (symmetry; apply (is_nil_snoc _ [m] "3rdparty")).
    cbn [orb is_dir negb andb].
    rewrite list_eqb_app, is_prefix_app. cbn [list_eqb is_prefix]. rewrite Hne.
    cbn [andb].
    replace (removelast (components bdir ++ [m; "3rdparty"]))
      with (components bdir ++ [m])%list
      by (symmetry; apply (removelast_snoc (components bdir) [m] "3rdparty")).
    rewrite !get_app, Hg1. cbn [get]. rewrite Hm1, H31.
    rewrite Hdel2, Hput3. reflexivity. }
  cbn [with_fs fs]. split; [|split].
  - unfold lookup. rewrite (components_3rdparty bdir m Hm), get_app, Hg3.
    unfold dir_3rdparty. rewrite (wants_dir_join _ "3rdparty" eq_refl).
    cbn [get]. unfold es3. rewrite assoc_set_same, assoc_set_same.
    pose proof (join_not_empty (OsPath.join bdir m) "3rdparty" eq_refl) as X.
    now destruct (OsPath.join (OsPath.join bdir m) "3rdparty").
  - intros k Hk. rewrite (lookup_join _ k _ Hk), (components_3rdparty bdir m Hm).
    rewrite <- app_assoc, get_app, Hg3. cbn [app get]. unfold es3.
    rewrite assoc_set_same, assoc_set_same. now destruct (assoc k dn).
  - rewrite (lookup_entry t3 bdir es3 Hg3 d Hd). unfold es3, es2.
    rewrite assoc_set_other by congruence. apply assoc_del_same.
Qed.

(** What [3rdparty] held before and no dependency replaces is still there
    after [extract_step]: on a build directory that can be assembled the
    step returns, records the main source directory, and under [3rdparty]
    every name that is not the new name of a dependency names what it
    named before; [3rdparty] lists these names and the new ones. *)
Theorem extract_step_keeps_other_3rdparty_entries
    (w : world node) (m : string) (es tes : list (string * node)) :
  let bdir := builddir (self w) in
  let deps := dependencies m es in
  assemblable w m es tes ->
  exists w' kept,
    extract_step w = (Returned tt, w') /\
    mxnet_src_dir (self w') = Some (OsPath.join bdir m) /\
    listdir (dir_3rdparty bdir m) (fs w') = inr kept /\
    Permutation kept
      (filter (fun k => negb (mem k (map submodule_of deps))) (map fst tes)
       ++ map submodule_of deps) /\
    (forall k, valid_name k = true -> mem k (map submodule_of deps) = false ->
       lookup (OsPath.join (dir_3rdparty bdir m) k) (fs w') = assoc k tes).
Proof.
  intros bdir deps (Hp & Hes & Hnd & Hvalid & Hmain & H3 & Hsub & Hnds & Hdest).
  destruct (extract_step_tree w m es tes Hp Hes (distinct_NoDup _ Hnd) Hvalid Hmain H3
              Hsub (distinct_NoDup _ Hnds) Hdest)
    as (w' & kept & Hrun & Hsrc & _ & H3rd & Hperm & _ & Hkept).
  exists w', kept. repeat split; auto.
  intros k Hk Hmem. apply Hkept; [exact Hk | now apply mem_false_iff].
Qed.

Lemma same_entries_same_names (es1 es2 : list (string * node)) (d : string) :
  (forall k, assoc k es1 = assoc k es2) ->
  In d (map fst es1) -> In d (map fst es2).
Proof.
  intros Hsame Hin. destruct (assoc d es2) as [n|] eqn:E.
  - exact (assoc_some_names d n es2 E).
  - rewrite <- Hsame in E. now apply assoc_none_names in E.
Qed.

(** The order in which the build directory is listed does not matter: two
    states with the same build directory path, whose build directories
    hold the same entries under the same names, listed in whatever order,
    both assemblable, end after [extract_step] with the same main source
    directory and with the same entry under every name of [3rdparty]. *)
Theorem extract_step_listing_order_irrelevant
    (w1 w2 : world node) (m : string) (es1 es2 tes : list (string * node)) :
  let bdir := builddir (self w1) in
  builddir (self w2) = builddir (self w1) ->
  assemblable w1 m es1 tes ->
  assemblable w2 m es2 tes ->
  (forall k, assoc k es1 = assoc k es2) ->
  exists w1' w2',
    extract_step w1 = (Returned tt, w1') /\
    extract_step w2 = (Returned tt, w2') /\
    mxnet_src_dir (self w1') = mxnet_src_dir (self w2') /\
    (forall k, valid_name k = true ->
       lookup (OsPath.join (dir_3rdparty bdir m) k) (fs w1')
       = lookup (OsPath.join (dir_3rdparty bdir m) k) (fs w2')).
Proof.
  intros bdir Hb (Hp1 & Hes1 & Hnd1 & Hvalid1 & Hmain1 & H31 & Hsub1 & Hnds1 & Hdest1)
    (Hp2 & Hes2 & Hnd2 & Hvalid2 & Hmain2 & H32 & Hsub2 & Hnds2 & Hdest2) Hsame.
  destruct (extract_step_tree w1 m es1 tes Hp1 Hes1 (distinct_NoDup _ Hnd1) Hvalid1 Hmain1
              H31 Hsub1 (distinct_NoDup _ Hnds1) Hdest1)
    as (w1' & kept1 & Hrun1 & Hsrc1 & _ & _ & _ & Hmoved1 & Hkept1).
  destruct (extract_step_tree w2 m es2 tes Hp2 Hes2 (distinct_NoDup _ Hnd2) Hvalid2 Hmain2
              H32 Hsub2 (distinct_NoDup _ Hnds2) Hdest2)
    as (w2' & kept2 & Hrun2 & Hsrc2 & _ & _ & _ & Hmoved2 & Hkept2).
  rewrite Hb in Hsrc2, Hmoved2, Hkept2. fold bdir in Hsrc1, Hmoved1, Hkept1, Hsrc2, Hmoved2, Hkept2.
  assert (Hdeps : forall d, In d (dependencies m es1) <-> In d (dependencies m es2)).
  { intros d. rewrite !in_dependencies. split; intros [Hin Hdm]; split; auto.
    - now apply (same_entries_same_names es1 es2).
    - apply (same_entries_same_names es2 es1); auto. }
  exists w1', w2'. split; [exact Hrun1|]. split; [exact Hrun2|].
  split; [now rewrite Hsrc1, Hsrc2|].
  intros k Hk.
  destruct (in_dec string_dec k (map submodule_of (dependencies m es1))) as [Hin|Hout].
  - apply in_map_iff in Hin as (d & <- & Hd).
    assert (Hd1 : In d (map fst es1)) by (apply in_dependencies in Hd; tauto).
    destruct (assoc d es1) as [n|] eqn:E; [|now apply assoc_none_names in E].
    rewrite (Hmoved1 d n Hd E).
    rewrite Hsame in E. symmetry. apply (Hmoved2 d n); [now apply Hdeps | exact E].
  - rewrite (Hkept1 k Hk Hout). symmetry. apply (Hkept2 k Hk).
    intros Hin. apply Hout. apply in_map_iff in Hin as (d & <- & Hd).
    apply in_map. now apply Hdeps.
Qed.

Lemma join_no_trailing_slash (a x : string) :
  valid_name x = true -> PyStr.ends_with_char "/" (OsPath.join a x) = false.
Proof.
  intros Hx. destruct (PyStr.ends_with_char "/" (OsPath.join a x)) eqn:He; [|reflexivity].
  destruct (ends_with_slash_inv _ He) as [a' Ha'].
  pose proof (wants_dir_join a x Hx) as Hw. rewrite Ha', wants_dir_slash in Hw.
  discriminate.
Qed.

Lemma put_makedirs_below p q n t s s' :
  get p t = Some s -> q <> [] -> put_makedirs q n s = Some s' ->
  exists t', put_makedirs (p ++ q) n t = Some t' /\ get p t' = Some s'.
Proof.
  revert t. induction p as [|c p IH]; intros t Hg Hq Hp.
  - cbn in Hg. inversion Hg; subst. now exists s'.
  - cbn [get] in Hg. destruct t as [|es]; [discriminate|].
    destruct (assoc c es) as [sub|] eqn:Hc; [|discriminate].
    destruct (IH sub Hg Hq Hp) as (sub' & Hput & Hget).
    cbn [app put_makedirs]. rewrite Hc, Hput.
    destruct (p ++ q)%list eqn:Hpq.
    { apply app_eq_nil in Hpq as [_ ?]. contradiction. }
    eexists. split; [reflexivity|]. cbn [get]. now rewrite assoc_set_same.
Qed.

(** A main source directory without a [3rdparty] directory.  A dependency
    that is a directory still goes in: the failed [os.rename] makes
    [shutil.move] copy the tree, which creates [3rdparty], so that
    afterwards [3rdparty] lists the submodule alone.  A dependency that is a
    regular file does not: the round ends with the error of a failed move,
    the file system as it was. *)
Theorem move_submodule_without_3rdparty
    (w : world node) (m d : string) (es mes : list (string * node)) (n : node) :
  let bdir := builddir (self w) in
  let sub := fst (fst (PyStr.rpartition d "-")) in
  mxnet_src_dir (self w) = Some (OsPath.join bdir m) ->
  get (components bdir) (fs w) = Some (Dir es) ->
  valid_name m = true -> valid_name d = true -> d <> m ->
  sub <> "oneDNN" -> valid_name sub = true ->
  assoc m es = Some (Dir mes) ->
  assoc "3rdparty" mes = None ->
  assoc d es = Some n ->
  match n with
  | Dir _ =>
      exists w',
        move_submodule d w = (Returned tt, w') /\
        listdir (dir_3rdparty bdir m) (fs w') = inr [sub] /\
        lookup (OsPath.join (dir_3rdparty bdir m) sub) (fs w') = Some n /\
        lookup (OsPath.join bdir d) (fs w') = None
  | File _ =>
      move_submodule d w
      = (Raised (move_failed (OsPath.join bdir d)
                   (OsPath.join (dir_3rdparty bdir m) sub) ENOENT), w)
  end.
Proof.
  intros bdir sub Hmain Hes Hm Hd Hdm Hs Hv Hmm Hm3 Hn.
  assert (Hne : (d =? m) = false) by now apply String.eqb_neq.
  assert (Hc3 : components (OsPath.join (dir_3rdparty bdir m) sub)
                = (components bdir ++ [m; "3rdparty"; sub])%list).
  { rewrite (components_join _ sub Hv), (components_3rdparty bdir m Hm).
    now rewrite <- app_assoc. }
  assert (Hnone : get (components bdir ++ [m; "3rdparty"; sub]) (fs w) = None).
  { rewrite get_app, Hes. cbn [get]. now rewrite Hmm, Hm3. }
  assert (Hnew : lookup (OsPath.join (dir_3rdparty bdir m) sub) (fs w) = None).
  { unfold lookup. rewrite Hc3, Hnone. now destruct (OsPath.join _ sub). }
  assert (Hrm : remove_dir (OsPath.join (dir_3rdparty bdir m) sub) w = (Returned tt, w)).
  { unfold remove_dir. cbn [rmtree_attempts fs_remove_dir tree_fs]. unfold remove_tree.
    rewrite Hnew. now destruct w. }
  assert (Hrename : rename (OsPath.join bdir d) (OsPath.join (dir_3rdparty bdir m) sub) (fs w)
                    = inl ENOENT).
  { unfold rename. rewrite (lookup_entry (fs w) bdir es Hes d Hd), Hn.
    pose proof (join_not_empty (dir_3rdparty bdir m) sub Hv) as X.
    apply String.eqb_neq in X. rewrite X.
    rewrite (components_join bdir d Hd), Hc3, (wants_dir_join _ sub Hv).
    rewrite (is_nil_snoc _ [] d).
    replace (is_nil (components bdir ++ [m; "3rdparty"; sub])) with false
      by (symmetry; apply (is_nil_snoc _ [m; "3rdparty"] sub)).
    cbn [orb andb].
    rewrite list_eqb_app, is_prefix_app. cbn [list_eqb is_prefix]. rewrite Hne.
    cbn [andb]. rewrite andb_false_r.
    replace (removelast (components bdir ++ [m; "3rdparty"; sub]))
      with (components bdir ++ [m; "3rdparty"])%list
      by (symmetry; apply (removelast_snoc (components bdir) [m; "3rdparty"] sub)).
    rewrite get_app, Hes. cbn [get]. now rewrite Hmm, Hm3. }
  assert (Hstep : move_submodule d w
                  = try_except (shutil_move (OsPath.join bdir d)
                                  (OsPath.join (dir_3rdparty bdir m) sub))
                      (move_error (OsPath.join bdir d)
                         (OsPath.join (dir_3rdparty bdir m) sub)) w).
  { unfold move_submodule.
    rewrite (bind_returned _ _ _ _ _ (rename_onednn_other d w Hs)). fold sub.
    unfold bind at 1. unfold gets at 1.
    unfold bind at 1. unfold gets at 1. fold bdir. rewrite Hmain. cbn [join_attr].
    unfold bind at 1. unfold ret at 1.
    now rewrite (bind_returned _ _ _ _ _ Hrm). }
  rewrite Hstep. unfold try_except, shutil_move. cbn [fs_move tree_fs].
  unfold move, isdir. rewrite Hnew. unfold move_to. rewrite Hrename.
  rewrite (lookup_entry (fs w) bdir es Hes d Hd), Hn.
  destruct n as [data|dn].
  { unfold copy_error. rewrite (join_no_trailing_slash _ sub Hv).
    cbn [move_error]. unfold raise, move_failed. now destruct w. }
  rewrite (components_join bdir d Hd), Hc3, is_prefix_app. cbn [is_prefix].
  rewrite Hne. cbn [andb]. rewrite Hnone.
  set (es1 := assoc_set m (Dir (assoc_set "3rdparty" (Dir [(sub, Dir dn)]) mes)) es).
  destruct (put_makedirs_below (components bdir) [m; "3rdparty"; sub] (Dir dn) (fs w)
              (Dir es) (Dir es1) Hes) as (t1 & Hput & Hg1);
    [discriminate | cbn [put_makedirs]; now rewrite Hmm, Hm3 |].
  assert (Hd1 : assoc d es1 = Some (Dir dn)).
  { unfold es1. rewrite assoc_set_other; [exact Hn | congruence]. }
  destruct (del_below (components bdir) [d] t1 (Dir es1) (Dir (assoc_del d es1)) Hg1)
    as (t2 & Hdel & Hg2); [discriminate | cbn [del]; now rewrite Hd1 |].
  rewrite Hput, Hdel.
  assert (Hm2 : assoc m (assoc_del d es1)
                = Some (Dir (assoc_set "3rdparty" (Dir [(sub, Dir dn)]) mes))).
  { rewrite assoc_del_other by exact Hdm. apply assoc_set_same. }
  eexists. split; [reflexivity|]. cbn [with_fs fs]. split; [|split].
  - unfold listdir. rewrite (components_3rdparty bdir m Hm), get_app, Hg2.
    cbn [get]. rewrite Hm2, assoc_set_same.
    pose proof (join_not_empty (OsPath.join bdir m) "3rdparty" eq_refl) as X.
    unfold dir_3rdparty. now destruct (OsPath.join (OsPath.join bdir m) "3rdparty").
  - rewrite (lookup_join _ sub _ Hv), (components_3rdparty bdir m Hm).
    rewrite <- app_assoc, get_app, Hg2. cbn [app get].
    rewrite Hm2, assoc_set_same. cbn [assoc]. now rewrite String.eqb_refl.
  - rewrite (lookup_entry t2 bdir _ Hg2 d Hd). apply assoc_del_same.
Qed.

End TreeCoverage.

(** ** Instances of the further properties *)

Section FurtherInstances.
Import TreeFS Examples Cases Processes.



(** [imkl] in the toolchain, nothing loaded. *)
Lemma configure_step_imkl_not_loaded_witness :
  let w := scenario (TcList [Some "imkl"]) in
  configure_step env_bare w =
    (Raised (AttributeError "'LooseVersion' object has no attribute 'version'"),
     with_opts w (base_opts env_bare)).
Proof.
  apply (configure_step_imkl_not_loaded env_bare (scenario (TcList [Some "imkl"])));
    reflexivity.
Defined.

(** The empty toolchain definition. *)
Lemma configure_step_without_blas_key_witness :
  keys (toolchain_definition (self plain_world)) = [] /\
  configure_step env plain_world =
    (Raised (TypeError "'NoneType' object is not subscriptable"),
     with_opts plain_world (base_opts env)).
Proof.
  split; [reflexivity|].
  apply (configure_step_without_blas_key env plain_world). intros [].
Defined.

(** [extensions_step] on the easyblock as [__init__] leaves it. *)
Lemma extensions_step_without_sources_witness :
  let w := on_process (scenario (TcList [Some "imkl"])) in
  extensions_step process_framework w =
    (Raised (TypeError "expected str, bytes or os.PathLike object, not NoneType"), w).
Proof.
  apply (extensions_step_without_sources process_framework
           (on_process (scenario (TcList [Some "imkl"])))).
  reflexivity.
Defined.


(** The fake module cannot be loaded. *)
Lemma sanity_check_step_fake_module_fails_witness :
  let w := scenario_extracted in
  sanity_check_step env collaborators_no_module w =
    (Raised (EasyBuildError "Loading fake module failed: %s"
               [FExn (EasyBuildError "Unable to load module %s" [FStr "MXNet"])]),
     with_calls w [SuperSanityCheckStep ["lib/libmxnet.a"; "lib/libmxnet.so"] [];
                   LoadFakeModule]).
Proof.
  apply (sanity_check_step_fake_module_fails env collaborators_no_module scenario_extracted
           (EasyBuildError "Unable to load module %s" [FStr "MXNet"])); reflexivity.
Defined.

(** The check of the R binding fails. *)
Lemma sanity_check_step_r_check_fails_witness :
  let w := scenario_extracted in
  fst (sanity_check_step env collaborators_no_r w)
    = Raised (EasyBuildError "The sanity check for the R bindings failed" []) /\
  modulename (r_ext (self (snd (sanity_check_step env collaborators_no_r w))))
    = Some "mxnet".
Proof.
  destruct (sanity_check_step_r_check_fails env collaborators_no_r scenario_extracted "fake"
              eq_refl eq_refl eq_refl eq_refl) as (Hr & _ & Hm).
  split; [exact Hr | exact Hm].
Defined.

(** A library directory that is a regular file. *)
Lemma make_module_extra_unlistable_witness :
  let w := odd_install_world in
  fs_exists "/opt/mxnet/lib64/python3.9/site-packages" (fs w) = true /\
  fs_listdir "/opt/mxnet/lib64/python3.9/site-packages" (fs w) = inl ENOTDIR /\
  make_module_extra "conflict MXNet" w
    = (Raised (OSError ENOTDIR), with_calls w [SuperMakeModuleExtra]).
Proof.
  split; [reflexivity|]. split; [reflexivity|].
  apply (make_module_extra_unlistable odd_install_world "conflict MXNet"
           ["lib/python3.9/site-packages"] [] "lib64/python3.9/site-packages" ENOTDIR).
  - reflexivity.
  - intros p [<-|[]] _. eexists. reflexivity.
  - reflexivity.
  - reflexivity.
Defined.

(** [oneDNN-1] next to a [mkldnn-1] that is not empty. *)
Lemma extract_round_rename_failure_witness :
  let w := crowded_world in
  fs_rename "/b/oneDNN-1" "/b/mkldnn-1" (fs w) = inl ENOTEMPTY /\
  for_each ["oneDNN-1"; "mkldnn-1"; "foo-1"] move_submodule w
    = (Raised (OSError ENOTEMPTY), w).
Proof.
  split; [reflexivity|].
  apply (extract_round_rename_failure crowded_world "oneDNN-1" ["mkldnn-1"; "foo-1"]
           ENOTEMPTY); reflexivity.
Defined.

(** The place of [foo-1] is taken by a regular file: each of the three
    attempts to remove it fails. *)
Lemma extract_round_clear_failure_witness :
  let w := taken_world in
  for_each ["foo-1"; "bar-2"] move_submodule w
    = (Raised (EasyBuildError
                 ("Failed to remove directory %s even after %d attempts." ++ nl ++
                  "Reasons: %s")
                 [FStr "/b/mxnet-1.9/3rdparty/foo"; FNat 3;
                  FExnList [OSError ENOTDIR; OSError ENOTDIR; OSError ENOTDIR]]), w).
Proof.
  apply (extract_round_clear_failure taken_world taken_world taken_world
           "foo-1" "foo" "foo-1" "/b/mxnet-1.9" ["bar-2"]); reflexivity.
Defined.

(** Only the main source directory. *)
Lemma extract_step_no_dependencies_witness :
  fs_listdir "/b" (fs lone_world) = inr ["mxnet-1.9"] /\
  extract_step lone_world = (Returned tt, discovered lone_world "/b/mxnet-1.9").
Proof.
  split; [reflexivity|].
  apply (extract_step_no_dependencies lone_world "mxnet-1.9"); reflexivity.
Defined.

(** The two steps on the scenario, as a process: the [python] directory
    is there and the installer calls return. *)
Lemma extensions_step_after_extract_step_witness :
  let w := on_process (scenario (TcList [Some "imkl"])) in
  exists w2,
    extensions_step process_framework (snd (extract_step w)) = (Returned tt, w2) /\
    calls w2 =
      [SuperExtractStep; LogDebug "MXNet dir is: %s" ["/b/proj-mxnet-1.9"];
       ChangeDir "/b/proj-mxnet-1.9/python"; PyPrerun; PyRun false; PyPostrun;
       LogDebug "Skipping R extension installation" []].
Proof.
  intros w.
  assert (Hrun : extract_step w = (Returned tt, snd (extract_step w))) by reflexivity.
  destruct (extensions_step_after_extract_step process_framework w (snd (extract_step w))
              eq_refl Hrun eq_refl)
    as (m & Hin & Hm & Hsrc & Hext).
  assert (Hmain : Some (OsPath.join "/b" m) = Some "/b/proj-mxnet-1.9")
    by (transitivity (mxnet_src_dir (self (snd (extract_step w))));
        [symmetry; exact Hsrc | reflexivity]).
  injection Hmain as Hmain.
  cbn [builddir self w on_process scenario easyblock init] in Hext. rewrite Hmain in Hext.
  pose (cs := py_install_calls "/b/proj-mxnet-1.9").
  assert (Hcalls : framework_run process_framework cs (fs (snd (extract_step w)))
                   = (cs, None,
                      snd (framework_run process_framework cs (fs (snd (extract_step w))))))
    by reflexivity.
  destruct (Hext _ _ _ Hcalls) as (w2 & Hstep & _ & _ & Hall).
  exists w2. split; [exact Hstep | exact (Hall eq_refl)].
Defined.

(** The same two steps where the main source directory has no [python]
    directory: [extract_step] returns, and [extensions_step] ends with what
    [change_dir] raises, no installer called. *)
Lemma extensions_step_without_python_directory :
  let w := on_process lone_world in
  fst (extract_step w) = Returned tt /\
  (exists e, fst (extensions_step process_framework (snd (extract_step w))) = Raised e) /\
  calls (snd (extensions_step process_framework (snd (extract_step w)))) =
    [SuperExtractStep; LogDebug "MXNet dir is: %s" ["/b/mxnet-1.9"];
     ChangeDir "/b/mxnet-1.9/python"].
Proof. split; [reflexivity|]. split; [eexists|]; reflexivity. Qed.

(** A [oneDNN] directory: the names it gives are stable. *)
Lemma rename_onednn_settles_witness :
  rename_onednn "oneDNN-1.2" onednn_world
    = (Returned ("mkldnn", "mkldnn-1.2"), snd (rename_onednn "oneDNN-1.2" onednn_world)) /\
  forall w2 : world node,
    rename_onednn "mkldnn-1.2" w2 = (Returned ("mkldnn", "mkldnn-1.2"), w2).
Proof.
  assert (Hrun : rename_onednn "oneDNN-1.2" onednn_world
                 = (Returned ("mkldnn", "mkldnn-1.2"),
                    snd (rename_onednn "oneDNN-1.2" onednn_world))) by reflexivity.
  split; [exact Hrun|].
  apply (rename_onednn_settles onednn_world _ "oneDNN-1.2" "mkldnn" "mkldnn-1.2" Hrun).
Defined.

(** A dependency named by a name and a commit. *)
Lemma rename_onednn_name_version_witness :
  rename_onednn "ps-lite-a1b2" lone_world = (Returned ("ps-lite", "ps-lite-a1b2"), lone_world).
Proof.
  apply (rename_onednn_name_version lone_world "ps-lite" "a1b2"); [reflexivity | discriminate].
Defined.

(** [README], a directory, takes the place of [3rdparty]. *)
Lemma hyphen_free_entry_replaces_3rdparty_witness :
  exists w',
    move_submodule "README" plain_world = (Returned tt, w') /\
    lookup "/b/mxnet-1.9/3rdparty" (fs w') = Some (Dir [("r", File "r")]) /\
    lookup "/b/mxnet-1.9/3rdparty/x" (fs w') = None /\
    lookup "/b/README" (fs w') = None.
Proof.
  assert (N : "README" <> "mxnet-1.9") by discriminate.
  destruct (hyphen_free_entry_replaces_3rdparty plain_world "mxnet-1.9" "README"
              [("mxnet-1.9", Dir [("3rdparty", Dir [("x", Dir [])])]);
               ("README", Dir [("r", File "r")])]
              [("x", Dir [])] [("r", File "r")]
              eq_refl eq_refl eq_refl eq_refl N eq_refl eq_refl eq_refl)
    as (w' & Hrun & H3 & Hk & Hold).
  exists w'. split; [exact Hrun|]. split; [exact H3|]. split; [|exact Hold].
  exact (Hk "x" eq_refl).
Defined.

(** The scenario keeps what [3rdparty] held under other names: nothing. *)
Lemma extract_step_keeps_other_3rdparty_entries_witness :
  exists w' kept,
    extract_step (scenario (TcList [Some "imkl"])) = (Returned tt, w') /\
    listdir "/b/proj-mxnet-1.9/3rdparty" (fs w') = inr kept /\
    Permutation kept ["mkldnn"; "ps-lite"].
Proof.
  assert (A : assemblable (scenario (TcList [Some "imkl"])) "proj-mxnet-1.9" scenario_build
                [("mkldnn", Dir []); ("ps-lite", Dir [])]).
  { unfold assemblable. repeat (split; [reflexivity|]). reflexivity. }
  destruct (extract_step_keeps_other_3rdparty_entries (scenario (TcList [Some "imkl"]))
              "proj-mxnet-1.9" scenario_build [("mkldnn", Dir []); ("ps-lite", Dir [])] A)
    as (w' & kept & Hrun & _ & Hl & Hp & _).
  exists w', kept. split; [exact Hrun|]. split; [exact Hl | exact Hp].
Defined.

(** The scenario and the scenario listed the other way round. *)
Lemma extract_step_listing_order_irrelevant_witness :
  exists w1' w2',
    extract_step (scenario (TcList [Some "imkl"])) = (Returned tt, w1') /\
    extract_step scenario_reversed = (Returned tt, w2') /\
    lookup "/b/proj-mxnet-1.9/3rdparty/mkldnn" (fs w1')
    = lookup "/b/proj-mxnet-1.9/3rdparty/mkldnn" (fs w2').
Proof.
  assert (A1 : assemblable (scenario (TcList [Some "imkl"])) "proj-mxnet-1.9" scenario_build
                 [("mkldnn", Dir []); ("ps-lite", Dir [])]).
  { unfold assemblable. repeat (split; [reflexivity|]). reflexivity. }
  assert (A2 : assemblable scenario_reversed "proj-mxnet-1.9" (rev scenario_build)
                 [("mkldnn", Dir []); ("ps-lite", Dir [])]).
  { unfold assemblable. repeat (split; [reflexivity|]). reflexivity. }
  assert (S : forall k, assoc k scenario_build = assoc k (rev scenario_build)).
  { intros k. cbn [scenario_build rev app assoc].
    destruct (String.eqb_spec "proj-mxnet-1.9" k) as [<-|_]; [reflexivity|].
    destruct (String.eqb_spec "oneDNN-2.6" k) as [<-|_]; reflexivity. }
  destruct (extract_step_listing_order_irrelevant (scenario (TcList [Some "imkl"]))
              scenario_reversed "proj-mxnet-1.9" scenario_build (rev scenario_build)
              [("mkldnn", Dir []); ("ps-lite", Dir [])] eq_refl A1 A2 S)
    as (w1' & w2' & H1 & H2 & _ & Hk).
  exists w1', w2'. split; [exact H1|]. split; [exact H2|].
  exact (Hk "mkldnn" eq_refl).
Defined.

(** [foo-1], a directory, with no [3rdparty] to go to. *)
Lemma move_submodule_without_3rdparty_witness :
  lookup "/b/mxnet-1.9/3rdparty" (fs bare_main_world) = None /\
  exists w',
    move_submodule "foo-1" bare_main_world = (Returned tt, w') /\
    listdir "/b/mxnet-1.9/3rdparty" (fs w') = inr ["foo"] /\
    lookup "/b/mxnet-1.9/3rdparty/foo" (fs w') = Some (Dir [("a", File "one")]) /\
    lookup "/b/foo-1" (fs w') = None.
Proof.
  split; [reflexivity|].
  assert (N : "foo-1" <> "mxnet-1.9") by discriminate.
  assert (O : fst (fst (PyStr.rpartition "foo-1" "-")) <> "oneDNN") by discriminate.
  exact (move_submodule_without_3rdparty bare_main_world "mxnet-1.9" "foo-1"
           bare_main_build [("src", Dir [])] (Dir [("a", File "one")])
           eq_refl eq_refl eq_refl eq_refl N O eq_refl eq_refl eq_refl eq_refl).
Defined.

End FurtherInstances.
